(** * SoulMatch bot ([dating_bot.py]): a shallow embedding and its properties

    The bot is a set of handlers over one SQLite database.  Each handler is
    embedded as a pure function from the database (and, for the profile
    dialogue, the per-user conversation data) to the new database and the
    list of Telegram calls it makes, in the order it makes them.

    Modelling conventions.
    - A table is the list of its rows in rowid order; [INSERT] appends a row
      whose id is one more than the largest id in the table.
    - Integers are [Z].  Columns that the code may fill with [None] are
      [option]s; the others are plain values.
    - SQLite keeps an integer in 64 bits, and [sqlite3] raises
      [OverflowError] when a statement is given a Python [int] outside that
      range ([in_int64]).  The ids that Telegram and the database supply
      fit.  A number that a handler reads from text (the target of a button
      payload, the first argument of [/report], the age) need not: the
      handlers are embedded for the numbers that fit, and a property that
      rests on a statement binding such a number assumes [in_int64] of it.
      For a number that does not fit, the first statement that binds it
      raises and the handler stops there; the comment of each handler says
      where.
    - Text is [string].  Where the code inspects characters ([str.strip],
      [str.isdigit], [int]) a character is read as a code point in
      U+0000..U+00FF, and the three Python predicates are given exactly on
      that range.  Message constants that contain characters above U+00FF
      keep their source spelling; nothing inspects them.
    - Updates are handled one at a time ([ApplicationBuilder] is used with
      its default, sequential, update processing), so a handler runs to its
      end before the next one starts.
    - With their integers in range, database statements succeed, and so
      do the replies to the sender; [ctx.bot.send_message], which the code
      guards with [try], takes its outcome as the boolean [send_ok]. *)

From Stdlib Require Import ZArith List String Ascii Bool Lia.
From Stdlib Require Import Decimal DecimalString DecimalPos DecimalN DecimalZ.
Import ListNotations.

Local Open Scope string_scope.
Local Open Scope list_scope.
Local Open Scope Z_scope.

(** ** Python built-ins used by the handlers *)

Module Py.

Definition code (c : ascii) : N := N_of_ascii c.

Definition in_range (lo hi : N) (c : ascii) : bool :=
  (N.leb lo (code c)) && (N.leb (code c) hi).

(** [str.isspace] on one character, below U+0100: TAB..CR, FS..US, SPACE,
    NEL and NBSP.  This is the set [str.strip()] removes. *)
Definition isspace (c : ascii) : bool :=
  in_range 9 13 c || in_range 28 32 c
  || N.eqb (code c) 133 || N.eqb (code c) 160.

(** C-level [Py_ISSPACE], used by the integer parser: TAB..CR and SPACE. *)
Definition c_isspace (c : ascii) : bool :=
  in_range 9 13 c || N.eqb (code c) 32.

Definition is_decimal (c : ascii) : bool := in_range 48 57 c.

(** [str.isdigit] on one character, below U+0100: the ten decimal digits
    and the superscripts U+00B2, U+00B3 and U+00B9. *)
Definition isdigit_char (c : ascii) : bool :=
  is_decimal c || N.eqb (code c) 178 || N.eqb (code c) 179
  || N.eqb (code c) 185.

Fixpoint forall_chars (p : ascii -> bool) (s : string) : bool :=
  match s with
  | EmptyString => true
  | String c r => p c && forall_chars p r
  end.

Definition is_empty (s : string) : bool :=
  match s with EmptyString => true | _ => false end.

(** [s.isdigit()]: non-empty and every character a digit. *)
Definition isdigit (s : string) : bool :=
  negb (is_empty s) && forall_chars isdigit_char s.

Fixpoint lstrip (s : string) : string :=
  match s with
  | EmptyString => EmptyString
  | String c r => if isspace c then lstrip r else s
  end.

Fixpoint rstrip (s : string) : string :=
  match s with
  | EmptyString => EmptyString
  | String c r =>
      let r' := rstrip r in
      if is_empty r' && isspace c then EmptyString else String c r'
  end.

(** [s.strip()] *)
Definition strip (s : string) : string := rstrip (lstrip s).

(** [len(s)] *)
Definition len (s : string) : Z := Z.of_nat (String.length s).

(** [x or y] on strings: the empty string is falsy. *)
Definition str_or (x y : string) : string := if is_empty x then y else x.

(** [x or y] where [x] may be [None]. *)
Definition opt_or (x : option string) (y : string) : string :=
  match x with
  | Some s => str_or s y
  | None => y
  end.

(** [str(n)] for an integer, which is also how an f-string formats it. *)
Definition str_of_int (n : Z) : string := NilZero.string_of_int (Z.to_int n).

(** An f-string field holding a value that may be [None]. *)
Definition fmt_opt (x : option string) : string :=
  match x with Some s => s | None => "None" end.

Definition fmt_opt_int (x : option Z) : string :=
  match x with Some n => str_of_int n | None => "None" end.

Definition nl : string := String "010"%char EmptyString.

(** *** [int(s)]

    CPython first rewrites a non-ASCII string: characters below 127 are
    kept, white space becomes a blank, and any other character (there is no
    decimal digit between U+0080 and U+00FF) becomes [?].  The result goes to
    [PyLong_FromString] in base 10: blanks, an optional sign, a run of digits
    and underscores (no underscore first, last or doubled), blanks, end.
    The limit on the number of digits (4300) is out of reach of a Telegram
    message or button payload and is not modelled. *)

Definition to_ascii_char (c : ascii) : ascii :=
  if N.ltb (code c) 127 then c
  else if isspace c then " "%char else "?"%char.

Fixpoint map_chars (f : ascii -> ascii) (s : string) : string :=
  match s with
  | EmptyString => EmptyString
  | String c r => String (f c) (map_chars f r)
  end.

Definition to_ascii (s : string) : string :=
  if forall_chars (fun c => N.ltb (code c) 128) s then s
  else map_chars to_ascii_char s.

Fixpoint skip_cspace (s : string) : string :=
  match s with
  | EmptyString => EmptyString
  | String c r => if c_isspace c then skip_cspace r else s
  end.

Definition is_underscore (c : ascii) : bool := N.eqb (code c) 95.

(** The longest prefix made of digits and underscores, and what follows. *)
Fixpoint span_run (s : string) : string * string :=
  match s with
  | EmptyString => (EmptyString, EmptyString)
  | String c r =>
      if is_decimal c || is_underscore c
      then let '(a, b) := span_run r in (String c a, b)
      else (EmptyString, s)
  end.

(** [run_ok true r]: the run [r] is not empty and has no leading, trailing
    or doubled underscore. *)
Fixpoint run_ok (prev_us : bool) (r : string) : bool :=
  match r with
  | EmptyString => negb prev_us
  | String c r' =>
      if is_underscore c then negb prev_us && run_ok true r'
      else run_ok false r'
  end.

Fixpoint drop_underscores (r : string) : string :=
  match r with
  | EmptyString => EmptyString
  | String c r' =>
      if is_underscore c then drop_underscores r'
      else String c (drop_underscores r')
  end.

Definition split_sign (s : string) : bool * string :=
  match s with
  | String c r =>
      if N.eqb (code c) 45 then (true, r)
      else if N.eqb (code c) 43 then (false, r)
      else (false, s)
  | EmptyString => (false, s)
  end.

(** [int(s)]; [None] stands for [ValueError]. *)
Definition int (s : string) : option Z :=
  let '(neg, u) := split_sign (skip_cspace (to_ascii s)) in
  let '(run, rest) := span_run u in
  if run_ok true run && is_empty (skip_cspace rest) then
    match NilEmpty.uint_of_string (drop_underscores run) with
    | Some d => Some (if neg then - Z.of_uint d else Z.of_uint d)
    | None => None
    end
  else None.

(** [s.split(":", 1)] when it has two parts; [None] when [s] has no colon
    (the list then has one element and unpacking it into two names raises). *)
Fixpoint split_colon (s : string) : option (string * string) :=
  match s with
  | EmptyString => None
  | String c r =>
      if N.eqb (code c) 58 then Some (EmptyString, r)
      else match split_colon r with
           | Some (a, b) => Some (String c a, b)
           | None => None
           end
  end.

End Py.

(** ** The database ([init_db]) *)

(** The part of a Telegram user the code reads: [id], [username],
    [first_name], [last_name]. *)
Record tg_user := mk_tg_user {
  tg_id : Z;
  tg_username : option string;
  tg_first_name : option string;
  tg_last_name : option string
}.

(** One record per table.  The timestamp columns ([last_active],
    [created_at]) are written by SQLite and never read; they are left out. *)
Record user_row := mk_user {
  u_id : Z;
  u_tg_id : Z;
  u_username : option string;
  u_name : option string;
  u_is_banned : Z
}.

Record profile_row := mk_profile {
  p_id : Z;
  p_user_id : Z;
  p_age : option Z;
  p_gender : option string;
  p_bio : option string;
  p_photo_file_id : option string
}.

Record like_row := mk_like {
  l_id : Z;
  l_from_user : Z;
  l_to_user : Z
}.

Record match_row := mk_match {
  m_id : Z;
  m_a : Z;
  m_b : Z;
  m_active : Z
}.

Record report_row := mk_report {
  r_id : Z;
  r_reporter_id : Z;
  r_reported_id : Z;
  r_reason : string
}.

Record db := mk_db {
  users : list user_row;
  profiles : list profile_row;
  likes : list like_row;
  matches : list match_row;
  reports : list report_row
}.

(** The database right after [init_db] on a fresh file. *)
Definition init_db : db := mk_db [] [] [] [] [].

(** The id SQLite gives to a row inserted without one: one more than the
    largest id in the table, 1 in an empty table. *)
Definition next_id {A : Type} (id : A -> Z) (t : list A) : Z :=
  1 + fold_right (fun r m => Z.max (id r) m) 0 t.

(** The integers a statement accepts as a parameter: those of SQLite's
    64-bit [INTEGER].  Binding any other raises [OverflowError]. *)
Definition in_int64 (z : Z) : bool := (- 2 ^ 63 <=? z) && (z <? 2 ^ 63).

Definition set_users (d : db) (us : list user_row) : db :=
  mk_db us (profiles d) (likes d) (matches d) (reports d).

Definition set_profiles (d : db) (ps : list profile_row) : db :=
  mk_db (users d) ps (likes d) (matches d) (reports d).

Definition set_likes (d : db) (ls : list like_row) : db :=
  mk_db (users d) (profiles d) ls (matches d) (reports d).

Definition set_matches (d : db) (ms : list match_row) : db :=
  mk_db (users d) (profiles d) (likes d) ms (reports d).

Definition set_reports (d : db) (rs : list report_row) : db :=
  mk_db (users d) (profiles d) (likes d) (matches d) rs.

(** [SELECT ... FROM users WHERE tg_id = ?], first row. *)
Definition user_by_tg (d : db) (t : Z) : option user_row :=
  find (fun u => u_tg_id u =? t) (users d).

(** [SELECT ... FROM users WHERE id = ?], first row. *)
Definition user_by_id (d : db) (i : Z) : option user_row :=
  find (fun u => u_id u =? i) (users d).

(** [SELECT 1 FROM likes WHERE from_user = ? AND to_user = ?] has a row. *)
Definition like_exists (d : db) (f t : Z) : bool :=
  existsb (fun l => (l_from_user l =? f) && (l_to_user l =? t)) (likes d).

(** The [WHERE] clause of the match look-up in the like handler:
    [(a = x AND b = y) OR (a = y AND b = x)]. *)
Definition match_on (x y : Z) (m : match_row) : bool :=
  ((m_a m =? x) && (m_b m =? y)) || ((m_a m =? y) && (m_b m =? x)).

Definition match_exists (d : db) (x y : Z) : bool :=
  existsb (match_on x y) (matches d).

(** Number of [matches] rows for the unordered pair [{x, y}]. *)
Definition match_count (d : db) (x y : Z) : nat :=
  List.length (filter (match_on x y) (matches d)).

(** Number of [likes] rows from [f] to [t]. *)
Definition like_count (d : db) (f t : Z) : nat :=
  List.length (filter (fun l => (l_from_user l =? f) && (l_to_user l =? t))
            (likes d)).

(** Number of [users] rows with external id [t]. *)
Definition user_count (d : db) (t : Z) : nat :=
  List.length (filter (fun u => u_tg_id u =? t) (users d)).

(** ** Calls to Telegram made by a handler *)

(** An inline keyboard: rows of buttons, each a label and its
    [callback_data]. *)
Definition keyboard := list (list (string * string)).

Inductive action :=
| reply_text (text : string) (reply_markup : option keyboard)
| reply_photo (photo caption : string) (reply_markup : option keyboard)
| answer
| edit_message_text (text : string)
| send_message (chat_id : Z) (text : string)
| log_warning
| log_exception.

(** An outbound send to a party other than the one being answered. *)
Definition is_send (a : action) : bool :=
  match a with send_message _ _ => true | _ => false end.

(** ** Helper: [ensure_user] *)

(** The readable name stored on first contact:
    [f"{first} {last}".strip() or tg_user.username or ""]. *)
Definition full_name (t : tg_user) : string :=
  let first := Py.opt_or (tg_first_name t) "" in
  let last := Py.opt_or (tg_last_name t) "" in
  Py.str_or (Py.strip (first ++ " " ++ last)%string)
    (Py.opt_or (tg_username t) "").

Definition ensure_user (d : db) (t : tg_user) : db * Z :=
  match user_by_tg d (tg_id t) with
  | Some row => (d, u_id row)
  | None =>
      let lastrowid := next_id u_id (users d) in
      (set_users d
         (users d ++
          [mk_user lastrowid (tg_id t) (tg_username t) (Some (full_name t)) 0]),
       lastrowid)
  end.

(** ** Handlers *)

Definition start : list action :=
  [reply_text
     ("Welcome to SoulMatch!" ++ Py.nl ++ Py.nl
      ++ "Create your profile with /create_profile and start finding matches ❤️"
      ++ Py.nl
      ++ "Commands: /create_profile /find /myprofile /delete_account /report /help")%string
     None].

Definition help_cmd : list action :=
  [reply_text
     ("/create_profile - Create or update your profile" ++ Py.nl
      ++ "/find - Browse profiles" ++ Py.nl
      ++ "/myprofile - View your profile" ++ Py.nl
      ++ "/delete_account - Delete your account & profile" ++ Py.nl
      ++ "/report <tg_id> <reason> - Report a user" ++ Py.nl
      ++ "/help - Show commands")%string
     None].

(** *** The profile dialogue *)

(** Conversation states ([A_NAME, ..., A_PHOTO = range(5)]). *)
Inductive conv_state := A_NAME | A_AGE | A_GENDER | A_BIO | A_PHOTO.

(** What a dialogue handler returns: a state, or
    [ConversationHandler.END]. *)
Inductive conv_next := Goto (s : conv_state) | END.

(** [ctx.user_data]: the keys the dialogue writes; [None] is a missing key
    ([ctx.user_data.get] then gives [None]). *)
Record user_data := mk_user_data {
  ud_name : option string;
  ud_age : option Z;
  ud_gender : option string;
  ud_bio : option string;
  ud_photo : option string
}.

(** [ctx.user_data.clear()], and the data of a user seen for the first
    time. *)
Definition no_data : user_data := mk_user_data None None None None None.

(** A handler either returns or raises [ValueError]. *)
Inductive outcome (A : Type) :=
| Returned (a : A)
| ValueError.
Arguments Returned {A} a.
Arguments ValueError {A}.

Definition create_profile_start : conv_next * list action :=
  (Goto A_NAME, [reply_text "Welcome! What's your full name?" None]).

Definition profile_name (text : string) (ud : user_data)
  : user_data * conv_next * list action :=
  let name := Py.strip text in
  if Py.len name <? 2 then
    (ud, Goto A_NAME,
     [reply_text "Please enter a valid name (at least 2 characters)." None])
  else
    (mk_user_data (Some name) (ud_age ud) (ud_gender ud) (ud_bio ud)
       (ud_photo ud),
     Goto A_AGE, [reply_text "How old are you?" None]).

Definition profile_age (text : string) (ud : user_data)
  : outcome (user_data * conv_next * list action) :=
  let text := Py.strip text in
  if negb (Py.isdigit text) then
    Returned (ud, Goto A_AGE, [reply_text "Please send a number for age." None])
  else
    match Py.int text with
    | None => ValueError
    | Some age =>
        if age <? 18 then
          Returned (ud, END, [reply_text "You must be 18+ to use this bot." None])
        else
          Returned
            (mk_user_data (ud_name ud) (Some age) (ud_gender ud) (ud_bio ud)
               (ud_photo ud),
             Goto A_GENDER,
             [reply_text "What's your gender? (Male/Female/Other)" None])
    end.

Definition profile_gender (text : string) (ud : user_data)
  : user_data * conv_next * list action :=
  (mk_user_data (ud_name ud) (ud_age ud) (Some (Py.strip text)) (ud_bio ud)
     (ud_photo ud),
   Goto A_BIO,
   [reply_text "Write a short bio about yourself (1-2 lines):" None]).

Definition profile_bio (text : string) (ud : user_data)
  : user_data * conv_next * list action :=
  (mk_user_data (ud_name ud) (ud_age ud) (ud_gender ud) (Some (Py.strip text))
     (ud_photo ud),
   Goto A_PHOTO,
   [reply_text "Send a profile photo or /skip to continue without one." None]).

(** [UPDATE users SET name = ? WHERE id = ?] *)
Definition update_name (d : db) (name : option string) (uid : Z) : db :=
  set_users d
    (map (fun u =>
            if u_id u =? uid
            then mk_user (u_id u) (u_tg_id u) (u_username u) name
                   (u_is_banned u)
            else u)
       (users d)).

(** [INSERT OR REPLACE INTO profiles (user_id, age, gender, bio,
    photo_file_id)]: [user_id] is [UNIQUE], so the rows of that user are
    deleted and the new row is added with a fresh id. *)
Definition replace_profile (d : db) (uid : Z) (age : option Z)
    (gender bio photo : option string) : db :=
  set_profiles d
    (filter (fun p => negb (p_user_id p =? uid)) (profiles d)
     ++ [mk_profile (next_id p_id (profiles d)) uid age gender bio photo]).

(** [file_id] is that of [update.message.photo[-1]].  The age in
    [user_data] is bound by the [INSERT OR REPLACE]: the result below is
    that of an age that fits [in_int64] (or is [None]).  For a larger age
    the statement raises: the [UPDATE] before it is not committed, no reply
    is sent, [user_data] is kept and the dialogue stays in [A_PHOTO]. *)
Definition profile_photo (d : db) (t : tg_user) (file_id : string)
    (ud : user_data) : db * user_data * conv_next * list action :=
  let ud := mk_user_data (ud_name ud) (ud_age ud) (ud_gender ud) (ud_bio ud)
              (Some file_id) in
  let '(d, user_id) := ensure_user d t in
  let d := update_name d (ud_name ud) user_id in
  let d := replace_profile d user_id (ud_age ud) (ud_gender ud) (ud_bio ud)
             (ud_photo ud) in
  (d, no_data, END,
   [reply_text "Profile saved! Use /find to browse others." None]).

(** As [profile_photo], without the photo; the age is bound in the same
    way. *)
Definition skip_photo (d : db) (t : tg_user) (ud : user_data)
  : db * user_data * conv_next * list action :=
  let '(d, user_id) := ensure_user d t in
  let d := update_name d (ud_name ud) user_id in
  let d := replace_profile d user_id (ud_age ud) (ud_gender ud) (ud_bio ud)
             None in
  (d, no_data, END,
   [reply_text "Profile saved without photo! Use /find." None]).

(** *** Account commands *)

(** [if photo_id:] holds for a non-empty string. *)
Definition truthy (x : option string) : option string :=
  match x with
  | Some s => if Py.is_empty s then None else Some s
  | None => None
  end.

Definition myprofile (d : db) (t : tg_user) : list action :=
  match user_by_tg d (tg_id t) with
  | None =>
      [reply_text "No account found. Create one with /create_profile" None]
  | Some urow =>
      match find (fun p => p_user_id p =? u_id urow) (profiles d) with
      | None =>
          [reply_text
             "You don't have a profile yet. Create with /create_profile" None]
      | Some prow =>
          let text :=
            ("Name: " ++ Py.fmt_opt (u_name urow) ++ Py.nl
             ++ "Telegram: @" ++ Py.opt_or (u_username urow) "user" ++ Py.nl
             ++ "Age: " ++ Py.fmt_opt_int (p_age prow) ++ Py.nl
             ++ "Gender: " ++ Py.fmt_opt (p_gender prow) ++ Py.nl
             ++ "Bio: " ++ Py.fmt_opt (p_bio prow))%string in
          match truthy (p_photo_file_id prow) with
          | Some photo_id => [reply_photo photo_id text None]
          | None => [reply_text text None]
          end
      end
  end.

Definition delete_account (d : db) (t : tg_user) : db * list action :=
  match user_by_tg d (tg_id t) with
  | None => (d, [reply_text "No account found." None])
  | Some row =>
      let user_id := u_id row in
      let d := set_profiles d
                 (filter (fun p => negb (p_user_id p =? user_id))
                    (profiles d)) in
      let d := set_likes d
                 (filter (fun l => negb ((l_from_user l =? user_id)
                                         || (l_to_user l =? user_id)))
                    (likes d)) in
      let d := set_matches d
                 (filter (fun m => negb ((m_a m =? user_id)
                                         || (m_b m =? user_id)))
                    (matches d)) in
      let d := set_reports d
                 (filter (fun r => negb ((r_reporter_id r =? user_id)
                                         || (r_reported_id r =? user_id)))
                    (reports d)) in
      let d := set_users d
                 (filter (fun u => negb (u_id u =? user_id)) (users d)) in
      (d, [reply_text "Your account and data have been deleted." None])
  end.

(** *** Discovery: [find_handler] *)

(** Rows of [profiles p JOIN users u ON p.user_id = u.id], profiles in
    storage order. *)
Definition joined (d : db) : list (profile_row * user_row) :=
  flat_map
    (fun p => map (pair p) (filter (fun u => u_id u =? p_user_id p) (users d)))
    (profiles d).

(** [SELECT to_user FROM likes WHERE from_user = ?] *)
Definition liked_by (d : db) (uid : Z) : list Z :=
  map l_to_user (filter (fun l => l_from_user l =? uid) (likes d)).

Definition mem (x : Z) (l : list Z) : bool := existsb (Z.eqb x) l.

(** The [WHERE] clause of the browsing query. *)
Definition eligible (d : db) (uid : Z) (pu : profile_row * user_row) : bool :=
  negb (p_user_id (fst pu) =? uid)
  && negb (mem (p_user_id (fst pu)) (liked_by d uid)).

(** The browsing query with [LIMIT 1]. *)
Definition find_candidate (d : db) (uid : Z)
  : option (profile_row * user_row) :=
  hd_error (filter (eligible d uid) (joined d)).

Definition find_handler (d : db) (t : tg_user) : db * list action :=
  let '(d, user_id) := ensure_user d t in
  match find_candidate d user_id with
  | None =>
      (d, [reply_text "No profiles available right now. Try again later." None])
  | Some (p, u) =>
      let to_user_id := p_user_id p in
      let text :=
        (Py.fmt_opt (u_name u) ++ " (@" ++ Py.opt_or (u_username u) "user"
         ++ ")" ++ Py.nl
         ++ "Age: " ++ Py.fmt_opt_int (p_age p) ++ Py.nl
         ++ "Gender: " ++ Py.fmt_opt (p_gender p) ++ Py.nl
         ++ "Bio: " ++ Py.fmt_opt (p_bio p))%string in
      let keyboard :=
        [[("❤️ Like", ("like:" ++ Py.str_of_int to_user_id)%string);
          ("⏭ Skip", ("skip:" ++ Py.str_of_int to_user_id)%string)]] in
      match truthy (p_photo_file_id p) with
      | Some photo_id => (d, [reply_photo photo_id text (Some keyboard)])
      | None => (d, [reply_text text (Some keyboard)])
      end
  end.

(** *** Likes and matches: [callback_query_handler] *)

(** [action, target_str = data.split(":", 1); target_id = int(target_str)];
    [None] when either line raises. *)
Definition parse_callback (data : string) : option (string * Z) :=
  match Py.split_colon data with
  | None => None
  | Some (action, target_str) =>
      match Py.int target_str with
      | None => None
      | Some target_id => Some (action, target_id)
      end
  end.

Definition insert_like (d : db) (f t : Z) : db :=
  set_likes d (likes d ++ [mk_like (next_id l_id (likes d)) f t]).

(** [INSERT INTO matches (a,b)]; [active] takes its default, 1. *)
Definition insert_match (d : db) (a b : Z) : db :=
  set_matches d (matches d ++ [mk_match (next_id m_id (matches d)) a b 1]).

(** [target_id] is bound first by the [SELECT] that opens the like branch,
    which is outside the [try]: the like branch below is that of a target
    that fits [in_int64].  For a larger target that [SELECT] raises, after
    [query.answer()] and [ensure_user]: no row is written to [likes] or
    [matches] and the message is not edited.  The skip branch and the
    branch of an unknown action bind no target. *)
Definition callback_query_handler (d : db) (user : tg_user)
    (data : option string) (send_ok : bool) : db * list action :=
  let data := match data with Some s => s | None => "" end in
  match parse_callback data with
  | None =>
      (d, [answer;
           edit_message_text
             "Sorry, action not recognized. Please try /find again."])
  | Some (action, target_id) =>
      let '(d, from_user) := ensure_user d user in
      if (action =? "skip")%string then
        (d, [answer;
             edit_message_text "Skipped! Use /find to see other profiles."])
      else if (action =? "like")%string then
        let d := if like_exists d from_user target_id then d
                 else insert_like d from_user target_id in
        if like_exists d target_id from_user then
          let d := if match_exists d from_user target_id then d
                   else insert_match d from_user target_id in
          (d,
           [answer;
            edit_message_text
              "🎉 It's a MATCH! You can now chat anonymously via the bot."]
           ++ match user_by_id d target_id with
              | Some row =>
                  send_message (u_tg_id row)
                    "You've got a new match! Start chatting via the bot."
                  :: (if send_ok then [] else [log_warning])
              | None => []
              end)
        else
          (d, [answer; edit_message_text "Liked! Waiting for a mutual like."])
      else
        (d, [answer;
             edit_message_text "Unknown action. Use /find to try again."])
  end.

(** *** Relay: [relay_messages] *)

(** [SELECT a,b FROM matches WHERE (a = ? OR b = ?) AND active = 1] *)
Definition active_match_of (sender_id : Z) (m : match_row) : bool :=
  ((m_a m =? sender_id) || (m_b m =? sender_id)) && (m_active m =? 1).

(** [message] is [update.message]: [None] when the update has none,
    [Some None] for a message without text. *)
Definition relay_messages (d : db) (message : option (option string))
    (sender_tg : tg_user) (send_ok : bool) : db * list action :=
  match message with
  | None => (d, [])
  | Some None =>
      (d, [reply_text "Only text messages are relayed in this prototype." None])
  | Some (Some text) =>
      let '(d, sender_id) := ensure_user d sender_tg in
      match find (active_match_of sender_id) (matches d) with
      | None =>
          (d, [reply_text
                 "You don't have an active match. Use /find to match with someone."
                 None])
      | Some m =>
          let other := if m_a m =? sender_id then m_b m else m_a m in
          match user_by_id d other with
          | None => (d, [reply_text "Could not find your match's contact." None])
          | Some row =>
              let other_tg := u_tg_id row in
              let sender_label := ("Anonymous#" ++ Py.str_of_int sender_id)%string in
              let sent :=
                send_message other_tg
                  (sender_label ++ ":" ++ Py.nl ++ text)%string in
              if send_ok then
                (d, [sent; reply_text "Sent to your match." None])
              else
                (d, [sent; log_exception;
                     reply_text
                       "Failed to send message. The other user might have blocked the bot or hasn't started it."
                       None])
          end
      end
  end.

(** *** Reports: [report_handler] *)

(** [target_tg] is bound by the look-up that follows [ensure_user]: the
    last two outcomes below are those of a target that fits [in_int64].
    For a larger one the look-up raises [OverflowError] (the [try] covers
    [int(args[0])] only, and catches [ValueError]): the reporter is
    registered, no report is stored and no reply is sent. *)
Definition report_handler (d : db) (t : tg_user) (args : list string)
  : db * list action :=
  if Z.of_nat (List.length args) <? 2 then
    (d, [reply_text "Usage: /report <tg_id> <reason>" None])
  else
    match Py.int (hd "" args) with
    | None => (d, [reply_text "Provide a numeric Telegram ID." None])
    | Some target_tg =>
        let reason := String.concat " " (tl args) in
        let '(d, reporter_id) := ensure_user d t in
        match user_by_tg d target_tg with
        | None => (d, [reply_text "User not found." None])
        | Some row =>
            let reported_id := u_id row in
            (set_reports d
               (reports d
                ++ [mk_report (next_id r_id (reports d)) reporter_id
                      reported_id reason]),
             [reply_text "Report received. Admin will review it." None])
        end
    end.

(** ** Dispatch ([build_and_run]) *)

(** An incoming update, by the filter it passes: a command with its
    arguments, a text message that is not a command, a photo, a button
    press, or any other message.  [from] is [update.effective_user]. *)
Inductive update :=
| Command (from : tg_user) (name : string) (args : list string)
| Text (from : tg_user) (text : string)
| Photo (from : tg_user) (file_id : string)
| CallbackQuery (from : tg_user) (data : option string)
| Other (from : tg_user).

(** The bot between two updates: the database, the state of each user's
    profile dialogue ([None]: no dialogue) and each user's [user_data],
    both keyed by the Telegram id (one private chat per user). *)
Record bot := mk_bot {
  bot_db : db;
  conv : Z -> option conv_state;
  data : Z -> user_data
}.

Definition init_bot : bot := mk_bot init_db (fun _ => None) (fun _ => no_data).

Definition set_at {A : Type} (f : Z -> A) (k : Z) (v : A) : Z -> A :=
  fun k' => if k' =? k then v else f k'.

Definition after_conv (s : bot) (k : Z) (d : db)
    (r : user_data * conv_next * list action) : bot * list action :=
  let '(ud, n, acts) := r in
  (mk_bot d
     (set_at (conv s) k (match n with Goto st => Some st | END => None end))
     (set_at (data s) k ud),
   acts).

(** The [ConversationHandler]: [Some] when one of its handlers takes the
    update.  A handler that raises leaves the dialogue where it was. *)
Definition conv_handler (s : bot) (u : update) : option (bot * list action) :=
  match u with
  | Command from name _ =>
      let k := tg_id from in
      match conv s k with
      | None =>
          if (name =? "create_profile")%string then
            let '(n, acts) := create_profile_start in
            Some (after_conv s k (bot_db s) (data s k, n, acts))
          else None
      | Some A_PHOTO =>
          if (name =? "skip")%string then
            let '(d, ud, n, acts) := skip_photo (bot_db s) from (data s k) in
            Some (after_conv s k d (ud, n, acts))
          else None
      | Some _ => None
      end
  | Text from text =>
      let k := tg_id from in
      match conv s k with
      | Some A_NAME =>
          Some (after_conv s k (bot_db s) (profile_name text (data s k)))
      | Some A_AGE =>
          match profile_age text (data s k) with
          | Returned r => Some (after_conv s k (bot_db s) r)
          | ValueError => Some (s, [])
          end
      | Some A_GENDER =>
          Some (after_conv s k (bot_db s) (profile_gender text (data s k)))
      | Some A_BIO =>
          Some (after_conv s k (bot_db s) (profile_bio text (data s k)))
      | Some A_PHOTO => None
      | None => None
      end
  | Photo from file_id =>
      let k := tg_id from in
      match conv s k with
      | Some A_PHOTO =>
          let '(d, ud, n, acts) :=
            profile_photo (bot_db s) from file_id (data s k) in
          Some (after_conv s k d (ud, n, acts))
      | _ => None
      end
  | _ => None
  end.

Definition with_db (s : bot) (r : db * list action) : bot * list action :=
  (mk_bot (fst r) (conv s) (data s), snd r).

Definition is_command (u : update) (name : string) : bool :=
  match u with
  | Command _ n _ => (n =? name)%string
  | _ => false
  end.

(** One update through the handlers, in the order they are registered. *)
Definition handle (s : bot) (u : update) (send_ok : bool)
  : bot * list action :=
  if is_command u "start" then (s, start)
  else if is_command u "help" then (s, help_cmd)
  else
    match conv_handler s u with
    | Some r => r
    | None =>
        match u with
        | Command from name args =>
            if (name =? "find")%string then
              with_db s (find_handler (bot_db s) from)
            else if (name =? "myprofile")%string then
              (s, myprofile (bot_db s) from)
            else if (name =? "delete_account")%string then
              with_db s (delete_account (bot_db s) from)
            else if (name =? "report")%string then
              with_db s (report_handler (bot_db s) from args)
            else (s, [])
        | CallbackQuery from data =>
            with_db s (callback_query_handler (bot_db s) from data send_ok)
        | Text from text =>
            with_db s (relay_messages (bot_db s) (Some (Some text)) from send_ok)
        | Photo _ _ => (s, [])
        | Other _ => (s, [])
        end
    end.

(** A run of the bot over a list of updates, each with the outcome of the
    outbound send it may attempt. *)
Fixpoint run (s : bot) (evs : list (update * bool)) : bot :=
  match evs with
  | [] => s
  | (u, ok) :: evs' => run (fst (handle s u ok)) evs'
  end.

(** A button press: who pressed, the payload, the outcome of the
    notification. *)
Definition press := (tg_user * option string * bool)%type.

Fixpoint press_all (d : db) (ps : list press) : db :=
  match ps with
  | [] => d
  | (u, payload, ok) :: ps' =>
      press_all (fst (callback_query_handler d u payload ok)) ps'
  end.

(** ** Vocabulary of the properties *)

(** *** Derived operations *)

(** What [ensure_user] adds on first contact. *)
Definition new_user (d : db) (t : tg_user) : user_row :=
  mk_user (next_id u_id (users d)) (tg_id t) (tg_username t)
    (Some (full_name t)) 0.

(** The database after the like branch of [callback_query_handler], for the
    presser's id [f] and the target [t]. *)
Definition record_like (d : db) (f t : Z) : db :=
  let d1 := if like_exists d f t then d else insert_like d f t in
  if like_exists d1 t f then
    if match_exists d1 f t then d1 else insert_match d1 f t
  else d1.

(** Some active [matches] row has [uid] on one side. *)
Definition has_active_match (d : db) (uid : Z) : bool :=
  existsb (active_match_of uid) (matches d).

(** *** Replies *)

Definition msg_liked : string := "Liked! Waiting for a mutual like.".

Definition msg_match : string :=
  "🎉 It's a MATCH! You can now chat anonymously via the bot.".

Definition msg_no_match : string :=
  "You don't have an active match. Use /find to match with someone.".

Definition msg_text_only : string :=
  "Only text messages are relayed in this prototype.".

(** The text-only reply of [relay_messages]. *)
Definition is_text_only (a : action) : bool :=
  match a with
  | reply_text text None => (text =? msg_text_only)%string
  | _ => false
  end.

Definition msg_try_later : string :=
  "No profiles available right now. Try again later.".

(** *** Invariants of the database *)

(** At most one [matches] row per unordered pair. *)
Definition pair_unique (d : db) : Prop :=
  forall x y, (match_count d x y <= 1)%nat.

(** Two users who like each other have a [matches] row. *)
Definition mutual_matched (d : db) : Prop :=
  forall x y,
    like_exists d x y = true -> like_exists d y x = true ->
    match_exists d x y = true.

(** Every [matches] row stands on a like in each direction. *)
Definition match_backed (d : db) : Prop :=
  forall m, In m (matches d) ->
    like_exists d (m_a m) (m_b m) = true
    /\ like_exists d (m_b m) (m_a m) = true.

(** At most one [likes] row per ordered pair. *)
Definition like_unique (d : db) : Prop :=
  forall f t, (like_count d f t <= 1)%nat.

Definition db_inv (d : db) : Prop :=
  pair_unique d /\ mutual_matched d /\ match_backed d /\ like_unique d.

(** The mutual-like property: a like in each direction between [x] and [y]
    comes with exactly one [matches] row for the pair. *)
Definition mutual_match_inv (d : db) : Prop :=
  forall x y,
    like_exists d x y = true -> like_exists d y x = true ->
    match_count d x y = 1%nat.

(** The [UNIQUE] constraint on [users.tg_id]. *)
Definition tg_unique (d : db) : Prop := NoDup (map u_tg_id (users d)).

(** [d'] has the [likes] and [matches] tables of [d]. *)
Definition same_lm (d d' : db) : Prop :=
  likes d' = likes d /\ matches d' = matches d.

(** The profiles of [d'] are among those of [d]. *)
Definition profiles_within (d d' : db) : Prop :=
  forall p, In p (profiles d') -> In p (profiles d).

(** *** The age floor *)

(** An age that is present and at least 18. *)
Definition adult (age : option Z) : Prop :=
  exists a, age = Some a /\ 18 <= a.

(** Every stored profile has an adult age, and so has the age collected by
    every dialogue that is past the age question. *)
Definition age_floor (s : bot) : Prop :=
  (forall p, In p (profiles (bot_db s)) -> adult (p_age p))
  /\ (forall k,
        match conv s k with
        | Some A_GENDER | Some A_BIO | Some A_PHOTO =>
            adult (ud_age (data s k))
        | _ => True
        end).

(** *** Databases that differ in names only *)

(** Two [users] rows that agree on the internal and the external id; the
    username, the name and the banned flag are free. *)
Definition same_identity (u u' : user_row) : Prop :=
  u_id u = u_id u' /\ u_tg_id u = u_tg_id u'.

(** Two databases with the same matches whose [users] rows agree, row by
    row, on both ids; every other column and table is free. *)
Definition names_apart (d d' : db) : Prop :=
  Forall2 same_identity (users d) (users d') /\ matches d' = matches d.

(** *** Sample data *)

Definition ann : tg_user := mk_tg_user 42 (Some "ann_l") (Some "Ann") None.
Definition ann_renamed : tg_user := mk_tg_user 42 None None None.
Definition bob : tg_user := mk_tg_user 43 None (Some "Bob") (Some "Ray").
Definition bob_renamed : tg_user :=
  mk_tg_user 43 (Some "bobby") (Some "Robert") None.

(** Ann likes user 2, Bob (who becomes user 2) likes user 1 twice, Ann
    likes user 2 again. *)
Definition sample_presses : list press :=
  [(ann, Some "like:2", true); (bob, Some "like:1", true);
   (bob, Some "like:1", false); (ann, Some "like:2", true)].

(** A database where Ann (user 1) and Bob (user 2) are matched. *)
Definition matched_db : db := press_all init_db sample_presses.

(** [matched_db] under other names. *)
Definition renamed_db : db :=
  set_users matched_db
    [mk_user 1 42 (Some "x") (Some "Somebody Else") 0;
     mk_user 2 43 (Some "bobby") None 1].

(** A database where Bob has a profile, is banned, has liked Ann and is
    matched with her, while Ann has liked nobody. *)
Definition bob_banned_db : db :=
  mk_db
    [mk_user 1 42 (Some "ann_l") (Some "Ann") 0;
     mk_user 2 43 None (Some "Bob Ray") 1]
    [mk_profile 1 1 (Some 30) (Some "F") (Some "hi") None;
     mk_profile 2 2 (Some 31) (Some "M") (Some "yo") None]
    [mk_like 1 2 1]
    [mk_match 1 2 1 1]
    [].

(** The one-character text SUPERSCRIPT TWO (U+00B2). *)
Definition superscript_two : string := String "178"%char EmptyString.

(** Ann goes through the whole dialogue, is 20, and skips the photo. *)
Definition ann_dialogue : list (update * bool) :=
  [(Command ann "create_profile" [], true);
   (Text ann "  Ann Lee ", true);
   (Text ann "20", true);
   (Text ann "F", true);
   (Text ann "Hello there", true);
   (Command ann "skip" [], true)].

(** A bot where Ann has started the dialogue and given her name, so that
    her dialogue waits for the age. *)
Definition ann_at_age : bot :=
  run init_bot [(Command ann "create_profile" [], true);
                (Text ann "Ann Lee", true)].

(** *** The writes of the bot *)

(** Some [users] row has the internal id [i]. *)
Definition has_user (d : db) (i : Z) : bool :=
  existsb (fun u => u_id u =? i) (users d).

(** [INSERT INTO reports (reporter_id, reported_id, reason)] *)
Definition insert_report (d : db) (a b : Z) (reason : string) : db :=
  set_reports d
    (reports d ++ [mk_report (next_id r_id (reports d)) a b reason]).

(** What the end of the dialogue writes for the user [uid]. *)
Definition save_profile (d : db) (uid : Z) (name : option string)
    (age : option Z) (gender bio photo : option string) : db :=
  replace_profile (update_name d name uid) uid age gender bio photo.

(** One write to the database, as the handlers make them: the resolver,
    a like, an account deletion, a report, the end of the dialogue.  The
    ids a handler writes are ids [ensure_user] has just returned, hence
    ids of [users] rows. *)
Inductive db_op : db -> db -> Prop :=
| op_ensure (d : db) (t : tg_user) :
    db_op d (fst (ensure_user d t))
| op_like (d : db) (f t : Z) :
    has_user d f = true -> db_op d (record_like d f t)
| op_delete (d : db) (t : tg_user) :
    db_op d (fst (delete_account d t))
| op_report (d : db) (a b : Z) (reason : string) :
    has_user d a = true -> has_user d b = true ->
    db_op d (insert_report d a b reason)
| op_save (d : db) (uid : Z) (name : option string) (age : option Z)
    (gender bio photo : option string) :
    has_user d uid = true ->
    db_op d (save_profile d uid name age gender bio photo).

(** Any number of writes in a row. *)
Inductive db_ops : db -> db -> Prop :=
| ops_none (d : db) : db_ops d d
| ops_then (d d1 d2 : db) : db_ops d d1 -> db_op d1 d2 -> db_ops d d2.

(** *** Invariants of the tables *)

(** External ids and internal ids are unique in [users]. *)
Definition users_wf (d : db) : Prop :=
  NoDup (map u_tg_id (users d)) /\ NoDup (map u_id (users d)).

(** At most one profile per user. *)
Definition profile_unique (d : db) : Prop :=
  NoDup (map p_user_id (profiles d)).

(** Every profile, every liker and both sides of every report are ids of
    [users] rows. *)
Definition refs_ok (d : db) : Prop :=
  (forall p, In p (profiles d) -> has_user d (p_user_id p) = true)
  /\ (forall l, In l (likes d) -> has_user d (l_from_user l) = true)
  /\ (forall r, In r (reports d) ->
        has_user d (r_reporter_id r) = true
        /\ has_user d (r_reported_id r) = true).



(** *** What the dialogue has collected *)

(** A collected name: present, at least two characters. *)
Definition named (ud : user_data) : Prop :=
  exists n, ud_name ud = Some n /\ 2 <= Py.len n.

(** What [user_data] holds when the dialogue waits in state [st]. *)
Definition collected (st : conv_state) (ud : user_data) : Prop :=
  match st with
  | A_NAME => True
  | A_AGE => named ud
  | A_GENDER => named ud /\ adult (ud_age ud)
  | A_BIO => named ud /\ adult (ud_age ud) /\ ud_gender ud <> None
  | A_PHOTO =>
      named ud /\ adult (ud_age ud) /\ ud_gender ud <> None
      /\ ud_bio ud <> None
  end.

(** No profile lacks an adult age, a gender or a bio; no user lacks a
    name. *)
Definition rows_complete (d : db) : Prop :=
  (forall p, In p (profiles d) ->
     adult (p_age p) /\ p_gender p <> None /\ p_bio p <> None)
  /\ (forall u, In u (users d) -> u_name u <> None).

Definition complete (s : bot) : Prop :=
  rows_complete (bot_db s)
  /\ forall k, match conv s k with
               | Some st => collected st (data s k)
               | None => True
               end.

(** *** Browsing *)

(** The callback payloads of the buttons a call carries. *)
Definition payloads (a : action) : list string :=
  match a with
  | reply_text _ (Some kb) => map snd (List.concat kb)
  | reply_photo _ _ (Some kb) => map snd (List.concat kb)
  | _ => []
  end.

(** The rows the browsing query selects before [LIMIT 1]. *)
Definition candidates (d : db) (uid : Z) : list (profile_row * user_row) :=
  filter (eligible d uid) (joined d).

Definition msg_skipped : string := "Skipped! Use /find to see other profiles.".

(** The payloads whose press binds only integers that fit: every payload
    but a like of a number outside [in_int64]. *)
Definition payload_fits (payload : option string) : bool :=
  match parse_callback (match payload with Some s => s | None => "" end) with
  | Some (action, target_id) =>
      negb (action =? "like")%string || in_int64 target_id
  | None => true
  end.

Definition msg_new_match : string :=
  "You've got a new match! Start chatting via the bot.".

(** A decimal digit or a question mark: what [int] sees of a string of
    digit characters. *)
Definition digit_or_mark (c : ascii) : bool :=
  Py.is_decimal c || N.eqb (Py.code c) 63.

(** The six updates of a whole dialogue without photo. *)
Definition dialogue (t : tg_user) (name age gender bio : string)
  : list (update * bool) :=
  [(Command t "create_profile" [], true); (Text t name, true);
   (Text t age, true); (Text t gender, true); (Text t bio, true);
   (Command t "skip" [], true)].

Definition msg_no_account : string :=
  "No account found. Create one with /create_profile".

(** *** What only a deletion removes *)

(** From [d] to [d'] no like, match or report is lost, and every external
    id that resolved still resolves, to the same internal id, under the
    same stored username. *)
Definition grows (d d' : db) : Prop :=
  (forall l, In l (likes d) -> In l (likes d'))
  /\ (forall m, In m (matches d) -> In m (matches d'))
  /\ (forall r, In r (reports d) -> In r (reports d'))
  /\ (forall tg row,
        user_by_tg d tg = Some row ->
        exists row',
          user_by_tg d' tg = Some row' /\ u_id row' = u_id row
          /\ u_username row' = u_username row).

(** [n] rounds of [/find] followed by a press on the like button of the
    card offered, as long as a card is offered. *)
Fixpoint like_offered (n : nat) (d : db) (t : tg_user) : db :=
  match n with
  | O => fst (ensure_user d t)
  | S n' =>
      let d1 := fst (ensure_user d t) in
      match find_candidate d1 (snd (ensure_user d t)) with
      | None => d1
      | Some (p, _) =>
          like_offered n'
            (fst (callback_query_handler d1 t
                    (Some ("like:" ++ Py.str_of_int (p_user_id p))%string)
                    true))
            t
      end
  end.

(** Nobody is banned and every match is active. *)
Definition flags_default (d : db) : Prop :=
  (forall u, In u (users d) -> u_is_banned u = 0)
  /\ (forall m, In m (matches d) -> m_active m = 1).

(** * Properties *)

(** ** Printing an integer and reading it back *)

Module PyFacts.
Import Py.

Lemma forall_chars_impl (p q : ascii -> bool) (s : string) :
  (forall c, p c = true -> q c = true) ->
  forall_chars p s = true -> forall_chars q s = true.
Proof.
  intros Hpq. induction s as [|c r IH]; simpl; auto.
  intros H. apply andb_true_iff in H as [Hc Hr].
  rewrite (Hpq c Hc), (IH Hr). reflexivity.
Qed.

Lemma decimal_code (c : ascii) :
  is_decimal c = true -> (48 <= code c <= 57)%N.
Proof.
  unfold is_decimal, in_range. intros H.
  apply andb_true_iff in H as [H1 H2].
  apply N.leb_le in H1, H2. lia.
Qed.

Lemma decimal_not_cspace (c : ascii) :
  is_decimal c = true -> c_isspace c = false.
Proof.
  intros H. apply decimal_code in H. unfold c_isspace, in_range.
  apply orb_false_iff. split.
  - apply andb_false_iff. right. apply N.leb_gt. lia.
  - apply N.eqb_neq. lia.
Qed.

Lemma decimal_not_underscore (c : ascii) :
  is_decimal c = true -> is_underscore c = false.
Proof.
  intros H. apply decimal_code in H. unfold is_underscore.
  apply N.eqb_neq. lia.
Qed.

Lemma decimal_below_128 (c : ascii) :
  is_decimal c = true -> N.ltb (code c) 128 = true.
Proof. intros H. apply decimal_code in H. apply N.ltb_lt. lia. Qed.

Lemma decimal_no_sign (s : string) :
  forall_chars is_decimal s = true -> split_sign s = (false, s).
Proof.
  destruct s as [|c r]; simpl; auto. intros H.
  apply andb_true_iff in H as [Hc _]. apply decimal_code in Hc.
  replace (N.eqb (code c) 45) with false by (symmetry; apply N.eqb_neq; lia).
  replace (N.eqb (code c) 43) with false by (symmetry; apply N.eqb_neq; lia).
  reflexivity.
Qed.

Lemma decimal_to_ascii (s : string) :
  forall_chars is_decimal s = true -> to_ascii s = s.
Proof.
  intros H. unfold to_ascii.
  rewrite (forall_chars_impl _ _ s decimal_below_128 H). reflexivity.
Qed.

Lemma decimal_skip_cspace (s : string) :
  forall_chars is_decimal s = true -> skip_cspace s = s.
Proof.
  destruct s as [|c r]; simpl; auto. intros H.
  apply andb_true_iff in H as [Hc _].
  rewrite (decimal_not_cspace c Hc). reflexivity.
Qed.

Lemma decimal_span_run (s : string) :
  forall_chars is_decimal s = true -> span_run s = (s, EmptyString).
Proof.
  induction s as [|c r IH]; simpl; auto. intros H.
  apply andb_true_iff in H as [Hc Hr].
  rewrite Hc, (IH Hr). reflexivity.
Qed.

Lemma decimal_run_ok (s : string) (b : bool) :
  forall_chars is_decimal s = true -> is_empty s = false ->
  run_ok b s = true.
Proof.
  revert b. induction s as [|c r IH]; simpl; intros b H Hne.
  - discriminate.
  - apply andb_true_iff in H as [Hc Hr].
    rewrite (decimal_not_underscore c Hc).
    destruct r as [|c' r'].
    + reflexivity.
    + apply IH; auto.
Qed.

Lemma decimal_drop_underscores (s : string) :
  forall_chars is_decimal s = true -> drop_underscores s = s.
Proof.
  induction s as [|c r IH]; simpl; auto. intros H.
  apply andb_true_iff in H as [Hc Hr].
  rewrite (decimal_not_underscore c Hc), (IH Hr). reflexivity.
Qed.

(** [int] on a non-empty string of decimal digits reads the number. *)
Lemma int_decimal (s : string) :
  forall_chars is_decimal s = true -> is_empty s = false ->
  int s = option_map Z.of_uint (NilEmpty.uint_of_string s).
Proof.
  intros H Hne. unfold int.
  rewrite (decimal_to_ascii s H), (decimal_skip_cspace s H),
    (decimal_no_sign s H), (decimal_span_run s H),
    (decimal_run_ok s true H Hne), (decimal_drop_underscores s H).
  simpl. destruct (NilEmpty.uint_of_string s); reflexivity.
Qed.

Lemma int_minus_decimal (s : string) :
  forall_chars is_decimal s = true -> is_empty s = false ->
  int (String "-"%char s)
  = option_map (fun d => - Z.of_uint d) (NilEmpty.uint_of_string s).
Proof.
  intros H Hne. unfold int, to_ascii.
  assert (Ha : forall_chars (fun c => N.ltb (code c) 128) (String "-"%char s)
               = true).
  { simpl. apply (forall_chars_impl _ _ s decimal_below_128 H). }
  rewrite Ha. simpl skip_cspace. simpl split_sign. cbv iota beta.
  rewrite (decimal_span_run s H), (decimal_run_ok s true H Hne),
    (decimal_drop_underscores s H).
  simpl. destruct (NilEmpty.uint_of_string s); reflexivity.
Qed.

Lemma string_of_uint_decimal (d : uint) :
  forall_chars is_decimal (NilEmpty.string_of_uint d) = true.
Proof. induction d; simpl; auto. Qed.

Lemma string_of_uint_nonempty (d : uint) :
  d <> Nil -> is_empty (NilEmpty.string_of_uint d) = false.
Proof. destruct d; simpl; congruence. Qed.

Lemma nilzero_nilempty (d : uint) :
  d <> Nil -> NilZero.string_of_uint d = NilEmpty.string_of_uint d.
Proof. destruct d; simpl; congruence. Qed.

Lemma of_uint_to_uint (p : positive) : Z.of_uint (Pos.to_uint p) = Z.pos p.
Proof. unfold Z.of_uint. rewrite DecimalPos.Unsigned.of_to. reflexivity. Qed.

(** [int(str(n)) = n], for every integer. *)
Lemma int_str_of_int (n : Z) : int (str_of_int n) = Some n.
Proof.
  unfold str_of_int. destruct n as [|p|p]; simpl Z.to_int.
  - reflexivity.
  - pose proof (Unsigned.to_uint_nonnil p) as Hn.
    unfold NilZero.string_of_int. rewrite (nilzero_nilempty _ Hn).
    rewrite int_decimal
      by auto using string_of_uint_decimal, string_of_uint_nonempty.
    rewrite NilEmpty.usu. simpl. now rewrite of_uint_to_uint.
  - pose proof (Unsigned.to_uint_nonnil p) as Hn.
    unfold NilZero.string_of_int. rewrite (nilzero_nilempty _ Hn).
    rewrite int_minus_decimal
      by auto using string_of_uint_decimal, string_of_uint_nonempty.
    rewrite NilEmpty.usu. simpl. now rewrite of_uint_to_uint.
Qed.

End PyFacts.

(** ** The identity resolver *)

Lemma find_app_last {A : Type} (f : A -> bool) (l : list A) (x : A) :
  find f l = None -> find f (l ++ [x]) = if f x then Some x else None.
Proof.
  induction l as [|a l IH]; simpl; auto.
  destruct (f a); [discriminate | exact IH].
Qed.

Lemma find_none_filter {A : Type} (f : A -> bool) (l : list A) :
  find f l = None <-> filter f l = [].
Proof.
  induction l as [|a l IH]; simpl; [tauto|].
  destruct (f a); [split; discriminate | exact IH].
Qed.

Lemma filter_app_last {A : Type} (f : A -> bool) (l : list A) (x : A) :
  filter f (l ++ [x]) = filter f l ++ (if f x then [x] else []).
Proof. rewrite filter_app. reflexivity. Qed.

Lemma ensure_user_known (d : db) (t : tg_user) (row : user_row) :
  user_by_tg d (tg_id t) = Some row -> ensure_user d t = (d, u_id row).
Proof. unfold ensure_user. intros ->. reflexivity. Qed.

Lemma ensure_user_new (d : db) (t : tg_user) :
  user_by_tg d (tg_id t) = None ->
  ensure_user d t
  = (set_users d (users d ++ [new_user d t]), next_id u_id (users d)).
Proof. unfold ensure_user. intros ->. reflexivity. Qed.

(** [ensure_user] touches no table but [users]. *)
Lemma ensure_user_tables (d : db) (t : tg_user) :
  profiles (fst (ensure_user d t)) = profiles d
  /\ likes (fst (ensure_user d t)) = likes d
  /\ matches (fst (ensure_user d t)) = matches d
  /\ reports (fst (ensure_user d t)) = reports d.
Proof.
  unfold ensure_user. destruct (user_by_tg d (tg_id t)); simpl; auto.
Qed.

(** After [ensure_user] the identity resolves, to the id returned. *)
Lemma ensure_user_resolves (d : db) (t : tg_user) :
  exists row,
    user_by_tg (fst (ensure_user d t)) (tg_id t) = Some row
    /\ u_id row = snd (ensure_user d t).
Proof.
  destruct (user_by_tg d (tg_id t)) as [row|] eqn:E.
  - rewrite (ensure_user_known d t row E). simpl. eauto.
  - rewrite (ensure_user_new d t E). simpl. exists (new_user d t).
    unfold user_by_tg in *. simpl. rewrite (find_app_last _ _ _ E).
    simpl. rewrite Z.eqb_refl. auto.
Qed.

(** A second call, by anyone with the same external id, changes nothing. *)
Lemma ensure_user_again (d : db) (t t' : tg_user) :
  tg_id t' = tg_id t ->
  ensure_user (fst (ensure_user d t)) t'
  = (fst (ensure_user d t), snd (ensure_user d t)).
Proof.
  intros E. destruct (ensure_user_resolves d t) as (row & Hrow & Hid).
  rewrite <- E in Hrow. rewrite (ensure_user_known _ t' row Hrow), Hid.
  reflexivity.
Qed.

Lemma user_count_zero (d : db) (t : Z) :
  user_by_tg d t = None <-> user_count d t = 0%nat.
Proof.
  unfold user_by_tg, user_count. rewrite find_none_filter.
  destruct (filter _ (users d)); simpl; split; congruence.
Qed.

Lemma full_name_cases (t : tg_user) :
  let first_last :=
    Py.strip (Py.opt_or (tg_first_name t) "" ++ " "
              ++ Py.opt_or (tg_last_name t) "")%string in
  full_name t
  = if Py.is_empty first_last
    then match tg_username t with Some u => u | None => "" end
    else first_last.
Proof.
  unfold full_name. cbv zeta. unfold Py.str_or at 1.
  destruct (Py.is_empty _); auto.
  destruct (tg_username t) as [[|c u]|]; reflexivity.
Qed.

(** C7.  The identity resolver is idempotent.  Two calls with the same
    external id return the same internal id and the second call leaves the
    database as the first one left it; when the id was unknown the two calls
    together add exactly one [users] row, whose name is the stripped
    [first last], or else the username, or else the empty string; when the
    id was known no row is added at all. *)
Theorem ensure_user_idempotent (d : db) (t t' : tg_user) :
  tg_id t' = tg_id t ->
  let d1 := fst (ensure_user d t) in
  let d2 := fst (ensure_user d1 t') in
  let first_last :=
    Py.strip (Py.opt_or (tg_first_name t) "" ++ " "
              ++ Py.opt_or (tg_last_name t) "")%string in
  snd (ensure_user d1 t') = snd (ensure_user d t)
  /\ d2 = d1
  /\ (user_count d (tg_id t) = 0%nat ->
      user_count d2 (tg_id t) = 1%nat
      /\ users d2
         = users d
           ++ [mk_user (snd (ensure_user d t)) (tg_id t) (tg_username t)
                 (Some (if Py.is_empty first_last
                        then match tg_username t with
                             | Some u => u
                             | None => ""
                             end
                        else first_last))
                 0])
  /\ (user_count d (tg_id t) <> 0%nat -> d2 = d).
Proof.
  intros E d1 d2 first_last. subst d1 d2.
  rewrite (ensure_user_again d t t' E). simpl.
  split; [reflexivity|]. split; [reflexivity|]. split.
  - intros H0. apply user_count_zero in H0 as Hnone.
    rewrite (ensure_user_new d t Hnone). simpl. split.
    + unfold user_count in *. simpl. rewrite filter_app_last, length_app, H0.
      simpl. rewrite Z.eqb_refl. reflexivity.
    + unfold new_user. rewrite (full_name_cases t). reflexivity.
  - intros Hn. destruct (user_by_tg d (tg_id t)) as [row|] eqn:Hrow.
    + rewrite (ensure_user_known d t row Hrow). reflexivity.
    + apply user_count_zero in Hrow. contradiction.
Qed.

Lemma ensure_user_idempotent_witness :
  tg_id ann_renamed = tg_id ann
  /\ snd (ensure_user (fst (ensure_user init_db ann)) ann_renamed) = 1
  /\ users (fst (ensure_user (fst (ensure_user init_db ann)) ann_renamed))
     = [mk_user 1 42 (Some "ann_l") (Some "Ann") 0].
Proof.
  split; [reflexivity|].
  destruct (ensure_user_idempotent init_db ann ann_renamed eq_refl)
    as (Hid & Hdb & Hnew & _).
  split.
  - rewrite Hid. reflexivity.
  - destruct (Hnew eq_refl) as [_ Hrows]. rewrite Hrows. reflexivity.
Defined.

(** ** Likes and matches *)

Lemma existsb_app_last {A : Type} (f : A -> bool) (l : list A) (x : A) :
  existsb f (l ++ [x]) = existsb f l || f x.
Proof. rewrite existsb_app. simpl. now rewrite orb_false_r. Qed.

Lemma existsb_filter {A : Type} (f : A -> bool) (l : list A) :
  existsb f l = negb (Nat.eqb (List.length (filter f l)) 0).
Proof.
  induction l as [|a l IH]; simpl; auto.
  destruct (f a); simpl; auto.
Qed.

Lemma match_on_sym (x y : Z) (m : match_row) :
  match_on x y m = match_on y x m.
Proof. unfold match_on. apply orb_comm. Qed.

Lemma match_exists_sym (d : db) (x y : Z) :
  match_exists d x y = match_exists d y x.
Proof.
  unfold match_exists. induction (matches d) as [|m l IH]; simpl; auto.
  now rewrite IH, match_on_sym.
Qed.

Lemma match_count_sym (d : db) (x y : Z) :
  match_count d x y = match_count d y x.
Proof.
  unfold match_count. f_equal. apply filter_ext. intros m.
  apply match_on_sym.
Qed.

Lemma match_exists_count (d : db) (x y : Z) :
  match_exists d x y = negb (Nat.eqb (match_count d x y) 0).
Proof. apply existsb_filter. Qed.

(** A row for [(a, b)] answers the look-up for [{x, y}] only when the two
    pairs are the same. *)
Lemma match_on_new (x y a b i k : Z) :
  match_on x y (mk_match i a b k) = true ->
  (x = a /\ y = b) \/ (x = b /\ y = a).
Proof.
  unfold match_on. simpl. intros H. apply orb_true_iff in H as [H|H];
    apply andb_true_iff in H as [H1 H2];
    apply Z.eqb_eq in H1, H2; subst; auto.
Qed.

Lemma like_exists_insert (d : db) (f t x y : Z) :
  like_exists (insert_like d f t) x y
  = like_exists d x y || ((f =? x) && (t =? y)).
Proof.
  unfold like_exists, insert_like. simpl. rewrite existsb_app_last.
  reflexivity.
Qed.

Lemma match_exists_insert (d : db) (a b x y : Z) :
  match_exists (insert_match d a b) x y
  = match_exists d x y
    || match_on x y (mk_match (next_id m_id (matches d)) a b 1).
Proof.
  unfold match_exists, insert_match. simpl. rewrite existsb_app_last.
  reflexivity.
Qed.

Lemma match_count_insert (d : db) (a b x y : Z) :
  match_count (insert_match d a b) x y
  = (match_count d x y
     + if match_on x y (mk_match (next_id m_id (matches d)) a b 1)
       then 1 else 0)%nat.
Proof.
  unfold match_count, insert_match. simpl.
  rewrite filter_app_last, length_app.
  destruct (match_on x y _); reflexivity.
Qed.

(** The invariant reads only [likes] and [matches]. *)
Lemma db_inv_same (d d' : db) :
  likes d' = likes d -> matches d' = matches d -> db_inv d -> db_inv d'.
Proof.
  intros Hl Hm (Hu & Hmm & Hb & Hlu).
  unfold db_inv, pair_unique, mutual_matched, match_backed, like_unique,
    match_count, match_exists, like_exists, like_count in *.
  rewrite Hl, Hm. auto.
Qed.

Lemma db_inv_init : db_inv init_db.
Proof.
  split; [|split; [|split]].
  - intros x y. cbn. lia.
  - intros x y H. discriminate.
  - intros m [].
  - intros f t. cbn. lia.
Qed.

(** The likes after a like from [f] to [t]: those before, and [(f, t)]. *)
Lemma like_exists_record (d : db) (f t x y : Z) :
  like_exists (record_like d f t) x y
  = like_exists d x y || ((f =? x) && (t =? y)).
Proof.
  assert (H1 : forall d1, like_exists
             (if like_exists d1 t f then
                if match_exists d1 f t then d1 else insert_match d1 f t
              else d1) x y = like_exists d1 x y).
  { intros d1. destruct (like_exists d1 t f); auto.
    destruct (match_exists d1 f t); auto. }
  unfold record_like. cbv zeta. rewrite H1.
  destruct (like_exists d f t) eqn:E.
  - destruct ((f =? x) && (t =? y)) eqn:E'.
    + apply andb_true_iff in E' as [Hx Hy].
      apply Z.eqb_eq in Hx, Hy. subst. rewrite E. reflexivity.
    + now rewrite orb_false_r.
  - apply like_exists_insert.
Qed.

(** A like never removes a match, and adds at most the row [(f, t)]. *)
Lemma matches_record (d : db) (f t : Z) :
  matches (record_like d f t) = matches d
  \/ (like_exists (record_like d f t) t f = true
      /\ match_exists d f t = false
      /\ matches (record_like d f t)
         = matches d ++ [mk_match (next_id m_id (matches d)) f t 1]).
Proof.
  unfold record_like. cbv zeta.
  set (d1 := if like_exists d f t then d else insert_like d f t).
  assert (Hm : matches d1 = matches d).
  { subst d1. destruct (like_exists d f t); reflexivity. }
  assert (He : match_exists d1 f t = match_exists d f t).
  { unfold match_exists. now rewrite Hm. }
  destruct (like_exists d1 t f) eqn:E1; [|left; exact Hm].
  destruct (match_exists d1 f t) eqn:E2; [left; exact Hm|].
  right. split; [exact E1|]. split.
  - now rewrite <- He.
  - unfold insert_match. simpl. now rewrite Hm.
Qed.

Lemma match_exists_record_mono (d : db) (f t x y : Z) :
  match_exists d x y = true -> match_exists (record_like d f t) x y = true.
Proof.
  intros H. unfold match_exists in *.
  destruct (matches_record d f t) as [-> | (_ & _ & ->)]; auto.
  rewrite existsb_app, H. reflexivity.
Qed.

(** When the reciprocal like is there, the pair has a match afterwards. *)
Lemma match_after_record (d : db) (f t : Z) :
  like_exists (record_like d f t) t f = true ->
  match_exists (record_like d f t) f t = true.
Proof.
  unfold record_like. cbv zeta.
  set (d1 := if like_exists d f t then d else insert_like d f t).
  destruct (like_exists d1 t f) eqn:E1; [|congruence].
  destruct (match_exists d1 f t) eqn:E2; [auto|].
  intros _. rewrite match_exists_insert. unfold match_on. simpl.
  rewrite !Z.eqb_refl. simpl. apply orb_true_r.
Qed.

Lemma likes_record (d : db) (f t : Z) :
  likes (record_like d f t)
  = if like_exists d f t then likes d
    else likes d ++ [mk_like (next_id l_id (likes d)) f t].
Proof.
  unfold record_like. cbv zeta.
  destruct (like_exists d f t); simpl;
    match goal with |- context [if ?c then _ else _] => destruct c end;
    simpl; try match goal with
               |- context [if ?c then _ else _] => destruct c
               end; reflexivity.
Qed.

Lemma record_like_inv (d : db) (f t : Z) :
  db_inv d -> db_inv (record_like d f t).
Proof.
  intros (Hu & Hmm & Hb & Hlu). split; [|split; [|split]].
  - (* pair_unique *)
    intros x y. unfold match_count.
    destruct (matches_record d f t) as [-> | (_ & Hno & ->)];
      [apply Hu|].
    rewrite filter_app_last, length_app.
    destruct (match_on x y _) eqn:E; simpl; [|specialize (Hu x y);
      unfold match_count in Hu; lia].
    assert (H0 : match_count d x y = 0%nat).
    { apply match_on_new in E.
      rewrite match_exists_count in Hno.
      apply negb_false_iff, Nat.eqb_eq in Hno.
      destruct E as [[-> ->] | [-> ->]]; [|rewrite match_count_sym]; exact Hno. }
    unfold match_count in H0. rewrite H0. reflexivity.
  - (* mutual_matched *)
    intros x y Hxy Hyx.
    pose proof Hxy as Hxy'. pose proof Hyx as Hyx'.
    rewrite like_exists_record in Hxy', Hyx'.
    destruct ((f =? x) && (t =? y)) eqn:E1.
    + apply andb_true_iff in E1 as [Ex Ey].
      apply Z.eqb_eq in Ex, Ey. subst x y.
      apply match_after_record. exact Hyx.
    + destruct ((f =? y) && (t =? x)) eqn:E2.
      * apply andb_true_iff in E2 as [Ey Ex].
        apply Z.eqb_eq in Ex, Ey. subst x y.
        rewrite match_exists_sym. apply match_after_record. exact Hxy.
      * rewrite orb_false_r in Hxy', Hyx'.
        apply match_exists_record_mono. auto.
  - (* match_backed *)
    intros m Hin.
    assert (Hold : In m (matches d) ->
                   like_exists (record_like d f t) (m_a m) (m_b m) = true
                   /\ like_exists (record_like d f t) (m_b m) (m_a m) = true).
    { intros Hm. destruct (Hb m Hm) as [H1 H2].
      rewrite !like_exists_record, H1, H2. auto. }
    destruct (matches_record d f t) as [E | (Hrec & _ & E)];
      rewrite E in Hin; [auto|].
    apply in_app_or in Hin as [Hin | [<- | []]]; [auto|]. simpl. split.
    + rewrite like_exists_record, !Z.eqb_refl. apply orb_true_r.
    + exact Hrec.
  - (* like_unique *)
    intros x y. unfold like_count. rewrite likes_record.
    specialize (Hlu x y). unfold like_count in Hlu.
    destruct (like_exists d f t) eqn:E; [exact Hlu|].
    rewrite filter_app_last, length_app. simpl.
    destruct ((f =? x) && (t =? y)) eqn:E'; simpl; [|lia].
    apply andb_true_iff in E' as [Ex Ey]. apply Z.eqb_eq in Ex, Ey. subst x y.
    unfold like_exists in E. rewrite existsb_filter in E.
    apply negb_false_iff, Nat.eqb_eq in E. rewrite E. reflexivity.
Qed.

(** The database effect of a button press. *)
Lemma callback_db (d : db) (u : tg_user) (payload : option string)
    (ok : bool) :
  fst (callback_query_handler d u payload ok)
  = match parse_callback (match payload with Some s => s | None => "" end) with
    | None => d
    | Some (a, t) =>
        if (a =? "like")%string
        then record_like (fst (ensure_user d u)) (snd (ensure_user d u)) t
        else fst (ensure_user d u)
    end.
Proof.
  unfold callback_query_handler.
  destruct (parse_callback _) as [[a t]|]; [|reflexivity].
  destruct (ensure_user d u) as [d0 f]. simpl fst. simpl snd.
  destruct (a =? "skip")%string eqn:Es.
  - apply String.eqb_eq in Es. subst a. reflexivity.
  - destruct (a =? "like")%string; [|reflexivity].
    unfold record_like. cbv zeta.
    destruct (like_exists _ t f); [|reflexivity].
    destruct (match_exists _ f t); reflexivity.
Qed.

Lemma ensure_user_inv (d : db) (t : tg_user) :
  db_inv d -> db_inv (fst (ensure_user d t)).
Proof.
  destruct (ensure_user_tables d t) as (_ & Hl & Hm & _).
  now apply db_inv_same.
Qed.

Lemma callback_inv (d : db) (u : tg_user) (payload : option string)
    (ok : bool) :
  db_inv d -> db_inv (fst (callback_query_handler d u payload ok)).
Proof.
  intros H. rewrite callback_db.
  destruct (parse_callback _) as [[a t]|]; auto.
  destruct (a =? "like")%string.
  - apply record_like_inv, ensure_user_inv, H.
  - apply ensure_user_inv, H.
Qed.

Lemma press_all_inv (ps : list press) (d : db) :
  db_inv d -> db_inv (press_all d ps).
Proof.
  revert d. induction ps as [|[[u payload] ok] ps IH]; simpl; auto.
  intros d H. apply IH, callback_inv, H.
Qed.

Lemma existsb_filter_sub {A : Type} (f g : A -> bool) (l : list A) :
  existsb f (filter g l) = true -> existsb f l = true.
Proof.
  rewrite !existsb_exists. intros (x & Hin & Hx).
  apply filter_In in Hin as [Hin _]. eauto.
Qed.

Lemma filter_filter_length {A : Type} (f g : A -> bool) (l : list A) :
  (List.length (filter f (filter g l)) <= List.length (filter f l))%nat.
Proof.
  induction l as [|a l IH]; simpl; auto.
  destruct (g a), (f a) eqn:E; simpl; rewrite ?E; simpl; lia.
Qed.

Lemma delete_account_inv (d : db) (t : tg_user) :
  db_inv d -> db_inv (fst (delete_account d t)).
Proof.
  intros (Hu & Hmm & Hb & Hlu). unfold delete_account.
  destruct (user_by_tg d (tg_id t)) as [row|];
    [|simpl; unfold db_inv; auto].
  set (uid := u_id row). simpl.
  assert (Hlike : forall x y,
    existsb (fun l => (l_from_user l =? x) && (l_to_user l =? y))
      (filter (fun l => negb ((l_from_user l =? uid) || (l_to_user l =? uid)))
         (likes d)) = true ->
    like_exists d x y = true /\ x <> uid /\ y <> uid).
  { intros x y H. split; [eapply existsb_filter_sub; exact H|].
    apply existsb_exists in H as (l & Hin & Hl).
    apply filter_In in Hin as [_ Hk].
    apply andb_true_iff in Hl as [Hx Hy]. apply Z.eqb_eq in Hx, Hy.
    apply negb_true_iff, orb_false_iff in Hk as [Hk1 Hk2].
    apply Z.eqb_neq in Hk1, Hk2. subst. auto. }
  split; [|split; [|split]].
  - intros x y. unfold match_count. simpl.
    specialize (Hu x y). unfold match_count in Hu.
    pose proof (filter_filter_length (match_on x y)
      (fun m => negb ((m_a m =? uid) || (m_b m =? uid))) (matches d)).
    lia.
  - intros x y Hxy Hyx. unfold like_exists in Hxy, Hyx. simpl in Hxy, Hyx.
    apply Hlike in Hxy as (Hxy & Hx & Hy). apply Hlike in Hyx as (Hyx & _).
    specialize (Hmm x y Hxy Hyx). unfold match_exists in *. simpl.
    apply existsb_exists in Hmm as (m & Hin & Hm).
    apply existsb_exists. exists m. split; [|exact Hm].
    apply filter_In. split; [exact Hin|].
    unfold match_on in Hm. apply negb_true_iff, orb_false_iff.
    apply orb_true_iff in Hm as [Hm|Hm];
      apply andb_true_iff in Hm as [Ha Hb'];
      apply Z.eqb_eq in Ha, Hb'; split; apply Z.eqb_neq; congruence.
  - intros m Hin. simpl in Hin. apply filter_In in Hin as [Hin Hk].
    destruct (Hb m Hin) as [H1 H2].
    apply negb_true_iff, orb_false_iff in Hk as [Hk1 Hk2].
    apply Z.eqb_neq in Hk1, Hk2.
    assert (Hkeep : forall x y, x <> uid -> y <> uid ->
      like_exists d x y = true ->
      existsb (fun l => (l_from_user l =? x) && (l_to_user l =? y))
        (filter (fun l => negb ((l_from_user l =? uid) || (l_to_user l =? uid)))
           (likes d)) = true).
    { intros x y Hx Hy H. unfold like_exists in H.
      apply existsb_exists in H as (l & Hl & Hxy).
      apply existsb_exists. exists l. split; [|exact Hxy].
      apply filter_In. split; [exact Hl|].
      apply andb_true_iff in Hxy as [Ex Ey]. apply Z.eqb_eq in Ex, Ey.
      apply negb_true_iff, orb_false_iff.
      split; apply Z.eqb_neq; congruence. }
    unfold like_exists. simpl. split; apply Hkeep; auto.
  - intros x y. unfold like_count. simpl.
    specialize (Hlu x y). unfold like_count in Hlu.
    pose proof (filter_filter_length
      (fun l => (l_from_user l =? x) && (l_to_user l =? y))
      (fun l => negb ((l_from_user l =? uid) || (l_to_user l =? uid)))
      (likes d)).
    lia.
Qed.

(** *** Handlers that leave [likes] and [matches] alone *)

Lemma same_lm_refl (d : db) : same_lm d d.
Proof. split; reflexivity. Qed.

Lemma same_lm_ensure (d : db) (t : tg_user) :
  same_lm d (fst (ensure_user d t)).
Proof. destruct (ensure_user_tables d t) as (_ & Hl & Hm & _). now split. Qed.

Lemma find_handler_db (d : db) (t : tg_user) :
  fst (find_handler d t) = fst (ensure_user d t).
Proof.
  unfold find_handler. destruct (ensure_user d t) as [d0 uid].
  destruct (find_candidate d0 uid) as [[p u]|]; [|reflexivity].
  destruct (truthy _); reflexivity.
Qed.

Lemma same_lm_report (d : db) (t : tg_user) (args : list string) :
  same_lm d (fst (report_handler d t args)).
Proof.
  unfold report_handler.
  destruct (_ <? 2); [apply same_lm_refl|].
  destruct (Py.int _); [|apply same_lm_refl].
  pose proof (same_lm_ensure d t) as H.
  destruct (ensure_user d t) as [d0 uid]. simpl in H.
  destruct (user_by_tg d0 _); exact H.
Qed.

Lemma same_lm_relay (d : db) (msg : option (option string)) (t : tg_user)
    (ok : bool) :
  same_lm d (fst (relay_messages d msg t ok)).
Proof.
  unfold relay_messages.
  destruct msg as [[text|]|]; try apply same_lm_refl.
  pose proof (same_lm_ensure d t) as H.
  destruct (ensure_user d t) as [d0 uid]. simpl in H.
  destruct (find _ _); [|exact H].
  destruct (user_by_id d0 _); [|exact H].
  destruct ok; exact H.
Qed.

Lemma same_lm_save (d : db) (t : tg_user) (ud : user_data)
    (photo : option string) :
  same_lm d
    (replace_profile
       (update_name (fst (ensure_user d t)) (ud_name ud) (snd (ensure_user d t)))
       (snd (ensure_user d t)) (ud_age ud) (ud_gender ud) (ud_bio ud) photo).
Proof. exact (same_lm_ensure d t). Qed.

Lemma profile_photo_db (d : db) (t : tg_user) (file_id : string)
    (ud : user_data) :
  fst (fst (fst (profile_photo d t file_id ud)))
  = replace_profile
      (update_name (fst (ensure_user d t)) (ud_name ud) (snd (ensure_user d t)))
      (snd (ensure_user d t)) (ud_age ud) (ud_gender ud) (ud_bio ud)
      (Some file_id).
Proof.
  unfold profile_photo. destruct (ensure_user d t). reflexivity.
Qed.

Lemma skip_photo_db (d : db) (t : tg_user) (ud : user_data) :
  fst (fst (fst (skip_photo d t ud)))
  = replace_profile
      (update_name (fst (ensure_user d t)) (ud_name ud) (snd (ensure_user d t)))
      (snd (ensure_user d t)) (ud_age ud) (ud_gender ud) (ud_bio ud) None.
Proof.
  unfold skip_photo. destruct (ensure_user d t). reflexivity.
Qed.

Lemma after_conv_db (s : bot) (k : Z) (d : db)
    (r : user_data * conv_next * list action) :
  bot_db (fst (after_conv s k d r)) = d.
Proof. destruct r as [[ud n] acts]. reflexivity. Qed.

Lemma same_lm_conv (s : bot) (u : update) (r : bot * list action) :
  conv_handler s u = Some r -> same_lm (bot_db s) (bot_db (fst r)).
Proof.
  unfold conv_handler. destruct u as [from name args|from text|from file|from p|from];
    try discriminate.
  - destruct (conv s (tg_id from)) as [[]|]; try discriminate.
    + destruct (name =? "skip")%string; [|discriminate].
      pose proof (skip_photo_db (bot_db s) from (data s (tg_id from))) as H.
      destruct (skip_photo _ _ _) as [[[d ud] n] acts]. simpl in H.
      intros [= <-]. simpl. rewrite H. apply same_lm_save.
    + destruct (name =? "create_profile")%string; [|discriminate].
      intros [= <-]. apply same_lm_refl.
  - destruct (conv s (tg_id from)) as [[]|]; try discriminate;
      try (intros [= <-]; try rewrite after_conv_db; split; reflexivity).
    destruct (profile_age _ _); intros [= <-];
      [rewrite after_conv_db|]; apply same_lm_refl.
  - destruct (conv s (tg_id from)) as [[]|]; try discriminate.
    pose proof (profile_photo_db (bot_db s) from file (data s (tg_id from)))
      as H.
    destruct (profile_photo _ _ _ _) as [[[d ud] n] acts]. simpl in H.
    intros [= <-]. simpl. rewrite H. apply same_lm_save.
Qed.

(** Every update keeps the invariant. *)
Lemma handle_inv (s : bot) (u : update) (ok : bool) :
  db_inv (bot_db s) -> db_inv (bot_db (fst (handle s u ok))).
Proof.
  intros H. unfold handle.
  destruct (is_command u "start"); [exact H|].
  destruct (is_command u "help"); [exact H|].
  destruct (conv_handler s u) as [r|] eqn:E.
  - destruct (same_lm_conv s u r E). eapply db_inv_same; eauto.
  - destruct u as [from name args|from text|from file|from p|from];
      simpl; auto.
    + destruct (name =? "find")%string.
      { simpl. rewrite find_handler_db. now apply ensure_user_inv. }
      destruct (name =? "myprofile")%string; [exact H|].
      destruct (name =? "delete_account")%string.
      { simpl. now apply delete_account_inv. }
      destruct (name =? "report")%string; [|exact H].
      simpl. destruct (same_lm_report (bot_db s) from args).
      eapply db_inv_same; eauto.
    + destruct (same_lm_relay (bot_db s) (Some (Some text)) from ok).
      eapply db_inv_same; eauto.
    + now apply callback_inv.
Qed.

Lemma run_inv (evs : list (update * bool)) (s : bot) :
  db_inv (bot_db s) -> db_inv (bot_db (run s evs)).
Proof.
  revert s. induction evs as [|[u ok] evs IH]; simpl; auto.
  intros s H. apply IH, handle_inv, H.
Qed.

Lemma db_inv_mutual (d : db) : db_inv d -> mutual_match_inv d.
Proof.
  intros (Hu & Hmm & _) x y Hxy Hyx.
  specialize (Hmm x y Hxy Hyx). specialize (Hu x y).
  rewrite match_exists_count in Hmm.
  apply negb_true_iff, Nat.eqb_neq in Hmm. lia.
Qed.

(** C1.  Mutual likes are matched exactly once.  Take the database the bot
    has reached after any updates, then any sequence of button presses, by
    any users, with any payloads, repeated or not, in any order: whenever it
    holds a like from [x] to [y] and a like from [y] to [x], it holds exactly
    one [matches] row for the pair, in either orientation. *)
Theorem mutual_like_one_match (evs : list (update * bool))
    (ps : list press) (x y : Z) :
  let d := press_all (bot_db (run init_bot evs)) ps in
  like_exists d x y = true -> like_exists d y x = true ->
  match_count d x y = 1%nat.
Proof.
  intros d. apply db_inv_mutual. apply press_all_inv, run_inv, db_inv_init.
Qed.

Lemma mutual_like_one_match_witness :
  let d := press_all (bot_db (run init_bot [])) sample_presses in
  like_exists d 1 2 = true /\ like_exists d 2 1 = true
  /\ match_count d 1 2 = 1%nat.
Proof.
  split; [reflexivity|]. split; [reflexivity|].
  apply (mutual_like_one_match [] sample_presses 1 2); reflexivity.
Defined.

(** *** Liking twice *)

Lemma users_record (d : db) (f t : Z) : users (record_like d f t) = users d.
Proof.
  unfold record_like. cbv zeta.
  destruct (like_exists d f t); simpl;
    match goal with |- context [if ?c then _ else _] => destruct c end;
    simpl; try match goal with
               |- context [if ?c then _ else _] => destruct c
               end; reflexivity.
Qed.

Lemma record_like_twice (d : db) (f t : Z) :
  record_like (record_like d f t) f t = record_like d f t.
Proof.
  set (r := record_like d f t).
  assert (Hl : like_exists r f t = true).
  { subst r. rewrite like_exists_record, !Z.eqb_refl. apply orb_true_r. }
  unfold record_like at 1. cbv zeta. rewrite Hl.
  destruct (like_exists r t f) eqn:E; [|reflexivity].
  subst r. rewrite (match_after_record d f t E). reflexivity.
Qed.

Lemma like_count_record (d : db) (f t : Z) :
  like_count (record_like d f t) f t = Nat.max 1 (like_count d f t).
Proof.
  unfold like_count. rewrite likes_record.
  destruct (like_exists d f t) eqn:E.
  - unfold like_exists in E. rewrite existsb_filter in E.
    apply negb_true_iff, Nat.eqb_neq in E. lia.
  - unfold like_exists in E. rewrite existsb_filter in E.
    apply negb_false_iff, Nat.eqb_eq in E.
    rewrite filter_app_last, length_app, E. simpl.
    rewrite !Z.eqb_refl. reflexivity.
Qed.

Lemma ensure_user_same_users (d d' : db) (t : tg_user) :
  users d' = users (fst (ensure_user d t)) ->
  ensure_user d' t = (d', snd (ensure_user d t)).
Proof.
  intros H. destruct (ensure_user_resolves d t) as (row & Hrow & Hid).
  rewrite <- Hid. apply ensure_user_known.
  unfold user_by_tg in *. now rewrite H.
Qed.

(** What the presser is told after a like. *)
Lemma callback_like_reply (d : db) (u : tg_user) (payload : string)
    (t : Z) (ok : bool) :
  parse_callback payload = Some ("like", t) ->
  snd (callback_query_handler d u (Some payload) ok)
  = [answer; edit_message_text msg_liked]
  \/ exists rest,
       snd (callback_query_handler d u (Some payload) ok)
       = answer :: edit_message_text msg_match :: rest.
Proof.
  intros Hp. unfold callback_query_handler. rewrite Hp.
  destruct (ensure_user d u) as [d0 f]. simpl.
  match goal with |- context [like_exists ?x t f] =>
    destruct (like_exists x t f) end.
  - right. simpl. eauto.
  - left. reflexivity.
Qed.

Lemma like_twice_step (d : db) (u : tg_user) (payload : string)
    (target : Z) (ok1 ok2 : bool) :
  parse_callback payload = Some ("like", target) ->
  let from_user := snd (ensure_user d u) in
  let d1 := fst (callback_query_handler d u (Some payload) ok1) in
  let second := callback_query_handler d1 u (Some payload) ok2 in
  fst second = d1
  /\ like_count d1 from_user target
     = Nat.max 1 (like_count d from_user target)
  /\ (snd second = [answer; edit_message_text msg_liked]
      \/ exists rest,
           snd second = answer :: edit_message_text msg_match :: rest).
Proof.
  intros Hp from_user d1 second.
  assert (H1 : d1 = record_like (fst (ensure_user d u)) from_user target).
  { subst d1. rewrite callback_db, Hp. reflexivity. }
  assert (H2 : fst second = d1).
  { subst second. rewrite callback_db, Hp. simpl.
    rewrite (ensure_user_same_users d d1 u)
      by (rewrite H1; apply users_record).
    simpl. fold from_user. rewrite H1. apply record_like_twice. }
  split; [exact H2|]. split.
  - rewrite H1, like_count_record.
    unfold like_count. destruct (ensure_user_tables d u) as (_ & -> & _).
    reflexivity.
  - apply (callback_like_reply d1 u payload target ok2 Hp).
Qed.

(** C3.  Recording a like is idempotent.  In any database the bot has
    reached, when the same user presses the same like button twice, for a
    target that fits the database's 64-bit integers, the second press
    leaves the database exactly as the first one left it, there is exactly
    one [likes] row for the pair after the first press and after the
    second, and the second press is acknowledged like any other like: the
    duplicate is not an error. *)
Theorem like_twice_one_row (evs : list (update * bool)) (u : tg_user)
    (payload : string) (target : Z) (ok1 ok2 : bool) :
  parse_callback payload = Some ("like", target) ->
  in_int64 target = true ->
  let d := bot_db (run init_bot evs) in
  let from_user := snd (ensure_user d u) in
  let d1 := fst (callback_query_handler d u (Some payload) ok1) in
  let second := callback_query_handler d1 u (Some payload) ok2 in
  fst second = d1
  /\ like_count d1 from_user target = 1%nat
  /\ like_count (fst second) from_user target = 1%nat
  /\ (snd second = [answer; edit_message_text msg_liked]
      \/ exists rest,
           snd second = answer :: edit_message_text msg_match :: rest).
Proof.
  intros Hp _ d from_user d1 second.
  destruct (like_twice_step d u payload target ok1 ok2 Hp)
    as (Hsame & Hcount & Hreply).
  fold from_user d1 second in Hsame, Hcount, Hreply.
  assert (H1 : like_count d1 from_user target = 1%nat).
  { rewrite Hcount.
    destruct (run_inv evs init_bot db_inv_init) as (_ & _ & _ & Hlu).
    specialize (Hlu from_user target). fold d in Hlu. lia. }
  split; [exact Hsame|]. split; [exact H1|]. split; [|exact Hreply].
  rewrite Hsame. exact H1.
Qed.

Lemma like_twice_one_row_witness :
  parse_callback "like:7" = Some ("like", 7)
  /\ in_int64 7 = true
  /\ like_count
       (fst (callback_query_handler
               (fst (callback_query_handler init_db ann (Some "like:7") true))
               ann (Some "like:7") true))
       1 7 = 1%nat.
Proof.
  split; [reflexivity|]. split; [reflexivity|].
  destruct (like_twice_one_row [] ann "like:7" 7 true true eq_refl eq_refl)
    as (_ & _ & Hcount & _).
  exact Hcount.
Defined.

(** *** Liking oneself *)

(** The payload [like:<n>] is read back as a like of [n]. *)
Lemma parse_like_payload (n : Z) :
  parse_callback ("like:" ++ Py.str_of_int n) = Some ("like", n).
Proof.
  unfold parse_callback. simpl. rewrite PyFacts.int_str_of_int. reflexivity.
Qed.

Lemma no_self_match (d : db) (x : Z) :
  match_backed d -> like_exists d x x = false -> match_exists d x x = false.
Proof.
  intros Hb Hl. destruct (match_exists d x x) eqn:E; [|reflexivity].
  unfold match_exists in E. apply existsb_exists in E as (m & Hin & Hm).
  destruct (Hb m Hin) as [H _].
  unfold match_on in Hm. rewrite orb_diag in Hm.
  apply andb_true_iff in Hm as [Ha Hb']. apply Z.eqb_eq in Ha, Hb'.
  congruence.
Qed.

Lemma self_like_step (d : db) (u : tg_user) (ok : bool) :
  match_backed d ->
  let from_user := snd (ensure_user d u) in
  let r := callback_query_handler d u
             (Some ("like:" ++ Py.str_of_int from_user)%string) ok in
  like_exists d from_user from_user = false ->
  likes (fst r) = likes d ++ [mk_like (next_id l_id (likes d)) from_user from_user]
  /\ like_count (fst r) from_user from_user = 1%nat
  /\ matches (fst r)
     = matches d ++ [mk_match (next_id m_id (matches d)) from_user from_user 1]
  /\ exists rest, snd r = answer :: edit_message_text msg_match :: rest.
Proof.
  intros Hb from_user r Hno.
  destruct (ensure_user_tables d u) as (_ & Hl & Hm & _).
  pose proof (no_self_match d from_user Hb Hno) as Hnm.
  subst r. unfold callback_query_handler.
  rewrite parse_like_payload. fold from_user.
  subst from_user. destruct (ensure_user d u) as [d0 f]. simpl in *.
  assert (Hno0 : like_exists d0 f f = false).
  { unfold like_exists in *. now rewrite Hl. }
  assert (Hnm0 : match_exists d0 f f = false).
  { unfold match_exists in *. now rewrite Hm. }
  rewrite Hno0.
  assert (Hyes : like_exists (insert_like d0 f f) f f = true).
  { rewrite like_exists_insert, !Z.eqb_refl. apply orb_true_r. }
  rewrite Hyes.
  assert (Hnm1 : match_exists (insert_like d0 f f) f f = false) by exact Hnm0.
  rewrite Hnm1. simpl. rewrite Hl, Hm. repeat split; eauto.
  unfold like_count. simpl. rewrite Hl, filter_app_last, length_app.
  unfold like_exists in Hno. rewrite existsb_filter in Hno.
  apply negb_false_iff, Nat.eqb_eq in Hno. rewrite Hno. simpl.
  rewrite !Z.eqb_refl. reflexivity.
Qed.

(** C9.  The like handler accepts the presser as target.  In any database
    the bot can reach, a user with no like of themselves who sends the
    payload [like:<own internal id>] gets a [likes] row from themselves to
    themselves, the reciprocal look-up finds that one row, and a [matches]
    row with both sides equal to the user is added; the answer is the match
    message. *)
Theorem self_like_makes_self_match (evs : list (update * bool))
    (u : tg_user) (ok : bool) :
  let d := bot_db (run init_bot evs) in
  let from_user := snd (ensure_user d u) in
  let r := callback_query_handler d u
             (Some ("like:" ++ Py.str_of_int from_user)%string) ok in
  like_exists d from_user from_user = false ->
  likes (fst r) = likes d ++ [mk_like (next_id l_id (likes d)) from_user from_user]
  /\ like_count (fst r) from_user from_user = 1%nat
  /\ matches (fst r)
     = matches d ++ [mk_match (next_id m_id (matches d)) from_user from_user 1]
  /\ exists rest, snd r = answer :: edit_message_text msg_match :: rest.
Proof.
  intros d. apply self_like_step.
  apply (run_inv evs init_bot db_inv_init).
Qed.

Lemma self_like_makes_self_match_witness :
  like_exists init_db 1 1 = false
  /\ matches (fst (callback_query_handler init_db ann (Some "like:1") true))
     = [mk_match 1 1 1 1].
Proof.
  split; [reflexivity|].
  destruct (self_like_makes_self_match [] ann true eq_refl)
    as (_ & _ & Hm & _).
  exact Hm.
Defined.

(** ** Account deletion *)

Lemma in_filter_neq {A : Type} (key : A -> Z) (uid : Z) (l : list A) (x : A) :
  In x (filter (fun r => negb (key r =? uid)) l) <-> In x l /\ key x <> uid.
Proof.
  rewrite filter_In, negb_true_iff, Z.eqb_neq. reflexivity.
Qed.

Lemma in_filter_neq2 {A : Type} (k1 k2 : A -> Z) (uid : Z) (l : list A)
    (x : A) :
  In x (filter (fun r => negb ((k1 r =? uid) || (k2 r =? uid))) l)
  <-> In x l /\ k1 x <> uid /\ k2 x <> uid.
Proof.
  rewrite filter_In, negb_true_iff, orb_false_iff, !Z.eqb_neq. reflexivity.
Qed.

Lemma filter_out_none {A : Type} (f : A -> bool) (l : list A) :
  filter f (filter (fun x => negb (f x)) l) = [].
Proof.
  induction l as [|a l IH]; simpl; auto.
  destruct (f a) eqn:E; simpl; rewrite ?E; auto.
Qed.

Lemma nodup_map_filter {A : Type} (f : A -> Z) (g : A -> bool) (l : list A) :
  NoDup (map f l) -> NoDup (map f (filter g l)).
Proof.
  induction l as [|a l IH]; simpl; auto. intros H.
  apply NoDup_cons_iff in H as [Hn Hd]. destruct (g a); simpl; auto.
  constructor; auto. intros Hin. apply Hn.
  apply in_map_iff in Hin as (x & Hx & Hin). apply filter_In in Hin as [Hin _].
  rewrite <- Hx. now apply in_map.
Qed.

Lemma nodup_map_inj {A : Type} (f : A -> Z) (l : list A) (a b : A) :
  NoDup (map f l) -> In a l -> In b l -> f a = f b -> a = b.
Proof.
  induction l as [|x l IH]; simpl; [tauto|]. intros H Ha Hb E.
  apply NoDup_cons_iff in H as [Hn Hd].
  destruct Ha as [<-|Ha], Hb as [<-|Hb]; auto.
  - elim Hn. rewrite E. now apply in_map.
  - elim Hn. rewrite <- E. now apply in_map.
Qed.

(** Under the uniqueness of [tg_id], the caller does not resolve any more
    once the account is deleted. *)
Lemma deleted_not_found (d : db) (t : tg_user) :
  tg_unique d -> user_by_tg (fst (delete_account d t)) (tg_id t) = None.
Proof.
  intros Hu. unfold delete_account.
  destruct (user_by_tg d (tg_id t)) as [row|] eqn:E; [|exact E].
  simpl. unfold user_by_tg in *. simpl.
  destruct (find _ (filter _ (users d))) as [u|] eqn:F; [|reflexivity].
  apply find_some in E as [Hrow Ht]. apply find_some in F as [Hin Ht'].
  apply filter_In in Hin as [Hin Hid].
  apply Z.eqb_eq in Ht, Ht'. apply negb_true_iff, Z.eqb_neq in Hid.
  elim Hid. f_equal.
  apply (nodup_map_inj u_tg_id (users d) u row Hu Hin Hrow). congruence.
Qed.

(** C5.  Account deletion.  When the caller has a [users] row, with id
    [uid], the command leaves in [profiles] exactly the rows of other users,
    in [likes], [matches] and [reports] exactly the rows that name [uid] on
    neither side, and in [users] exactly the rows with another id, and
    confirms the deletion; with [tg_id] unique, as the schema has it, the
    same command sent again finds no account.  When the caller has no
    [users] row the database is unchanged and the answer is that no account
    was found. *)
Theorem delete_account_removes_all (d : db) (t : tg_user) :
  match user_by_tg d (tg_id t) with
  | None => delete_account d t = (d, [reply_text "No account found." None])
  | Some row =>
      let uid := u_id row in
      let d' := fst (delete_account d t) in
      (forall p, In p (profiles d') <-> In p (profiles d) /\ p_user_id p <> uid)
      /\ (forall l, In l (likes d') <->
                    In l (likes d) /\ l_from_user l <> uid /\ l_to_user l <> uid)
      /\ (forall m, In m (matches d') <->
                    In m (matches d) /\ m_a m <> uid /\ m_b m <> uid)
      /\ (forall r, In r (reports d') <->
                    In r (reports d)
                    /\ r_reporter_id r <> uid /\ r_reported_id r <> uid)
      /\ (forall u, In u (users d') <-> In u (users d) /\ u_id u <> uid)
      /\ user_by_id d' uid = None
      /\ snd (delete_account d t)
         = [reply_text "Your account and data have been deleted." None]
      /\ (tg_unique d ->
          delete_account d' t = (d', [reply_text "No account found." None]))
  end.
Proof.
  pose proof (deleted_not_found d t) as Hgone.
  unfold delete_account in *.
  destruct (user_by_tg d (tg_id t)) as [row|];
    [|reflexivity].
  cbv zeta. simpl. simpl in Hgone.
  split; [intros p; apply in_filter_neq|].
  split; [intros l; apply in_filter_neq2|].
  split; [intros m; apply in_filter_neq2|].
  split; [intros r; apply in_filter_neq2|].
  split; [intros u; apply in_filter_neq|].
  split; [|split; [reflexivity|]].
  - unfold user_by_id. simpl. apply find_none_filter, filter_out_none.
  - intros Hu. rewrite (Hgone Hu). reflexivity.
Qed.

Lemma delete_account_removes_all_witness :
  tg_unique matched_db
  /\ user_by_tg matched_db (tg_id bob) = Some (mk_user 2 43 None (Some "Bob Ray") 0)
  /\ delete_account (fst (delete_account matched_db bob)) bob
     = (fst (delete_account matched_db bob),
        [reply_text "No account found." None]).
Proof.
  assert (Hu : tg_unique matched_db).
  { repeat constructor; simpl; intuition discriminate. }
  split; [exact Hu|]. split; [reflexivity|].
  pose proof (delete_account_removes_all matched_db bob) as H.
  change (user_by_tg matched_db (tg_id bob))
    with (Some (mk_user 2 43 None (Some "Bob Ray") 0)) in H.
  cbv zeta in H. destruct H as (_ & _ & _ & _ & _ & _ & _ & Hidem).
  exact (Hidem Hu).
Defined.

(** ** Relay *)

Lemma find_existsb {A : Type} (f : A -> bool) (l : list A) :
  existsb f l = match find f l with Some _ => true | None => false end.
Proof.
  induction l as [|a l IH]; simpl; auto. destruct (f a); auto.
Qed.

Lemma has_active_match_ensure (d : db) (t : tg_user) (uid : Z) :
  has_active_match (fst (ensure_user d t)) uid = has_active_match d uid.
Proof.
  unfold has_active_match.
  destruct (ensure_user_tables d t) as (_ & _ & -> & _). reflexivity.
Qed.

(** The relay sends only under an active match.  For a text message from a
    sender with no active [matches] row the only call is the reply that
    there is no active match; whenever the relay makes an outbound send,
    the message was a text and an active row containing the sender exists.
    The function, when it is called with a message without text, gives the
    text-only reply, leaves the database alone and sends nothing; the
    dispatcher never calls it so (see below). *)
Lemma relay_only_with_active_match (d : db)
    (message : option (option string)) (t : tg_user) (ok : bool) :
  let sender_id := snd (ensure_user d t) in
  let r := relay_messages d message t ok in
  (forall text, message = Some (Some text) ->
     has_active_match d sender_id = false ->
     snd r = [reply_text msg_no_match None])
  /\ (existsb is_send (snd r) = true ->
      (exists text, message = Some (Some text))
      /\ has_active_match d sender_id = true)
  /\ (message = Some None -> r = (d, [reply_text msg_text_only None])).
Proof.
  intros sender_id r. subst r sender_id.
  pose proof (has_active_match_ensure d t (snd (ensure_user d t))) as Ha.
  unfold relay_messages.
  destruct message as [[text|]|]; simpl.
  - destruct (ensure_user d t) as [d0 uid]. simpl in *.
    unfold has_active_match at 1 in Ha. rewrite find_existsb in Ha.
    destruct (find (active_match_of uid) (matches d0)) as [m|].
    + split; [intros text' _ H; congruence|].
      split; [|discriminate]. intros _. split; eauto.
    + split; [reflexivity|]. split; discriminate.
  - split; [discriminate|]. split; [discriminate|reflexivity].
  - split; [discriminate|]. split; discriminate.
Qed.

Example relay_direct_calls :
  has_active_match init_db (snd (ensure_user init_db ann)) = false
  /\ snd (relay_messages init_db (Some (Some "hello")) ann true)
     = [reply_text msg_no_match None]
  /\ has_active_match matched_db (snd (ensure_user matched_db bob)) = true
  /\ relay_messages matched_db (Some None) bob true
     = (matched_db, [reply_text msg_text_only None]).
Proof. repeat split. Qed.

(** *** Messages without text *)

Lemma conv_never_text_only (s : bot) (u : update) (r : bot * list action) :
  conv_handler s u = Some r -> existsb is_text_only (snd r) = false.
Proof.
  unfold conv_handler.
  destruct u as [t n a|t text|t f|t p|t]; try discriminate.
  - destruct (conv s (tg_id t)) as [[| | | |]|]; try discriminate.
    + destruct (n =? "skip")%string; [|discriminate].
      unfold skip_photo. destruct (ensure_user _ _).
      intros [= <-]. reflexivity.
    + destruct (n =? "create_profile")%string; [|discriminate].
      intros [= <-]. reflexivity.
  - destruct (conv s (tg_id t)) as [[| | | |]|]; try discriminate.
    + unfold profile_name. destruct (_ <? 2); intros [= <-]; reflexivity.
    + unfold profile_age. destruct (negb _); [intros [= <-]; reflexivity|].
      destruct (Py.int _) as [age|]; [|intros [= <-]; reflexivity].
      destruct (age <? 18); intros [= <-]; reflexivity.
    + intros [= <-]. reflexivity.
    + intros [= <-]. reflexivity.
  - destruct (conv s (tg_id t)) as [[| | | |]|]; try discriminate.
    unfold profile_photo. destruct (ensure_user _ _).
    intros [= <-]. reflexivity.
Qed.

Lemma handle_never_text_only (s : bot) (u : update) (ok : bool) :
  existsb is_text_only (snd (handle s u ok)) = false.
Proof.
  unfold handle.
  destruct (is_command u "start"); [reflexivity|].
  destruct (is_command u "help"); [reflexivity|].
  destruct (conv_handler s u) as [r|] eqn:E;
    [exact (conv_never_text_only s u r E)|].
  destruct u as [t n a|t text|t f|t p|t]; try reflexivity.
  - destruct (n =? "find")%string.
    { unfold with_db, find_handler. cbn [snd].
      destruct (ensure_user _ _) as [d0 uid].
      destruct (find_candidate d0 uid) as [[p q]|]; [|reflexivity].
      destruct (truthy _); reflexivity. }
    destruct (n =? "myprofile")%string.
    { unfold myprofile. cbn [snd].
      destruct (user_by_tg _ _); [|reflexivity].
      destruct (find _ _); [|reflexivity]. destruct (truthy _); reflexivity. }
    destruct (n =? "delete_account")%string.
    { unfold with_db, delete_account. cbn [snd].
      destruct (user_by_tg _ _); reflexivity. }
    destruct (n =? "report")%string; [|reflexivity].
    unfold with_db, report_handler. cbn [snd].
    destruct (_ <? 2); [reflexivity|]. destruct (Py.int _); [|reflexivity].
    destruct (ensure_user _ _) as [d0 uid].
    destruct (user_by_tg d0 _); reflexivity.
  - unfold with_db, relay_messages. cbn [snd].
    destruct (ensure_user _ _) as [d0 uid].
    destruct (find _ _); [|reflexivity].
    destruct (user_by_id _ _); [|reflexivity]. destruct ok; reflexivity.
  - unfold with_db, callback_query_handler. cbn [snd].
    destruct (parse_callback _) as [[a n]|]; [|reflexivity].
    destruct (ensure_user _ _) as [d0 uid].
    destruct (a =? "skip")%string; [reflexivity|].
    destruct (a =? "like")%string; [|reflexivity].
    match goal with |- context [like_exists ?x n uid] =>
      destruct (like_exists x n uid) end; [|reflexivity].
    cbn [snd app existsb is_text_only orb].
    match goal with |- context [user_by_id ?x n] =>
      destruct (user_by_id x n) end; [|reflexivity].
    destruct ok; reflexivity.
Qed.

(** C6.  A message without text gets no explanatory reply.  The relay is
    registered for text messages that are not commands, so a message
    without text never reaches it.  An update that is neither a command,
    a text, a photo nor a button press has no handler: the bot stays as it
    was and makes no call to Telegram.  So does a photo, unless the
    sender's dialogue waits for one.  And whatever the update, the
    text-only reply is not among the calls of the bot.  (For the texts
    that do reach the relay, [relay_only_with_active_match] holds.) *)
Theorem non_text_message_gets_no_reply (s : bot) (ok : bool) :
  (forall from, handle s (Other from) ok = (s, []))
  /\ (forall from file_id, conv s (tg_id from) <> Some A_PHOTO ->
        handle s (Photo from file_id) ok = (s, []))
  /\ (forall u, ~ In (reply_text msg_text_only None) (snd (handle s u ok))).
Proof.
  split; [reflexivity|]. split.
  - intros from file_id H. unfold handle. simpl.
    destruct (conv s (tg_id from)) as [[| | | |]|]; try reflexivity.
    congruence.
  - intros u Hin.
    assert (H : existsb is_text_only (snd (handle s u ok)) = true).
    { apply existsb_exists. eexists. split; [exact Hin|reflexivity]. }
    rewrite handle_never_text_only in H. discriminate.
Qed.

(** *** What the relay forwards *)

Lemma find_related {A : Type} (R : A -> A -> Prop) (f g : A -> bool)
    (l l' : list A) :
  Forall2 R l l' -> (forall a b, R a b -> f a = g b) ->
  match find f l, find g l' with
  | Some a, Some b => R a b
  | None, None => True
  | _, _ => False
  end.
Proof.
  intros H Hfg. induction H as [|a b l l' Hab _ IH]; simpl; auto.
  rewrite <- (Hfg a b Hab). destruct (f a); auto.
Qed.

Lemma next_id_related (l l' : list user_row) :
  Forall2 same_identity l l' -> next_id u_id l = next_id u_id l'.
Proof.
  intros H. unfold next_id. f_equal.
  induction H as [|a b l l' [Hab _] _ IH]; simpl; congruence.
Qed.

Lemma ensure_user_related (d d' : db) (t t' : tg_user) :
  names_apart d d' -> tg_id t = tg_id t' ->
  snd (ensure_user d t) = snd (ensure_user d' t')
  /\ names_apart (fst (ensure_user d t)) (fst (ensure_user d' t')).
Proof.
  intros [Hu Hm] Ht. unfold ensure_user, user_by_tg.
  pose proof (find_related same_identity
                (fun u => u_tg_id u =? tg_id t)
                (fun u => u_tg_id u =? tg_id t')
                (users d) (users d') Hu) as Hf.
  rewrite <- Ht in *.
  specialize (Hf (fun a b Hab => f_equal (fun x => x =? tg_id t) (proj2 Hab))).
  destruct (find _ (users d)) as [row|], (find _ (users d')) as [row'|];
    try contradiction; simpl.
  - split; [apply Hf | split; assumption].
  - rewrite (next_id_related _ _ Hu). split; [reflexivity|].
    split; simpl; [|assumption].
    apply Forall2_app; [assumption|]. constructor; [|constructor].
    split; reflexivity.
Qed.

Lemma user_by_id_related (d d' : db) (i : Z) :
  names_apart d d' ->
  option_map u_tg_id (user_by_id d i) = option_map u_tg_id (user_by_id d' i).
Proof.
  intros [Hu _]. unfold user_by_id.
  pose proof (find_related same_identity
                (fun u => u_id u =? i) (fun u => u_id u =? i)
                (users d) (users d') Hu
                (fun a b Hab => f_equal (fun x => x =? i) (proj1 Hab))) as Hf.
  destruct (find _ (users d)), (find _ (users d')); try contradiction; simpl;
    [f_equal; apply Hf | reflexivity].
Qed.

(** C8.  The relay forwards nothing of the sender's names.  Run the relay
    on the same message in two databases that agree on the matches and on
    the ids of the [users] rows, for two Telegram identities with the same
    external id: whatever the names and usernames, stored or presented, the
    calls made are the same.  And every text the relay sends out is
    [Anonymous#<sender's internal id>], a colon, a line break, and the
    message text. *)
Theorem relay_hides_names (d d' : db) (message : option (option string))
    (t t' : tg_user) (ok : bool) :
  names_apart d d' -> tg_id t = tg_id t' ->
  snd (relay_messages d message t ok) = snd (relay_messages d' message t' ok)
  /\ forall chat out,
       In (send_message chat out) (snd (relay_messages d message t ok)) ->
       exists text,
         message = Some (Some text)
         /\ out = ("Anonymous#" ++ Py.str_of_int (snd (ensure_user d t))
                   ++ ":" ++ Py.nl ++ text)%string.
Proof.
  intros Hd Ht.
  destruct (ensure_user_related d d' t t' Hd Ht) as [Hid Hd0].
  unfold relay_messages.
  destruct message as [[text|]|]; simpl;
    [|split; [reflexivity | intros ? ? [H|[]]; discriminate]
     |split; [reflexivity | intros ? ? []]].
  destruct (ensure_user d t) as [d0 uid], (ensure_user d' t') as [d0' uid'].
  simpl in *. subst uid'.
  pose proof (user_by_id_related d0 d0') as Hrow.
  pose proof (proj2 Hd0) as Hm. rewrite Hm.
  destruct (find (active_match_of uid) (matches d0)) as [m|];
    [|split; [reflexivity | intros ? ? [H|[]]; discriminate]].
  specialize (Hrow (if m_a m =? uid then m_b m else m_a m) Hd0).
  destruct (user_by_id d0 _) as [row|], (user_by_id d0' _) as [row'|];
    simpl in Hrow; try discriminate;
    [|split; [reflexivity | intros ? ? [H|[]]; discriminate]].
  injection Hrow as Hrow. rewrite Hrow.
  destruct ok; simpl; (split; [reflexivity|]);
    intros chat out H; exists text; split; auto.
  - destruct H as [H|[H|[]]]; [|discriminate]. now injection H as _ <-.
  - destruct H as [H|[H|[H|[]]]]; try discriminate. now injection H as _ <-.
Qed.

Lemma relay_hides_names_witness :
  names_apart matched_db renamed_db /\ tg_id bob = tg_id bob_renamed
  /\ snd (relay_messages renamed_db (Some (Some "hi")) bob_renamed true)
     = [send_message 42 ("Anonymous#2:" ++ Py.nl ++ "hi")%string;
        reply_text "Sent to your match." None].
Proof.
  assert (H : names_apart matched_db renamed_db).
  { split; [|reflexivity]. repeat constructor. }
  split; [exact H|]. split; [reflexivity|].
  destruct (relay_hides_names matched_db renamed_db (Some (Some "hi"))
              bob bob_renamed true H eq_refl) as [Heq _].
  rewrite <- Heq. reflexivity.
Defined.

(** ** Reports *)

(** The target look-up of [/report] runs after [ensure_user]: for a
    reporter without a row it misses exactly when the target was unknown
    before and is not the reporter's own id. *)
Lemma target_unknown_after_ensure (d : db) (t : tg_user) (target : Z) :
  user_by_tg d (tg_id t) = None ->
  (user_by_tg (fst (ensure_user d t)) target = None
   <-> user_by_tg d target = None /\ target <> tg_id t).
Proof.
  intros Hnew. rewrite (ensure_user_new d t Hnew). simpl.
  unfold user_by_tg. simpl. split.
  - intros H. destruct (find _ (users d)) eqn:E.
    + apply find_some in E as [Hin Hx].
      assert (Hf : find (fun u => u_tg_id u =? target)
                     (users d ++ [new_user d t]) <> None).
      { intros Hn. eapply find_none in Hn; [|apply in_or_app; left; eauto].
        simpl in Hn. congruence. }
      contradiction.
    + split; [reflexivity|]. rewrite (find_app_last _ _ _ E) in H.
      simpl in H. destruct (tg_id t =? target) eqn:E'; [discriminate|].
      apply Z.eqb_neq in E'. congruence.
  - intros [H Hne]. rewrite (find_app_last _ _ _ H). simpl.
    destruct (tg_id t =? target) eqn:E'; [|reflexivity].
    apply Z.eqb_eq in E'. congruence.
Qed.

(** C10.  A report that fails on its target still registers the reporter.
    For a reporter with no [users] row and arguments whose first one reads
    as a number that fits the database's 64-bit integers, as every
    external id does, when the handler's look-up of that number finds no
    user, the answer is [User not found.], no [reports] row is added, and
    yet the reporter's [users] row, created by [ensure_user] before the
    look-up, stays in the database. *)
Theorem report_not_found_keeps_reporter (d : db) (t : tg_user)
    (args : list string) (target : Z) :
  user_by_tg d (tg_id t) = None ->
  (2 <= List.length args)%nat ->
  Py.int (hd "" args) = Some target ->
  in_int64 target = true ->
  user_by_tg (fst (ensure_user d t)) target = None ->
  let r := report_handler d t args in
  snd r = [reply_text "User not found." None]
  /\ reports (fst r) = reports d
  /\ users (fst r) = users d ++ [new_user d t]
  /\ user_by_tg (fst r) (tg_id t) = Some (new_user d t)
  /\ user_count (fst r) (tg_id t) = 1%nat.
Proof.
  intros Hnew Hlen Hint _ Hmiss r. subst r. unfold report_handler.
  replace (Z.of_nat (List.length args) <? 2) with false
    by (symmetry; apply Z.ltb_ge; lia).
  rewrite Hint.
  pose proof (ensure_user_new d t Hnew) as He.
  destruct (ensure_user d t) as [d0 uid]. simpl in Hmiss.
  rewrite Hmiss. injection He as -> ->. simpl.
  split; [reflexivity|]. split; [reflexivity|]. split; [reflexivity|].
  apply user_count_zero in Hnew as Hc.
  unfold user_by_tg in *. simpl. rewrite (find_app_last _ _ _ Hnew). simpl.
  rewrite Z.eqb_refl. split; [reflexivity|].
  unfold user_count in *. simpl. rewrite filter_app_last, length_app, Hc.
  simpl. rewrite Z.eqb_refl. reflexivity.
Qed.

Lemma report_not_found_keeps_reporter_witness :
  user_by_tg init_db (tg_id ann) = None
  /\ (2 <= List.length ["777"; "spam"])%nat
  /\ Py.int (hd "" ["777"; "spam"]) = Some 777
  /\ in_int64 777 = true
  /\ user_by_tg (fst (ensure_user init_db ann)) 777 = None
  /\ snd (report_handler init_db ann ["777"; "spam"])
     = [reply_text "User not found." None]
  /\ users (fst (report_handler init_db ann ["777"; "spam"]))
     = [mk_user 1 42 (Some "ann_l") (Some "Ann") 0].
Proof.
  assert (Hlen : (2 <= List.length ["777"; "spam"])%nat) by (simpl; lia).
  destruct (report_not_found_keeps_reporter init_db ann ["777"; "spam"] 777
              eq_refl Hlen eq_refl eq_refl eq_refl) as (Hreply & _ & Hu & _).
  split; [reflexivity|]. split; [exact Hlen|]. split; [reflexivity|].
  split; [reflexivity|]. split; [reflexivity|]. split; [exact Hreply|].
  rewrite Hu. reflexivity.
Defined.

(** ** Discovery *)

Lemma mem_liked_by (d : db) (uid x : Z) :
  mem x (liked_by d uid) = like_exists d uid x.
Proof.
  unfold mem, liked_by, like_exists.
  induction (likes d) as [|l ls IH]; simpl; auto.
  destruct (l_from_user l =? uid); simpl; auto.
  now rewrite IH, (Z.eqb_sym x).
Qed.

Lemma in_joined (d : db) (p : profile_row) (u : user_row) :
  In (p, u) (joined d)
  <-> In p (profiles d) /\ In u (users d) /\ u_id u = p_user_id p.
Proof.
  unfold joined. rewrite in_flat_map. split.
  - intros (p' & Hp & Hin). apply in_map_iff in Hin as (u' & [= <- <-] & Hu).
    apply filter_In in Hu as [Hu Hid]. apply Z.eqb_eq in Hid. auto.
  - intros (Hp & Hu & Hid). exists p. split; [exact Hp|].
    apply in_map, filter_In. split; [exact Hu|]. now apply Z.eqb_eq.
Qed.

Lemma hd_error_filter {A : Type} (f : A -> bool) (l : list A) :
  hd_error (filter f l) = find f l.
Proof. induction l as [|a l IH]; simpl; auto. destruct (f a); auto. Qed.

Lemma eligible_spec (d : db) (uid : Z) (pu : profile_row * user_row) :
  eligible d uid pu = true
  <-> p_user_id (fst pu) <> uid
      /\ like_exists d uid (p_user_id (fst pu)) = false.
Proof.
  unfold eligible. rewrite mem_liked_by, andb_true_iff, !negb_true_iff,
    Z.eqb_neq. reflexivity.
Qed.

Lemma map_fst_pairs {A B : Type} (a : A) (l : list B) :
  map fst (map (pair a) l) = repeat a (List.length l).
Proof. induction l; simpl; congruence. Qed.

Lemma count_by_id (us : list user_row) (k : Z) :
  List.length (filter (fun u => u_id u =? k) us)
  = List.length (filter (fun i => i =? k) (map u_id us)).
Proof.
  induction us as [|u us IH]; simpl; auto.
  destruct (u_id u =? k); simpl; congruence.
Qed.

(** The profiles of the joined rows, given by the profiles and the ids in
    [users] alone. *)
Lemma map_fst_joined (d : db) :
  map fst (joined d)
  = flat_map
      (fun p => repeat p
                  (List.length
                     (filter (fun i => i =? p_user_id p) (map u_id (users d)))))
      (profiles d).
Proof.
  unfold joined. induction (profiles d) as [|p ps IH]; simpl; auto.
  now rewrite map_app, map_fst_pairs, count_by_id, IH.
Qed.

Lemma map_fst_filter {A B : Type} (g : A -> bool) (l : list (A * B)) :
  map fst (filter (fun x => g (fst x)) l) = filter g (map fst l).
Proof.
  induction l as [|x l IH]; simpl; auto.
  destruct (g (fst x)); simpl; congruence.
Qed.

Lemma hd_error_map {A B : Type} (f : A -> B) (l : list A) :
  hd_error (map f l) = option_map f (hd_error l).
Proof. destruct l; reflexivity. Qed.

(** The profile chosen by the browsing query is a function of the
    profiles, the ids in [users] and the requester's own likes. *)
Lemma find_candidate_reads (d d' : db) (uid : Z) :
  profiles d' = profiles d ->
  map u_id (users d') = map u_id (users d) ->
  liked_by d' uid = liked_by d uid ->
  option_map fst (find_candidate d' uid) = option_map fst (find_candidate d uid).
Proof.
  intros Hp Hu Hl. unfold find_candidate. rewrite <- !hd_error_map.
  unfold eligible. rewrite Hl.
  rewrite (map_fst_filter
             (fun p => negb (p_user_id p =? uid)
                       && negb (mem (p_user_id p) (liked_by d uid)))
             (joined d')),
    (map_fst_filter
       (fun p => negb (p_user_id p =? uid)
                 && negb (mem (p_user_id p) (liked_by d uid)))
       (joined d)).
  now rewrite !map_fst_joined, Hp, Hu.
Qed.

(** C2.  The browsing query.  With [uid] the requester's internal id:
    a row it returns is a profile with its owner's [users] row, the owner
    is not [uid] and [uid] has no like towards the owner; when every
    profile is the requester's own or of someone the requester has liked,
    the handler answers with the try-later message; a profile of another
    user whom the requester has not liked, and whose owner has a [users]
    row, is enough for the query to return a row, whatever the owner's
    banned flag, likes or matches; and the profile returned does not change
    when anything but the profiles, the ids in [users] and the requester's
    own likes changes. *)
Theorem find_excludes_self_and_liked (d : db) (t : tg_user) :
  let d1 := fst (ensure_user d t) in
  let uid := snd (ensure_user d t) in
  (forall p u, find_candidate d1 uid = Some (p, u) ->
     In p (profiles d1) /\ In u (users d1) /\ u_id u = p_user_id p
     /\ p_user_id p <> uid /\ like_exists d1 uid (p_user_id p) = false)
  /\ ((forall p, In p (profiles d1) ->
         p_user_id p = uid \/ like_exists d1 uid (p_user_id p) = true) ->
      find_handler d t = (d1, [reply_text msg_try_later None]))
  /\ (forall p u, In p (profiles d1) -> In u (users d1) ->
        u_id u = p_user_id p -> p_user_id p <> uid ->
        like_exists d1 uid (p_user_id p) = false ->
        find_candidate d1 uid <> None)
  /\ (forall d2, profiles d2 = profiles d1 ->
        map u_id (users d2) = map u_id (users d1) ->
        liked_by d2 uid = liked_by d1 uid ->
        option_map fst (find_candidate d2 uid)
        = option_map fst (find_candidate d1 uid)).
Proof.
  intros d1 uid. split; [|split; [|split]].
  - intros p u H. unfold find_candidate in H. rewrite hd_error_filter in H.
    apply find_some in H as [Hin Hel].
    apply in_joined in Hin as (Hp & Hu & Hid).
    apply eligible_spec in Hel as [Hself Hliked]. auto.
  - intros Hall. unfold find_handler. subst d1 uid.
    destruct (ensure_user d t) as [d1 uid]. simpl in *.
    destruct (find_candidate d1 uid) as [[p u]|] eqn:E; [|reflexivity].
    exfalso. unfold find_candidate in E. rewrite hd_error_filter in E.
    apply find_some in E as [Hin Hel].
    apply in_joined in Hin as (Hp & _).
    apply eligible_spec in Hel as [Hself Hliked]. simpl in *.
    destruct (Hall p Hp); congruence.
  - intros p u Hp Hu Hid Hself Hliked Hnone.
    unfold find_candidate in Hnone. rewrite hd_error_filter in Hnone.
    assert (Hin : In (p, u) (joined d1)) by (apply in_joined; auto).
    apply (find_none _ _ Hnone) in Hin.
    assert (He : eligible d1 uid (p, u) = true)
      by (apply eligible_spec; auto).
    congruence.
  - intros d2. apply find_candidate_reads.
Qed.

Lemma find_excludes_self_and_liked_witness :
  find_candidate bob_banned_db 1
  = Some (mk_profile 2 2 (Some 31) (Some "M") (Some "yo") None,
          mk_user 2 43 None (Some "Bob Ray") 1)
  /\ find_candidate bob_banned_db 1 <> None
  /\ find_handler init_db ann
     = (fst (ensure_user init_db ann), [reply_text msg_try_later None]).
Proof.
  split; [reflexivity|].
  destruct (find_excludes_self_and_liked bob_banned_db ann)
    as (_ & _ & Hany & _).
  destruct (find_excludes_self_and_liked init_db ann) as (_ & Hnone & _ & _).
  split.
  - apply (Hany (mk_profile 2 2 (Some 31) (Some "M") (Some "yo") None)
             (mk_user 2 43 None (Some "Bob Ray") 1)); simpl; auto.
    discriminate.
  - apply Hnone. intros p [].
Defined.

(** ** The age question *)

(** C4.  The age check and the superscript digits.  [str.isdigit] accepts
    U+00B2 and [int] rejects it: on that text [profile_age] raises
    [ValueError] before any reply, so a dialogue waiting for the age gets no
    re-prompt; the update leaves the bot as it was and makes no call. *)
Theorem profile_age_superscript_raises (ud : user_data) :
  Py.isdigit (Py.strip superscript_two) = true
  /\ Py.int (Py.strip superscript_two) = None
  /\ profile_age superscript_two ud = ValueError
  /\ conv ann_at_age (tg_id ann) = Some A_AGE
  /\ snd (handle ann_at_age (Text ann superscript_two) true) = []
  /\ conv (fst (handle ann_at_age (Text ann superscript_two) true)) (tg_id ann)
     = Some A_AGE.
Proof. repeat split. Qed.

(** Outside the superscripts the age question behaves as a three-way
    branch on the stripped text. *)
Lemma profile_age_cases (text : string) (ud : user_data) :
  (Py.isdigit (Py.strip text) = false ->
   profile_age text ud
   = Returned (ud, Goto A_AGE,
               [reply_text "Please send a number for age." None]))
  /\ (forall age,
        Py.isdigit (Py.strip text) = true ->
        Py.int (Py.strip text) = Some age -> age < 18 ->
        profile_age text ud
        = Returned (ud, END,
                    [reply_text "You must be 18+ to use this bot." None]))
  /\ (forall age,
        Py.isdigit (Py.strip text) = true ->
        Py.int (Py.strip text) = Some age -> 18 <= age ->
        profile_age text ud
        = Returned
            (mk_user_data (ud_name ud) (Some age) (ud_gender ud) (ud_bio ud)
               (ud_photo ud),
             Goto A_GENDER,
             [reply_text "What's your gender? (Male/Female/Other)" None])).
Proof.
  unfold profile_age. split; [|split].
  - intros ->. reflexivity.
  - intros age -> -> Hlt. simpl.
    replace (age <? 18) with true by (symmetry; apply Z.ltb_lt; lia).
    reflexivity.
  - intros age -> -> Hge. simpl.
    replace (age <? 18) with false by (symmetry; apply Z.ltb_ge; lia).
    reflexivity.
Qed.

(** Whatever the text, [profile_age] advances only with an adult age, and
    it never changes the collected age otherwise. *)
Lemma profile_age_advances_adult (text : string) (ud ud' : user_data)
    (n : conv_next) (acts : list action) :
  profile_age text ud = Returned (ud', n, acts) ->
  match n with
  | Goto A_GENDER => adult (ud_age ud')
  | Goto A_AGE | END => ud' = ud
  | _ => False
  end.
Proof.
  unfold profile_age. destruct (negb _); [intros [= <- <- <-]; reflexivity|].
  destruct (Py.int _) as [age|]; [|discriminate].
  destruct (age <? 18) eqn:E; intros [= <- <- <-]; [reflexivity|].
  exists age. split; [reflexivity|]. now apply Z.ltb_ge.
Qed.

(** *** No profile under 18 *)

Lemma profiles_record (d : db) (f t : Z) :
  profiles (record_like d f t) = profiles d.
Proof.
  unfold record_like. cbv zeta.
  destruct (like_exists d f t); simpl;
    match goal with |- context [if ?c then _ else _] => destruct c end;
    simpl; try match goal with
               |- context [if ?c then _ else _] => destruct c
               end; reflexivity.
Qed.

Lemma profiles_within_eq (d d' : db) :
  profiles d' = profiles d -> profiles_within d d'.
Proof. intros H p. now rewrite H. Qed.

Lemma profiles_ensure (d : db) (t : tg_user) :
  profiles (fst (ensure_user d t)) = profiles d.
Proof. apply ensure_user_tables. Qed.

Lemma profiles_callback (d : db) (u : tg_user) (payload : option string)
    (ok : bool) :
  profiles (fst (callback_query_handler d u payload ok)) = profiles d.
Proof.
  rewrite callback_db. destruct (parse_callback _) as [[a t]|]; auto.
  destruct (a =? "like")%string; rewrite ?profiles_record;
    apply profiles_ensure.
Qed.

Lemma profiles_report (d : db) (t : tg_user) (args : list string) :
  profiles (fst (report_handler d t args)) = profiles d.
Proof.
  unfold report_handler. destruct (_ <? 2); auto.
  destruct (Py.int _); auto.
  pose proof (profiles_ensure d t) as H.
  destruct (ensure_user d t) as [d0 uid]. simpl in H.
  destruct (user_by_tg d0 _); exact H.
Qed.

Lemma profiles_relay (d : db) (msg : option (option string)) (t : tg_user)
    (ok : bool) :
  profiles (fst (relay_messages d msg t ok)) = profiles d.
Proof.
  unfold relay_messages. destruct msg as [[text|]|]; auto.
  pose proof (profiles_ensure d t) as H.
  destruct (ensure_user d t) as [d0 uid]. simpl in H.
  destruct (find _ _); [|exact H].
  destruct (user_by_id d0 _); [|exact H].
  destruct ok; exact H.
Qed.

Lemma profiles_delete (d : db) (t : tg_user) :
  profiles_within d (fst (delete_account d t)).
Proof.
  unfold delete_account. destruct (user_by_tg d (tg_id t)); intros p; simpl;
    auto.
  intros H. now apply filter_In in H.
Qed.

Lemma adult_saved (d : db) (t : tg_user) (ud : user_data)
    (photo : option string) :
  (forall p, In p (profiles d) -> adult (p_age p)) ->
  adult (ud_age ud) ->
  forall p,
    In p (profiles
            (replace_profile
               (update_name (fst (ensure_user d t)) (ud_name ud)
                  (snd (ensure_user d t)))
               (snd (ensure_user d t)) (ud_age ud) (ud_gender ud) (ud_bio ud)
               photo)) ->
    adult (p_age p).
Proof.
  intros Hold Hage p. simpl. rewrite profiles_ensure.
  intros H. apply in_app_or in H as [H | [<- | []]]; [|exact Hage].
  apply filter_In in H as [H _]. auto.
Qed.

Lemma age_floor_with_db (s : bot) (r : db * list action) :
  profiles_within (bot_db s) (fst r) ->
  age_floor s -> age_floor (fst (with_db s r)).
Proof. intros Hw [Hp Hc]. split; simpl; auto. Qed.

Lemma age_floor_after_conv (s : bot) (k : Z) (d : db)
    (r : user_data * conv_next * list action) :
  age_floor s ->
  (forall p, In p (profiles d) -> adult (p_age p)) ->
  match snd (fst r) with
  | Goto A_GENDER | Goto A_BIO | Goto A_PHOTO => adult (ud_age (fst (fst r)))
  | _ => True
  end ->
  age_floor (fst (after_conv s k d r)).
Proof.
  destruct r as [[ud n] acts]. intros [Hp Hc] Hd Hn. split; simpl; [exact Hd|].
  intros k'. unfold set_at. destruct (k' =? k); [|apply Hc].
  destruct n as [[]|]; auto.
Qed.

Lemma conv_age_floor (s : bot) (u : update) (r : bot * list action) :
  age_floor s -> conv_handler s u = Some r -> age_floor (fst r).
Proof.
  intros Hs. pose proof Hs as [Hp Hc]. unfold conv_handler.
  destruct u as [from name args|from text|from file|from p|from];
    try discriminate; specialize (Hc (tg_id from)).
  - destruct (conv s (tg_id from)) as [[]|]; try discriminate.
    + destruct (name =? "skip")%string; [|discriminate].
      pose proof (adult_saved (bot_db s) from (data s (tg_id from)) None Hp Hc)
        as Ha.
      unfold skip_photo.
      destruct (ensure_user (bot_db s) from) as [d0 uid].
      cbn [fst snd] in Ha. intros [= <-].
      exact (age_floor_after_conv s (tg_id from) _ (no_data, END, []) Hs Ha I).
    + destruct (name =? "create_profile")%string; [|discriminate].
      intros [= <-].
      exact (age_floor_after_conv s (tg_id from) (bot_db s)
               (data s (tg_id from), Goto A_NAME, []) Hs Hp I).
  - destruct (conv s (tg_id from)) as [[]|]; try discriminate.
    + intros [= <-].
      assert (Hn : match snd (fst (profile_name text (data s (tg_id from)))) with
                   | Goto A_GENDER | Goto A_BIO | Goto A_PHOTO =>
                       adult (ud_age (fst (fst (profile_name text
                                                  (data s (tg_id from))))))
                   | _ => True
                   end)
        by (unfold profile_name; destruct (_ <? 2); exact I).
      exact (age_floor_after_conv s (tg_id from) (bot_db s)
               (profile_name text (data s (tg_id from))) Hs Hp Hn).
    + destruct (profile_age text (data s (tg_id from)))
        as [[[ud' n] acts]|] eqn:E; intros [= <-]; [|exact Hs].
      apply profile_age_advances_adult in E.
      assert (Hn : match n with
                   | Goto A_GENDER | Goto A_BIO | Goto A_PHOTO =>
                       adult (ud_age ud')
                   | _ => True
                   end) by (destruct n as [[]|]; auto; contradiction).
      exact (age_floor_after_conv s (tg_id from) (bot_db s) (ud', n, acts)
               Hs Hp Hn).
    + intros [= <-].
      exact (age_floor_after_conv s (tg_id from) (bot_db s)
               (profile_gender text (data s (tg_id from))) Hs Hp Hc).
    + intros [= <-].
      exact (age_floor_after_conv s (tg_id from) (bot_db s)
               (profile_bio text (data s (tg_id from))) Hs Hp Hc).
  - destruct (conv s (tg_id from)) as [[]|]; try discriminate.
    pose proof (adult_saved (bot_db s) from (data s (tg_id from))
                  (Some file) Hp Hc) as Ha.
    unfold profile_photo. simpl ud_name. simpl ud_age. simpl ud_gender.
    simpl ud_bio. simpl ud_photo.
    destruct (ensure_user (bot_db s) from) as [d0 uid].
    cbn [fst snd] in Ha. intros [= <-].
    exact (age_floor_after_conv s (tg_id from) _ (no_data, END, []) Hs Ha I).
Qed.

(** Every update keeps the floor. *)
Lemma handle_age_floor (s : bot) (u : update) (ok : bool) :
  age_floor s -> age_floor (fst (handle s u ok)).
Proof.
  intros H. unfold handle.
  destruct (is_command u "start"); [exact H|].
  destruct (is_command u "help"); [exact H|].
  destruct (conv_handler s u) as [r|] eqn:E;
    [exact (conv_age_floor s u r H E)|].
  destruct u as [from name args|from text|from file|from p|from]; auto.
  - destruct (name =? "find")%string.
    { apply age_floor_with_db; auto. apply profiles_within_eq.
      rewrite find_handler_db. apply profiles_ensure. }
    destruct (name =? "myprofile")%string; [exact H|].
    destruct (name =? "delete_account")%string.
    { apply age_floor_with_db; auto. apply profiles_delete. }
    destruct (name =? "report")%string; [|exact H].
    apply age_floor_with_db; auto. apply profiles_within_eq, profiles_report.
  - apply age_floor_with_db; auto. apply profiles_within_eq, profiles_relay.
  - apply age_floor_with_db; auto. apply profiles_within_eq, profiles_callback.
Qed.

(** No run of the bot stores a profile with a missing age or an age under
    18. *)
Lemma no_profile_under_18 (evs : list (update * bool)) (p : profile_row) :
  In p (profiles (bot_db (run init_bot evs))) ->
  exists a, p_age p = Some a /\ 18 <= a.
Proof.
  assert (H : forall s, age_floor s -> age_floor (run s evs)).
  { induction evs as [|[u ok] evs IH]; simpl; auto.
    intros s Hs. apply IH, handle_age_floor, Hs. }
  assert (H0 : age_floor init_bot) by (split; [intros q [] | intros k; exact I]).
  apply (proj1 (H init_bot H0)).
Qed.

(** On decimal digits alone the age question always answers. *)
Lemma uint_of_char_decimal (c : ascii) (d : uint) :
  Py.is_decimal c = true -> uint_of_char c (Some d) <> None.
Proof.
  destruct c as [[] [] [] [] [] [] [] []]; vm_compute; congruence.
Qed.

Lemma uint_of_string_decimal (s : string) :
  Py.forall_chars Py.is_decimal s = true ->
  NilEmpty.uint_of_string s <> None.
Proof.
  induction s as [|c r IH]; simpl; [discriminate|]. intros H.
  apply andb_true_iff in H as [Hc Hr].
  destruct (NilEmpty.uint_of_string r) as [d|]; [|now elim (IH Hr)].
  now apply uint_of_char_decimal.
Qed.

Lemma profile_age_decimal_returns (text : string) (ud : user_data) :
  Py.forall_chars Py.is_decimal (Py.strip text) = true ->
  profile_age text ud <> ValueError.
Proof.
  intros H. unfold profile_age.
  destruct (negb (Py.isdigit (Py.strip text))) eqn:E; [discriminate|].
  assert (Hne : Py.is_empty (Py.strip text) = false).
  { apply negb_false_iff in E. unfold Py.isdigit in E.
    apply andb_true_iff in E as [E _]. now apply negb_true_iff in E. }
  rewrite (PyFacts.int_decimal _ H Hne).
  pose proof (uint_of_string_decimal _ H) as Hu.
  destruct (NilEmpty.uint_of_string (Py.strip text)); [|contradiction].
  simpl. destruct (_ <? 18); discriminate.
Qed.

(** ** Uniqueness of the external id *)

Lemma tg_unique_users (d d' : db) :
  map u_tg_id (users d') = map u_tg_id (users d) ->
  tg_unique d -> tg_unique d'.
Proof. unfold tg_unique. now intros ->. Qed.

Lemma tg_unique_ensure (d : db) (t : tg_user) :
  tg_unique d -> tg_unique (fst (ensure_user d t)).
Proof.
  intros H. unfold ensure_user.
  destruct (user_by_tg d (tg_id t)) eqn:E; [exact H|].
  unfold tg_unique. simpl. rewrite map_app. simpl.
  apply NoDup_app; [exact H | repeat constructor; intros [] |].
  intros a Ha [<-|[]].
  apply in_map_iff in Ha as (u & Hu & Hin).
  apply (find_none _ _ E) in Hin. apply Z.eqb_neq in Hin. congruence.
Qed.

Lemma tg_unique_saved (d : db) (t : tg_user) (ud : user_data)
    (photo : option string) :
  tg_unique d ->
  tg_unique
    (replace_profile
       (update_name (fst (ensure_user d t)) (ud_name ud) (snd (ensure_user d t)))
       (snd (ensure_user d t)) (ud_age ud) (ud_gender ud) (ud_bio ud) photo).
Proof.
  intros H. apply tg_unique_ensure with (t := t) in H.
  revert H. apply tg_unique_users. simpl.
  induction (users (fst (ensure_user d t))) as [|u l IH]; simpl; auto.
  rewrite IH. destruct (u_id u =? _); reflexivity.
Qed.

Lemma tg_unique_callback (d : db) (u : tg_user) (payload : option string)
    (ok : bool) :
  tg_unique d -> tg_unique (fst (callback_query_handler d u payload ok)).
Proof.
  intros H. rewrite callback_db.
  destruct (parse_callback _) as [[a t]|]; auto.
  destruct (a =? "like")%string; [|now apply tg_unique_ensure].
  apply tg_unique_ensure with (t := u) in H. revert H.
  apply tg_unique_users. now rewrite users_record.
Qed.

Lemma tg_unique_report (d : db) (t : tg_user) (args : list string) :
  tg_unique d -> tg_unique (fst (report_handler d t args)).
Proof.
  intros H. unfold report_handler. destruct (_ <? 2); auto.
  destruct (Py.int _); auto.
  apply tg_unique_ensure with (t := t) in H.
  destruct (ensure_user d t) as [d0 uid]. simpl in H.
  destruct (user_by_tg d0 _); exact H.
Qed.

Lemma tg_unique_relay (d : db) (msg : option (option string)) (t : tg_user)
    (ok : bool) :
  tg_unique d -> tg_unique (fst (relay_messages d msg t ok)).
Proof.
  intros H. unfold relay_messages. destruct msg as [[text|]|]; auto.
  apply tg_unique_ensure with (t := t) in H.
  destruct (ensure_user d t) as [d0 uid]. simpl in H.
  destruct (find _ _); [|exact H].
  destruct (user_by_id d0 _); [|exact H].
  destruct ok; exact H.
Qed.

Lemma tg_unique_delete (d : db) (t : tg_user) :
  tg_unique d -> tg_unique (fst (delete_account d t)).
Proof.
  intros H. unfold delete_account.
  destruct (user_by_tg d (tg_id t)); [|exact H].
  unfold tg_unique. simpl. now apply nodup_map_filter.
Qed.

Lemma tg_unique_conv (s : bot) (u : update) (r : bot * list action) :
  tg_unique (bot_db s) -> conv_handler s u = Some r ->
  tg_unique (bot_db (fst r)).
Proof.
  intros H. unfold conv_handler.
  destruct u as [from name args|from text|from file|from p|from];
    try discriminate.
  - destruct (conv s (tg_id from)) as [[]|]; try discriminate.
    + destruct (name =? "skip")%string; [|discriminate].
      pose proof (skip_photo_db (bot_db s) from (data s (tg_id from))) as E.
      destruct (skip_photo _ _ _) as [[[d ud] n] acts]. simpl in E.
      intros [= <-]. simpl. rewrite E. now apply tg_unique_saved.
    + destruct (name =? "create_profile")%string; [|discriminate].
      intros [= <-]. exact H.
  - destruct (conv s (tg_id from)) as [[]|]; try discriminate;
      try (intros [= <-]; try rewrite after_conv_db; exact H).
    destruct (profile_age _ _); intros [= <-];
      [rewrite after_conv_db|]; exact H.
  - destruct (conv s (tg_id from)) as [[]|]; try discriminate.
    pose proof (profile_photo_db (bot_db s) from file (data s (tg_id from)))
      as E.
    destruct (profile_photo _ _ _ _) as [[[d ud] n] acts]. simpl in E.
    intros [= <-]. simpl. rewrite E. now apply tg_unique_saved.
Qed.

Lemma handle_tg_unique (s : bot) (u : update) (ok : bool) :
  tg_unique (bot_db s) -> tg_unique (bot_db (fst (handle s u ok))).
Proof.
  intros H. unfold handle.
  destruct (is_command u "start"); [exact H|].
  destruct (is_command u "help"); [exact H|].
  destruct (conv_handler s u) as [r|] eqn:E;
    [exact (tg_unique_conv s u r H E)|].
  destruct u as [from name args|from text|from file|from p|from]; auto.
  - destruct (name =? "find")%string.
    { unfold with_db; cbn [fst bot_db]. rewrite find_handler_db. now apply tg_unique_ensure. }
    destruct (name =? "myprofile")%string; [exact H|].
    destruct (name =? "delete_account")%string.
    { unfold with_db; cbn [fst bot_db]. now apply tg_unique_delete. }
    destruct (name =? "report")%string; [|exact H].
    unfold with_db; cbn [fst bot_db]. now apply tg_unique_report.
  - unfold with_db; cbn [fst bot_db]. now apply tg_unique_relay.
  - unfold with_db; cbn [fst bot_db]. now apply tg_unique_callback.
Qed.

(** Every database the bot reaches has at most one row per external id. *)
Lemma run_tg_unique (evs : list (update * bool)) :
  tg_unique (bot_db (run init_bot evs)).
Proof.
  assert (H : forall s, tg_unique (bot_db s) -> tg_unique (bot_db (run s evs))).
  { induction evs as [|[u ok] evs IH]; simpl; auto.
    intros s Hs. apply IH, handle_tg_unique, Hs. }
  apply H. constructor.
Qed.

(** ** Scenarios *)

(** The first like waits, the reciprocal one matches and notifies the other
    side. *)
Example first_like_waits :
  snd (callback_query_handler init_db ann (Some "like:2") true)
  = [answer; edit_message_text msg_liked].
Proof. reflexivity. Qed.

Example reciprocal_like_matches :
  let d := fst (callback_query_handler init_db ann (Some "like:2") true) in
  callback_query_handler d bob (Some "like:1") true
  = (mk_db
       [mk_user 1 42 (Some "ann_l") (Some "Ann") 0;
        mk_user 2 43 None (Some "Bob Ray") 0]
       []
       [mk_like 1 1 2; mk_like 2 2 1]
       [mk_match 1 2 1 1]
       [],
     [answer; edit_message_text msg_match;
      send_message 42 "You've got a new match! Start chatting via the bot."]).
Proof. reflexivity. Qed.

(** A completed dialogue stores one profile and [/myprofile] shows it. *)
Example dialogue_saves_profile :
  let s := run init_bot ann_dialogue in
  profiles (bot_db s)
  = [mk_profile 1 1 (Some 20) (Some "F") (Some "Hello there") None]
  /\ conv s 42 = None
  /\ myprofile (bot_db s) ann
     = [reply_text
          ("Name: Ann Lee" ++ Py.nl ++ "Telegram: @ann_l" ++ Py.nl
           ++ "Age: 20" ++ Py.nl ++ "Gender: F" ++ Py.nl
           ++ "Bio: Hello there")%string
          None].
Proof. repeat split. Qed.

(** An age under 18 ends the dialogue and stores nothing. *)
Example minor_is_turned_away :
  let s := run init_bot [(Command ann "create_profile" [], true);
                         (Text ann "Ann", true)] in
  handle s (Text ann " 17") true
  = (mk_bot (bot_db s) (set_at (conv s) 42 None)
       (set_at (data s) 42 (data s 42)),
     [reply_text "You must be 18+ to use this bot." None])
  /\ profiles (bot_db s) = [].
Proof. split; reflexivity. Qed.

(** A report of a known user stores one row. *)
Example report_is_stored :
  reports (fst (report_handler matched_db ann ["43"; "spam"; "again"]))
  = [mk_report 1 1 2 "spam again"].
Proof. reflexivity. Qed.

(** A find offers the first profile of somebody else. *)
Example find_offers_bob :
  snd (find_handler bob_banned_db ann)
  = [reply_text
       ("Bob Ray (@user)" ++ Py.nl ++ "Age: 31" ++ Py.nl ++ "Gender: M"
        ++ Py.nl ++ "Bio: yo")%string
       (Some [[("❤️ Like", "like:2"); ("⏭ Skip", "skip:2")]])].
Proof. reflexivity. Qed.

(** * Further properties *)

(** ** Every update is a sequence of writes *)

Lemma db_ops_one (d d' : db) : db_op d d' -> db_ops d d'.
Proof. intros H. eapply ops_then; [apply ops_none | exact H]. Qed.

Lemma db_ops_trans (d d1 d2 : db) :
  db_ops d d1 -> db_ops d1 d2 -> db_ops d d2.
Proof.
  intros H1 H2. induction H2 as [|d1 d2 d3 _ IH Hop]; auto.
  eapply ops_then; [apply IH, H1 | exact Hop].
Qed.

Lemma has_user_ensured (d : db) (t : tg_user) :
  has_user (fst (ensure_user d t)) (snd (ensure_user d t)) = true.
Proof.
  destruct (ensure_user_resolves d t) as (row & Hrow & Hid).
  unfold user_by_tg in Hrow. apply find_some in Hrow as [Hin _].
  unfold has_user. apply existsb_exists. exists row. split; [exact Hin|].
  now apply Z.eqb_eq.
Qed.

Lemma db_ops_ensure_then (d d' : db) (t : tg_user) :
  db_op (fst (ensure_user d t)) d' -> db_ops d d'.
Proof.
  intros H. eapply ops_then; [apply db_ops_one, op_ensure | exact H].
Qed.

Lemma callback_ops (d : db) (u : tg_user) (payload : option string)
    (ok : bool) :
  db_ops d (fst (callback_query_handler d u payload ok)).
Proof.
  rewrite callback_db. destruct (parse_callback _) as [[a t]|];
    [|apply ops_none].
  destruct (a =? "like")%string; [|apply db_ops_one, op_ensure].
  apply db_ops_ensure_then with (t := u), op_like, has_user_ensured.
Qed.

Lemma relay_ops (d : db) (msg : option (option string)) (t : tg_user)
    (ok : bool) :
  db_ops d (fst (relay_messages d msg t ok)).
Proof.
  unfold relay_messages. destruct msg as [[text|]|]; try apply ops_none.
  pose proof (db_ops_one _ _ (op_ensure d t)) as H.
  destruct (ensure_user d t) as [d0 uid]. simpl in H.
  destruct (find _ _); [|exact H].
  destruct (user_by_id d0 _); [|exact H].
  destruct ok; exact H.
Qed.

Lemma report_ops (d : db) (t : tg_user) (args : list string) :
  db_ops d (fst (report_handler d t args)).
Proof.
  unfold report_handler. destruct (_ <? 2); [apply ops_none|].
  destruct (Py.int _) as [target|]; [|apply ops_none].
  pose proof (db_ops_one _ _ (op_ensure d t)) as H.
  pose proof (has_user_ensured d t) as Hu.
  destruct (ensure_user d t) as [d0 uid]. simpl in H, Hu.
  destruct (user_by_tg d0 target) as [row|] eqn:E; [|exact H].
  simpl. eapply ops_then; [exact H|].
  apply (op_report d0 uid (u_id row) _ Hu).
  unfold user_by_tg in E. apply find_some in E as [Hin _].
  unfold has_user. apply existsb_exists. exists row.
  split; [exact Hin | apply Z.eqb_refl].
Qed.

Lemma save_ops (d : db) (t : tg_user) (ud : user_data)
    (photo : option string) :
  db_ops d
    (replace_profile
       (update_name (fst (ensure_user d t)) (ud_name ud) (snd (ensure_user d t)))
       (snd (ensure_user d t)) (ud_age ud) (ud_gender ud) (ud_bio ud) photo).
Proof.
  apply db_ops_ensure_then with (t := t).
  apply (op_save (fst (ensure_user d t)) (snd (ensure_user d t))).
  apply has_user_ensured.
Qed.

Lemma conv_ops (s : bot) (u : update) (r : bot * list action) :
  conv_handler s u = Some r -> db_ops (bot_db s) (bot_db (fst r)).
Proof.
  unfold conv_handler.
  destruct u as [from name args|from text|from file|from p|from];
    try discriminate.
  - destruct (conv s (tg_id from)) as [[]|]; try discriminate.
    + destruct (name =? "skip")%string; [|discriminate].
      pose proof (skip_photo_db (bot_db s) from (data s (tg_id from))) as E.
      destruct (skip_photo _ _ _) as [[[d ud] n] acts]. simpl in E.
      intros [= <-]. simpl. rewrite E. apply save_ops.
    + destruct (name =? "create_profile")%string; [|discriminate].
      intros [= <-]. apply ops_none.
  - destruct (conv s (tg_id from)) as [[]|]; try discriminate;
      try (intros [= <-]; try rewrite after_conv_db; apply ops_none).
    destruct (profile_age _ _); intros [= <-];
      [rewrite after_conv_db|]; apply ops_none.
  - destruct (conv s (tg_id from)) as [[]|]; try discriminate.
    pose proof (profile_photo_db (bot_db s) from file (data s (tg_id from)))
      as E.
    destruct (profile_photo _ _ _ _) as [[[d ud] n] acts]. simpl in E.
    intros [= <-]. simpl. rewrite E. apply save_ops.
Qed.

Lemma handle_ops (s : bot) (u : update) (ok : bool) :
  db_ops (bot_db s) (bot_db (fst (handle s u ok))).
Proof.
  unfold handle.
  destruct (is_command u "start"); [apply ops_none|].
  destruct (is_command u "help"); [apply ops_none|].
  destruct (conv_handler s u) as [r|] eqn:E; [exact (conv_ops s u r E)|].
  destruct u as [from name args|from text|from file|from p|from];
    try apply ops_none.
  - destruct (name =? "find")%string.
    { unfold with_db; cbn [fst bot_db]. rewrite find_handler_db.
      apply db_ops_one, op_ensure. }
    destruct (name =? "myprofile")%string; [apply ops_none|].
    destruct (name =? "delete_account")%string.
    { unfold with_db; cbn [fst bot_db]. apply db_ops_one, op_delete. }
    destruct (name =? "report")%string; [|apply ops_none].
    unfold with_db; cbn [fst bot_db]. apply report_ops.
  - unfold with_db; cbn [fst bot_db]. apply relay_ops.
  - unfold with_db; cbn [fst bot_db]. apply callback_ops.
Qed.

Lemma run_ops (evs : list (update * bool)) (s : bot) :
  db_ops (bot_db s) (bot_db (run s evs)).
Proof.
  revert s. induction evs as [|[u ok] evs IH]; intros s; simpl;
    [apply ops_none|].
  eapply db_ops_trans; [apply handle_ops | apply IH].
Qed.

(** A property of the fresh database that every write keeps holds in every
    database the bot reaches. *)
Lemma reached_db (P : db -> Prop) :
  P init_db -> (forall d d', db_op d d' -> P d -> P d') ->
  forall evs, P (bot_db (run init_bot evs)).
Proof.
  intros H0 Hstep evs.
  pose proof (run_ops evs init_bot) as H. simpl in H.
  induction H as [|d d1 d2 _ IH Hop]; eauto.
Qed.

(** ** Well-formed tables *)

Lemma next_id_fresh {A : Type} (id : A -> Z) (l : list A) (x : A) :
  In x l -> id x < next_id id l.
Proof.
  unfold next_id. induction l as [|a l IH]; cbn [fold_right In]; [tauto|].
  intros [<-|H]; [lia|]. specialize (IH H). lia.
Qed.

Lemma map_id_update_name (d : db) (name : option string) (uid : Z) :
  map u_id (users (update_name d name uid)) = map u_id (users d)
  /\ map u_tg_id (users (update_name d name uid)) = map u_tg_id (users d).
Proof.
  simpl. induction (users d) as [|u l [IH1 IH2]]; simpl; auto.
  rewrite IH1, IH2. destruct (u_id u =? uid); auto.
Qed.

Lemma users_wf_op (d d' : db) : db_op d d' -> users_wf d -> users_wf d'.
Proof.
  intros Hop [Ht Hi]. destruct Hop as [d t|d f t _|d t|d a b reason _ _
                                      |d uid name age gender bio photo _].
  - split; [now apply tg_unique_ensure|].
    unfold ensure_user. destruct (user_by_tg d (tg_id t)); [exact Hi|].
    simpl. rewrite map_app. simpl.
    apply NoDup_app; [exact Hi | repeat constructor; intros [] |].
    intros i Hin [<-|[]]. apply in_map_iff in Hin as (u & Hu & Hin).
    apply (next_id_fresh u_id) in Hin. lia.
  - unfold users_wf. rewrite users_record. now split.
  - split; [now apply tg_unique_delete|].
    unfold delete_account. destruct (user_by_tg d (tg_id t)); [|exact Hi].
    simpl. now apply nodup_map_filter.
  - now split.
  - unfold users_wf, save_profile, replace_profile. cbn [users set_profiles].
    destruct (map_id_update_name d name uid) as [-> ->]. now split.
Qed.

Lemma has_user_same (d d' : db) (i : Z) :
  map u_id (users d') = map u_id (users d) -> has_user d' i = has_user d i.
Proof.
  unfold has_user. intros H.
  assert (E : forall l, existsb (fun u => u_id u =? i) l
                        = existsb (fun j => j =? i) (map u_id l)).
  { induction l as [|u l IH]; simpl; congruence. }
  now rewrite !E, H.
Qed.

Lemma has_user_ensure (d : db) (t : tg_user) (i : Z) :
  has_user d i = true -> has_user (fst (ensure_user d t)) i = true.
Proof.
  unfold ensure_user. destruct (user_by_tg d (tg_id t)); auto.
  unfold has_user. simpl. intros H. now rewrite existsb_app, H.
Qed.

Lemma has_user_delete (d : db) (t : tg_user) (row : user_row) (i : Z) :
  user_by_tg d (tg_id t) = Some row ->
  has_user d i = true -> i <> u_id row ->
  has_user (fst (delete_account d t)) i = true.
Proof.
  intros E H Hne. unfold delete_account. rewrite E. unfold has_user in *.
  simpl. apply existsb_exists in H as (u & Hin & Hu).
  apply existsb_exists. exists u. split; [|exact Hu].
  apply filter_In. split; [exact Hin|].
  apply Z.eqb_eq in Hu. apply negb_true_iff, Z.eqb_neq. congruence.
Qed.

Lemma refs_ok_op (d d' : db) : db_op d d' -> refs_ok d -> refs_ok d'.
Proof.
  intros Hop (Hp & Hl & Hr).
  destruct Hop as [d t|d f t Hf|d t|d a b reason Ha Hb
                  |d uid name age gender bio photo Hu].
  - destruct (ensure_user_tables d t) as (Ep & El & _ & Er).
    split; [|split]; [intros p|intros l|intros r]; rewrite ?Ep, ?El, ?Er;
      intros Hin.
    + now apply has_user_ensure, Hp.
    + now apply has_user_ensure, Hl.
    + destruct (Hr r Hin). split; now apply has_user_ensure.
  - assert (E : forall i, has_user (record_like d f t) i = has_user d i)
      by (intros i; apply has_user_same; now rewrite users_record).
    split; [|split]; [intros p|intros l|intros r]; rewrite !E.
    + rewrite profiles_record. apply Hp.
    + rewrite likes_record. destruct (like_exists d f t); [apply Hl|].
      intros Hin. apply in_app_or in Hin as [Hin|[<-|[]]]; auto.
    + intros Hin. apply Hr. revert Hin. unfold record_like. cbv zeta.
      destruct (like_exists d f t); simpl;
        match goal with |- context [if ?c then _ else _] => destruct c end;
        simpl; try match goal with
                   |- context [if ?c then _ else _] => destruct c
                   end; auto.
  - destruct (user_by_tg d (tg_id t)) as [row|] eqn:E;
      [|unfold delete_account; rewrite E; exact (conj Hp (conj Hl Hr))].
    pose proof (has_user_delete d t row) as Hk.
    unfold delete_account in *. rewrite E in *. cbn [fst] in *.
    split; [|split]; [intros p|intros l|intros r]; simpl; intros Hin.
    + apply in_filter_neq in Hin as [Hin Hne]. apply (Hk _ eq_refl); auto.
    + apply in_filter_neq2 in Hin as (Hin & Hne & _).
      apply (Hk _ eq_refl); auto.
    + apply in_filter_neq2 in Hin as (Hin & Hn1 & Hn2).
      destruct (Hr r Hin). split; apply (Hk _ eq_refl); auto.
  - split; [|split]; [exact Hp | exact Hl |].
    intros r Hin. simpl in Hin.
    apply in_app_or in Hin as [Hin|[<-|[]]]; [now apply Hr|]. now split.
  - assert (E : forall i, has_user (save_profile d uid name age gender bio photo) i
                          = has_user d i).
    { intros i. apply has_user_same. unfold save_profile, replace_profile.
      cbn [users set_profiles]. apply map_id_update_name. }
    split; [|split]; [intros p|intros l|intros r]; rewrite !E.
    + simpl. intros Hin. apply in_app_or in Hin as [Hin|[<-|[]]]; auto.
      apply filter_In in Hin as [Hin _]. now apply Hp.
    + apply Hl.
    + apply Hr.
Qed.

Lemma profile_unique_op (d d' : db) :
  db_op d d' -> profile_unique d -> profile_unique d'.
Proof.
  unfold profile_unique. intros Hop H.
  destruct Hop as [d t|d f t _|d t|d a b reason _ _
                  |d uid name age gender bio photo _].
  - now rewrite profiles_ensure.
  - now rewrite profiles_record.
  - unfold delete_account. destruct (user_by_tg d (tg_id t)); [|exact H].
    simpl. now apply nodup_map_filter.
  - exact H.
  - simpl. rewrite map_app. simpl.
    apply NoDup_app; [now apply nodup_map_filter
                     | repeat constructor; intros [] |].
    intros i Hin [<-|[]]. apply in_map_iff in Hin as (p & Hp & Hin).
    apply filter_In in Hin as [_ Hne].
    apply negb_true_iff, Z.eqb_neq in Hne. congruence.
Qed.

(** X1.  The [users] table stays well formed: in every database the bot
    reaches, no two rows have the same external id and no two rows have the
    same internal id. *)
Theorem users_rows_unique (evs : list (update * bool)) :
  NoDup (map u_tg_id (users (bot_db (run init_bot evs))))
  /\ NoDup (map u_id (users (bot_db (run init_bot evs)))).
Proof.
  apply (reached_db users_wf); [split; constructor | exact users_wf_op].
Qed.

(** X2.  One profile per user: in every database the bot reaches, no two
    [profiles] rows have the same [user_id], however often the dialogue was
    completed. *)
Theorem one_profile_per_user (evs : list (update * bool)) :
  NoDup (map p_user_id (profiles (bot_db (run init_bot evs)))).
Proof.
  apply (reached_db profile_unique); [constructor | exact profile_unique_op].
Qed.

Lemma like_row_exists (d : db) (x y : Z) :
  like_exists d x y = true ->
  exists l, In l (likes d) /\ l_from_user l = x /\ l_to_user l = y.
Proof.
  unfold like_exists. intros H. apply existsb_exists in H as (l & Hin & Hl).
  apply andb_true_iff in Hl as [H1 H2]. apply Z.eqb_eq in H1, H2. eauto.
Qed.

Lemma reached_refs_ok (evs : list (update * bool)) :
  refs_ok (bot_db (run init_bot evs)).
Proof.
  apply (reached_db refs_ok); [|exact refs_ok_op].
  split; [|split]; intros ? [].
Qed.

(** With every match standing on two likes, both its sides are likers. *)
Lemma match_sides_exist (d : db) (m : match_row) :
  refs_ok d -> match_backed d -> In m (matches d) ->
  has_user d (m_a m) = true /\ has_user d (m_b m) = true.
Proof.
  intros (_ & Hl & _) Hb Hin. destruct (Hb m Hin) as [H1 H2].
  apply like_row_exists in H1 as (l1 & Hin1 & <- & _).
  apply like_row_exists in H2 as (l2 & Hin2 & <- & _).
  split; now apply Hl.
Qed.

(** X3.  References resolve: in every database the bot reaches, the owner
    of every profile, the author of every like, both sides of every match
    and both sides of every report are internal ids of [users] rows. *)
Theorem references_resolve (evs : list (update * bool)) :
  let d := bot_db (run init_bot evs) in
  (forall p, In p (profiles d) -> has_user d (p_user_id p) = true)
  /\ (forall l, In l (likes d) -> has_user d (l_from_user l) = true)
  /\ (forall m, In m (matches d) ->
        has_user d (m_a m) = true /\ has_user d (m_b m) = true)
  /\ (forall r, In r (reports d) ->
        has_user d (r_reporter_id r) = true
        /\ has_user d (r_reported_id r) = true).
Proof.
  intros d. pose proof (reached_refs_ok evs) as H. fold d in H.
  destruct (run_inv evs init_bot db_inv_init) as (_ & _ & Hb & _).
  fold d in Hb. pose proof (match_sides_exist d) as Hm.
  destruct H as (Hp & Hl & Hr).
  split; [exact Hp|]. split; [exact Hl|]. split; [|exact Hr].
  intros m Hin. apply Hm; auto. now split.
Qed.

(** ** The relay in a reachable database *)

Lemma has_user_by_id (d : db) (i : Z) :
  has_user d i = true ->
  exists row, user_by_id d i = Some row /\ u_id row = i /\ In row (users d).
Proof.
  unfold has_user, user_by_id. rewrite find_existsb.
  destruct (find _ (users d)) as [row|] eqn:E; [|discriminate].
  intros _. apply find_some in E as [Hin Hid]. apply Z.eqb_eq in Hid. eauto.
Qed.

Lemma like_exists_ensure (d : db) (t : tg_user) (x y : Z) :
  like_exists (fst (ensure_user d t)) x y = like_exists d x y.
Proof.
  unfold like_exists. destruct (ensure_user_tables d t) as (_ & -> & _).
  reflexivity.
Qed.

(** What the relay does with a text when the sender's first active match
    is there and both its sides have [users] rows. *)
Lemma relay_with_match (d : db) (text : string) (t : tg_user) (ok : bool) :
  refs_ok d -> match_backed d ->
  let sender_id := snd (ensure_user d t) in
  let acts := snd (relay_messages d (Some (Some text)) t ok) in
  (has_active_match d sender_id = false
   /\ acts = [reply_text msg_no_match None])
  \/ exists row,
       In row (users (fst (ensure_user d t)))
       /\ like_exists d sender_id (u_id row) = true
       /\ like_exists d (u_id row) sender_id = true
       /\ acts
          = send_message (u_tg_id row)
              ("Anonymous#" ++ Py.str_of_int sender_id ++ ":" ++ Py.nl
               ++ text)%string
            :: (if ok then [reply_text "Sent to your match." None]
                else [log_exception;
                      reply_text
                        "Failed to send message. The other user might have blocked the bot or hasn't started it."
                        None]).
Proof.
  intros Hrefs Hb sender_id acts. subst sender_id acts.
  pose proof (has_active_match_ensure d t (snd (ensure_user d t))) as Ha.
  pose proof (fun i => has_user_ensure d t i) as Hmono.
  destruct (ensure_user_tables d t) as (_ & _ & Hm & _).
  unfold relay_messages.
  destruct (ensure_user d t) as [d0 uid]. cbn [fst snd] in *.
  unfold has_active_match at 1 in Ha. rewrite find_existsb in Ha.
  destruct (find (active_match_of uid) (matches d0)) as [m|] eqn:E;
    [|left; split; [now rewrite <- Ha | reflexivity]].
  right. apply find_some in E as [Hin Hact]. rewrite Hm in Hin.
  destruct (match_sides_exist d m Hrefs Hb Hin) as [Hua Hub].
  destruct (Hb m Hin) as [Lab Lba].
  unfold active_match_of in Hact. apply andb_true_iff in Hact as [Hside _].
  assert (Hother : has_user d0 (if m_a m =? uid then m_b m else m_a m) = true
                   /\ like_exists d uid (if m_a m =? uid then m_b m else m_a m)
                      = true
                   /\ like_exists d (if m_a m =? uid then m_b m else m_a m) uid
                      = true).
  { destruct (m_a m =? uid) eqn:Ea.
    - apply Z.eqb_eq in Ea. rewrite <- Ea. auto.
    - simpl in Hside. apply Z.eqb_eq in Hside. rewrite <- Hside. auto. }
  destruct Hother as (Hu & L1 & L2).
  apply has_user_by_id in Hu as (row & Hrow & Hid & Hrin).
  rewrite Hrow. exists row. rewrite Hid.
  split; [exact Hrin|]. split; [exact L1|]. split; [exact L2|].
  destruct ok; reflexivity.
Qed.

(** X4.  The relay reaches the partner.  In every database the bot reaches,
    a text message either finds no active match and gets that answer, or is
    sent, under the label [Anonymous#<sender's internal id>], to the chat of
    a user whom the sender likes and who likes the sender; the answer that
    the match's contact could not be found never occurs. *)
Theorem relay_reaches_partner (evs : list (update * bool)) (text : string)
    (t : tg_user) (ok : bool) :
  let d := bot_db (run init_bot evs) in
  let sender_id := snd (ensure_user d t) in
  let acts := snd (relay_messages d (Some (Some text)) t ok) in
  (has_active_match d sender_id = false
   /\ acts = [reply_text msg_no_match None])
  \/ exists row,
       In row (users (fst (ensure_user d t)))
       /\ like_exists d sender_id (u_id row) = true
       /\ like_exists d (u_id row) sender_id = true
       /\ acts
          = send_message (u_tg_id row)
              ("Anonymous#" ++ Py.str_of_int sender_id ++ ":" ++ Py.nl
               ++ text)%string
            :: (if ok then [reply_text "Sent to your match." None]
                else [log_exception;
                      reply_text
                        "Failed to send message. The other user might have blocked the bot or hasn't started it."
                        None]).
Proof.
  intros d. apply relay_with_match.
  - apply reached_refs_ok.
  - apply (run_inv evs init_bot db_inv_init).
Qed.

(** ** Saving a profile and reading it back *)

Lemma find_map_keep {A : Type} (key : A -> Z) (k : Z) (f : A -> A)
    (l : list A) :
  (forall x, key (f x) = key x) ->
  find (fun x => key x =? k) (map f l)
  = option_map f (find (fun x => key x =? k) l).
Proof.
  intros Hf. induction l as [|a l IH]; simpl; auto.
  rewrite Hf. destruct (key a =? k); auto.
Qed.




(** ** Complete rows *)

Lemma rows_complete_same (d d' : db) :
  users d' = users d -> profiles d' = profiles d ->
  rows_complete d -> rows_complete d'.
Proof. unfold rows_complete. now intros -> ->. Qed.

Lemma rows_complete_ensure (d : db) (t : tg_user) :
  rows_complete d -> rows_complete (fst (ensure_user d t)).
Proof.
  intros [Hp Hu]. split; [now rewrite profiles_ensure|].
  unfold ensure_user. destruct (user_by_tg d (tg_id t)); [exact Hu|].
  simpl. intros u Hin. apply in_app_or in Hin as [Hin|[<-|[]]]; auto.
  discriminate.
Qed.

Lemma rows_complete_callback (d : db) (u : tg_user) (payload : option string)
    (ok : bool) :
  rows_complete d -> rows_complete (fst (callback_query_handler d u payload ok)).
Proof.
  intros H. rewrite callback_db.
  destruct (parse_callback _) as [[a t]|]; auto.
  destruct (a =? "like")%string; [|now apply rows_complete_ensure].
  apply rows_complete_ensure with (t := u) in H. revert H.
  apply rows_complete_same; [apply users_record | apply profiles_record].
Qed.

Lemma rows_complete_report (d : db) (t : tg_user) (args : list string) :
  rows_complete d -> rows_complete (fst (report_handler d t args)).
Proof.
  intros H. unfold report_handler. destruct (_ <? 2); auto.
  destruct (Py.int _); auto.
  apply rows_complete_ensure with (t := t) in H.
  destruct (ensure_user d t) as [d0 uid]. simpl in H.
  destruct (user_by_tg d0 _); exact H.
Qed.

Lemma rows_complete_relay (d : db) (msg : option (option string))
    (t : tg_user) (ok : bool) :
  rows_complete d -> rows_complete (fst (relay_messages d msg t ok)).
Proof.
  intros H. unfold relay_messages. destruct msg as [[text|]|]; auto.
  apply rows_complete_ensure with (t := t) in H.
  destruct (ensure_user d t) as [d0 uid]. simpl in H.
  destruct (find _ _); [|exact H].
  destruct (user_by_id d0 _); [|exact H].
  destruct ok; exact H.
Qed.

Lemma rows_complete_delete (d : db) (t : tg_user) :
  rows_complete d -> rows_complete (fst (delete_account d t)).
Proof.
  intros [Hp Hu]. unfold delete_account.
  destruct (user_by_tg d (tg_id t)); [|now split].
  split; simpl; intros x Hin; apply filter_In in Hin as [Hin _]; auto.
Qed.

Lemma rows_complete_saved (d : db) (t : tg_user) (ud : user_data)
    (photo : option string) :
  rows_complete d -> collected A_PHOTO ud ->
  rows_complete
    (replace_profile
       (update_name (fst (ensure_user d t)) (ud_name ud) (snd (ensure_user d t)))
       (snd (ensure_user d t)) (ud_age ud) (ud_gender ud) (ud_bio ud) photo).
Proof.
  intros H ([n [Hn _]] & Ha & Hg & Hb).
  apply rows_complete_ensure with (t := t) in H. destruct H as [Hp Hu].
  split; simpl.
  - intros p Hin. apply in_app_or in Hin as [Hin|[<-|[]]]; [|now repeat split].
    apply filter_In in Hin as [Hin _]. auto.
  - intros u Hin. apply in_map_iff in Hin as (u0 & <- & Hin).
    destruct (u_id u0 =? _); [simpl; congruence | auto].
Qed.

Lemma complete_with_db (s : bot) (r : db * list action) :
  rows_complete (fst r) -> complete s -> complete (fst (with_db s r)).
Proof. intros Hr [_ Hc]. split; simpl; auto. Qed.

Lemma complete_after_conv (s : bot) (k : Z) (d : db)
    (r : user_data * conv_next * list action) :
  complete s -> rows_complete d ->
  match snd (fst r) with
  | Goto st => collected st (fst (fst r))
  | END => True
  end ->
  complete (fst (after_conv s k d r)).
Proof.
  destruct r as [[ud n] acts]. intros [_ Hc] Hd Hn. split; simpl; [exact Hd|].
  intros k'. unfold set_at. destruct (k' =? k); [|apply Hc].
  destruct n; auto.
Qed.

Lemma profile_age_collects (text : string) (ud ud' : user_data)
    (n : conv_next) (acts : list action) :
  named ud -> profile_age text ud = Returned (ud', n, acts) ->
  match n with
  | Goto st => collected st ud'
  | END => True
  end.
Proof.
  intros Hn H. pose proof (profile_age_advances_adult text ud ud' n acts H) as Ha.
  unfold profile_age in H. destruct (negb _);
    [injection H as <- <- <-; exact Hn|].
  destruct (Py.int _) as [age|]; [|discriminate].
  destruct (age <? 18); injection H as <- <- <-; [exact I|].
  split; [exact Hn | exact Ha].
Qed.

Lemma conv_complete (s : bot) (u : update) (r : bot * list action) :
  complete s -> conv_handler s u = Some r -> complete (fst r).
Proof.
  intros Hs. pose proof Hs as [Hr Hc]. unfold conv_handler.
  destruct u as [from name args|from text|from file|from p|from];
    try discriminate; specialize (Hc (tg_id from)).
  - destruct (conv s (tg_id from)) as [[]|]; try discriminate.
    + destruct (name =? "skip")%string; [|discriminate].
      pose proof (rows_complete_saved (bot_db s) from (data s (tg_id from))
                    None Hr Hc) as Ha.
      unfold skip_photo.
      destruct (ensure_user (bot_db s) from) as [d0 uid].
      cbn [fst snd] in Ha. intros [= <-].
      exact (complete_after_conv s (tg_id from) _ (no_data, END, []) Hs Ha I).
    + destruct (name =? "create_profile")%string; [|discriminate].
      intros [= <-].
      exact (complete_after_conv s (tg_id from) (bot_db s)
               (data s (tg_id from), Goto A_NAME, []) Hs Hr I).
  - destruct (conv s (tg_id from)) as [[]|]; try discriminate.
    + intros [= <-].
      assert (Hn : match snd (fst (profile_name text (data s (tg_id from)))) with
                   | Goto st =>
                       collected st
                         (fst (fst (profile_name text (data s (tg_id from)))))
                   | END => True
                   end).
      { unfold profile_name. destruct (_ <? 2) eqn:E; [exact I|].
        exists (Py.strip text). split; [reflexivity|]. now apply Z.ltb_ge. }
      exact (complete_after_conv s (tg_id from) (bot_db s)
               (profile_name text (data s (tg_id from))) Hs Hr Hn).
    + destruct (profile_age text (data s (tg_id from)))
        as [[[ud' n] acts]|] eqn:E; intros [= <-]; [|exact Hs].
      apply (profile_age_collects _ _ _ _ _ Hc) in E.
      exact (complete_after_conv s (tg_id from) (bot_db s) (ud', n, acts)
               Hs Hr E).
    + intros [= <-]. destruct Hc as [Hn Ha].
      assert (Hg : collected A_BIO
                     (fst (fst (profile_gender text (data s (tg_id from))))))
        by (repeat split; auto; discriminate).
      exact (complete_after_conv s (tg_id from) (bot_db s)
               (profile_gender text (data s (tg_id from))) Hs Hr Hg).
    + intros [= <-]. destruct Hc as (Hn & Ha & Hg).
      assert (Hb : collected A_PHOTO
                     (fst (fst (profile_bio text (data s (tg_id from))))))
        by (repeat split; auto; discriminate).
      exact (complete_after_conv s (tg_id from) (bot_db s)
               (profile_bio text (data s (tg_id from))) Hs Hr Hb).
  - destruct (conv s (tg_id from)) as [[]|]; try discriminate.
    assert (Hc' : collected A_PHOTO
                    (mk_user_data (ud_name (data s (tg_id from)))
                       (ud_age (data s (tg_id from)))
                       (ud_gender (data s (tg_id from)))
                       (ud_bio (data s (tg_id from))) (Some file)))
      by exact Hc.
    pose proof (rows_complete_saved (bot_db s) from _ (Some file) Hr Hc') as Ha.
    unfold profile_photo.
    destruct (ensure_user (bot_db s) from) as [d0 uid].
    cbn [fst snd ud_name ud_age ud_gender ud_bio ud_photo] in Ha.
    intros [= <-].
    exact (complete_after_conv s (tg_id from) _ (no_data, END, []) Hs Ha I).
Qed.

Lemma handle_complete (s : bot) (u : update) (ok : bool) :
  complete s -> complete (fst (handle s u ok)).
Proof.
  intros H. pose proof H as [Hr _]. unfold handle.
  destruct (is_command u "start"); [exact H|].
  destruct (is_command u "help"); [exact H|].
  destruct (conv_handler s u) as [r|] eqn:E;
    [exact (conv_complete s u r H E)|].
  destruct u as [from name args|from text|from file|from p|from]; auto.
  - destruct (name =? "find")%string.
    { apply complete_with_db; auto. rewrite find_handler_db.
      now apply rows_complete_ensure. }
    destruct (name =? "myprofile")%string; [exact H|].
    destruct (name =? "delete_account")%string.
    { apply complete_with_db; auto. now apply rows_complete_delete. }
    destruct (name =? "report")%string; [|exact H].
    apply complete_with_db; auto. now apply rows_complete_report.
  - apply complete_with_db; auto. now apply rows_complete_relay.
  - apply complete_with_db; auto. now apply rows_complete_callback.
Qed.

Lemma run_complete (evs : list (update * bool)) (s : bot) :
  complete s -> complete (run s evs).
Proof.
  revert s. induction evs as [|[u ok] evs IH]; simpl; auto.
  intros s Hs. apply IH, handle_complete, Hs.
Qed.

Lemma complete_init : complete init_bot.
Proof. split; [split; intros ? [] | intros k; exact I]. Qed.

(** X6.  Stored rows are complete.  In every database the bot reaches,
    every profile has an age of at least 18, a gender and a bio, and every
    user has a name: none of these columns is ever [NULL], so no card shows
    [None] for them. *)
Theorem stored_rows_complete (evs : list (update * bool)) :
  let d := bot_db (run init_bot evs) in
  (forall p, In p (profiles d) ->
     exists a g b,
       p_age p = Some a /\ 18 <= a /\ p_gender p = Some g
       /\ p_bio p = Some b)
  /\ (forall u, In u (users d) -> exists n, u_name u = Some n).
Proof.
  intros d. destruct (run_complete evs init_bot complete_init) as [[Hp Hu] _].
  fold d in Hp, Hu. split.
  - intros p Hin. destruct (Hp p Hin) as ((a & Ha & Hge) & Hg & Hb).
    destruct (p_gender p) as [g|]; [|contradiction].
    destruct (p_bio p) as [b|]; [|contradiction].
    exists a, g, b. auto.
  - intros u Hin. specialize (Hu u Hin).
    destruct (u_name u) as [n|]; [eauto | contradiction].
Qed.

(** ** Browsing, liking, skipping *)

Lemma filter_shrinks {A : Type} (f g : A -> bool) (l : list A) (x : A) :
  (forall y, g y = true -> f y = true) ->
  In x l -> f x = true -> g x = false ->
  (List.length (filter g l) < List.length (filter f l))%nat.
Proof.
  intros Hgf. induction l as [|a l IH]; simpl; [tauto|].
  assert (Hle : (List.length (filter g l) <= List.length (filter f l))%nat).
  { clear IH. induction l as [|b l IHl]; simpl; auto.
    destruct (g b) eqn:Eg; [rewrite (Hgf b Eg); simpl; lia|].
    destruct (f b); simpl; lia. }
  intros [->|Hin] Hf Hg.
  - rewrite Hf, Hg. simpl. lia.
  - specialize (IH Hin Hf Hg).
    destruct (g a) eqn:Eg; [rewrite (Hgf a Eg); simpl; lia|].
    destruct (f a); simpl; lia.
Qed.

Lemma joined_same (d d' : db) :
  users d' = users d -> profiles d' = profiles d -> joined d' = joined d.
Proof. unfold joined. now intros -> ->. Qed.

Lemma find_handler_offer (d : db) (t : tg_user) (p : profile_row)
    (u : user_row) :
  find_candidate (fst (ensure_user d t)) (snd (ensure_user d t)) = Some (p, u) ->
  exists a,
    snd (find_handler d t) = [a]
    /\ payloads a
       = [("like:" ++ Py.str_of_int (p_user_id p))%string;
          ("skip:" ++ Py.str_of_int (p_user_id p))%string].
Proof.
  intros H. unfold find_handler. destruct (ensure_user d t) as [d1 uid].
  simpl in H. rewrite H. destruct (truthy _); eexists; split; reflexivity.
Qed.

Lemma press_like_db (d : db) (t : tg_user) (n : Z) (ok : bool) :
  fst (callback_query_handler (fst (ensure_user d t)) t
         (Some ("like:" ++ Py.str_of_int n)%string) ok)
  = record_like (fst (ensure_user d t)) (snd (ensure_user d t)) n.
Proof.
  rewrite callback_db, parse_like_payload. simpl.
  now rewrite (ensure_user_again d t t eq_refl).
Qed.

Lemma like_offered_card (d : db) (t : tg_user) (p : profile_row)
    (u : user_row) (ok : bool) :
  let d1 := fst (ensure_user d t) in
  let uid := snd (ensure_user d t) in
  let payload := ("like:" ++ Py.str_of_int (p_user_id p))%string in
  let d2 := fst (callback_query_handler d1 t (Some payload) ok) in
  find_candidate d1 uid = Some (p, u) ->
  (exists a,
     snd (find_handler d t) = [a]
     /\ payloads a
        = [payload; ("skip:" ++ Py.str_of_int (p_user_id p))%string])
  /\ like_exists d2 uid (p_user_id p) = true
  /\ (forall p' u',
        find_candidate d2 uid = Some (p', u') -> p_user_id p' <> p_user_id p)
  /\ (List.length (candidates d2 uid) < List.length (candidates d1 uid))%nat.
Proof.
  intros d1 uid payload d2 Hfind.
  assert (Hd2 : d2 = record_like d1 uid (p_user_id p))
    by apply press_like_db.
  assert (Hlike : forall x,
            like_exists d2 uid x
            = like_exists d1 uid x || (p_user_id p =? x)).
  { intros x. rewrite Hd2, like_exists_record, Z.eqb_refl. reflexivity. }
  split; [exact (find_handler_offer d t p u Hfind)|].
  split; [rewrite Hlike, Z.eqb_refl; apply orb_true_r|].
  split.
  - intros p' u' H. unfold find_candidate in H. rewrite hd_error_filter in H.
    apply find_some in H as [_ Hel]. apply eligible_spec in Hel as [_ Hl].
    simpl in Hl. rewrite Hlike in Hl. apply orb_false_iff in Hl as [_ Hne].
    apply Z.eqb_neq in Hne. congruence.
  - unfold candidates.
    rewrite (joined_same d1 d2)
      by (rewrite Hd2; first [apply users_record | apply profiles_record]).
    unfold find_candidate in Hfind. rewrite hd_error_filter in Hfind.
    apply find_some in Hfind as [Hin Hel].
    apply (filter_shrinks _ _ _ (p, u)); auto.
    + intros y Hy. apply eligible_spec in Hy as [H1 H2].
      rewrite Hlike in H2. apply orb_false_iff in H2 as [H2 _].
      apply eligible_spec. auto.
    + destruct (eligible d2 uid (p, u)) eqn:E; [|reflexivity].
      apply eligible_spec in E as [_ E]. simpl in E.
      rewrite Hlike, Z.eqb_refl, orb_true_r in E. discriminate.
Qed.


(** X7.  Liking the offered card.  When [/find] offers a profile, its card
    carries the payloads [like:<owner>] and [skip:<owner>]; pressing the
    first records a like from the requester to the owner, after which the
    query never returns that owner to the requester again and has strictly
    fewer rows to choose from. *)
Theorem offered_like_is_recorded (d : db) (t : tg_user) (p : profile_row)
    (u : user_row) (ok : bool) :
  let d1 := fst (ensure_user d t) in
  let uid := snd (ensure_user d t) in
  let payload := ("like:" ++ Py.str_of_int (p_user_id p))%string in
  let d2 := fst (callback_query_handler d1 t (Some payload) ok) in
  find_candidate d1 uid = Some (p, u) ->
  (exists a,
     snd (find_handler d t) = [a]
     /\ payloads a
        = [payload; ("skip:" ++ Py.str_of_int (p_user_id p))%string])
  /\ like_exists d2 uid (p_user_id p) = true
  /\ (forall p' u',
        find_candidate d2 uid = Some (p', u') -> p_user_id p' <> p_user_id p)
  /\ (List.length (candidates d2 uid) < List.length (candidates d1 uid))%nat.
Proof. exact (like_offered_card d t p u ok). Qed.

Lemma offered_like_is_recorded_witness :
  find_candidate (fst (ensure_user bob_banned_db ann))
    (snd (ensure_user bob_banned_db ann))
  = Some (mk_profile 2 2 (Some 31) (Some "M") (Some "yo") None,
          mk_user 2 43 None (Some "Bob Ray") 1)
  /\ like_exists
       (fst (callback_query_handler (fst (ensure_user bob_banned_db ann)) ann
               (Some "like:2") true))
       1 2 = true.
Proof.
  split; [reflexivity|].
  destruct (offered_like_is_recorded bob_banned_db ann
              (mk_profile 2 2 (Some 31) (Some "M") (Some "yo") None)
              (mk_user 2 43 None (Some "Bob Ray") 1) true eq_refl)
    as (_ & H & _).
  exact H.
Defined.

Lemma parse_skip_payload (n : Z) :
  parse_callback ("skip:" ++ Py.str_of_int n) = Some ("skip", n).
Proof.
  unfold parse_callback. simpl. rewrite PyFacts.int_str_of_int. reflexivity.
Qed.

Lemma find_handler_again (d : db) (t : tg_user) :
  find_handler (fst (ensure_user d t)) t = find_handler d t.
Proof.
  unfold find_handler. rewrite (ensure_user_again d t t eq_refl).
  destruct (ensure_user d t) as [d1 uid]. reflexivity.
Qed.

(** X8.  A skip leaves no trace.  Pressing [skip:<n>] is acknowledged and
    writes nothing beyond registering the presser, so [/find] answers after
    the skip exactly as it did before: the same database, the same card. *)
Theorem skip_resurfaces (d : db) (t : tg_user) (n : Z) (ok : bool) :
  callback_query_handler d t (Some ("skip:" ++ Py.str_of_int n)%string) ok
  = (fst (ensure_user d t), [answer; edit_message_text msg_skipped])
  /\ find_handler
       (fst (callback_query_handler d t
               (Some ("skip:" ++ Py.str_of_int n)%string) ok)) t
     = find_handler d t.
Proof.
  assert (H : callback_query_handler d t
                (Some ("skip:" ++ Py.str_of_int n)%string) ok
              = (fst (ensure_user d t),
                 [answer; edit_message_text msg_skipped])).
  { unfold callback_query_handler. rewrite parse_skip_payload.
    destruct (ensure_user d t). reflexivity. }
  split; [exact H|]. rewrite H. apply find_handler_again.
Qed.

(** ** What a button press writes *)

Lemma reports_record (d : db) (f t : Z) :
  reports (record_like d f t) = reports d.
Proof.
  unfold record_like. cbv zeta.
  destruct (like_exists d f t); simpl;
    match goal with |- context [if ?c then _ else _] => destruct c end;
    simpl; try match goal with
               |- context [if ?c then _ else _] => destruct c
               end; reflexivity.
Qed.

Lemma users_ensure_cases (d : db) (t : tg_user) :
  users (fst (ensure_user d t)) = users d
  \/ users (fst (ensure_user d t)) = users d ++ [new_user d t].
Proof.
  unfold ensure_user. destruct (user_by_tg d (tg_id t)); simpl; auto.
Qed.

Lemma callback_reply_shape (d : db) (u : tg_user) (payload : option string)
    (ok : bool) :
  exists m rest,
    snd (callback_query_handler d u payload ok)
    = answer :: edit_message_text m :: rest.
Proof.
  unfold callback_query_handler.
  destruct (parse_callback _) as [[a t]|]; [|simpl; eauto].
  destruct (ensure_user d u) as [d0 f].
  destruct (a =? "skip")%string; [simpl; eauto|].
  destruct (a =? "like")%string; [|simpl; eauto].
  match goal with |- context [like_exists ?x t f] =>
    destruct (like_exists x t f) end; simpl; eauto.
Qed.

(** X9.  A button press writes little.  Whatever the payload, as long as a
    like names a target that fits the database's 64-bit integers, a press
    never touches [profiles] or [reports], adds at most the presser to
    [users], at most one [likes] row and at most one [matches] row, both
    with the presser on the first side; a payload that cannot be read
    leaves the whole database as it was; and the press is answered and the
    message edited. *)
Theorem press_writes_little (d : db) (u : tg_user) (payload : option string)
    (ok : bool) :
  payload_fits payload = true ->
  let r := callback_query_handler d u payload ok in
  let from_user := snd (ensure_user d u) in
  profiles (fst r) = profiles d
  /\ reports (fst r) = reports d
  /\ (users (fst r) = users d \/ users (fst r) = users d ++ [new_user d u])
  /\ (likes (fst r) = likes d
      \/ exists target,
           likes (fst r)
           = likes d ++ [mk_like (next_id l_id (likes d)) from_user target])
  /\ (matches (fst r) = matches d
      \/ exists target,
           matches (fst r)
           = matches d
             ++ [mk_match (next_id m_id (matches d)) from_user target 1])
  /\ (parse_callback (match payload with Some s => s | None => "" end) = None
      -> fst r = d)
  /\ exists m rest, snd r = answer :: edit_message_text m :: rest.
Proof.
  intros _ r from_user. subst r from_user.
  destruct (ensure_user_tables d u) as (Ep & El & Em & Er).
  split; [apply profiles_callback|].
  split; [|split; [|split; [|split; [|split]]]];
    try apply callback_reply_shape; rewrite callback_db;
    destruct (parse_callback _) as [[a t]|]; auto; try discriminate;
    destruct (a =? "like")%string; auto;
    rewrite ?reports_record, ?users_record; auto using users_ensure_cases.
  - rewrite likes_record, El.
    destruct (like_exists _ _ t); [left; reflexivity | right; eauto].
  - destruct (matches_record (fst (ensure_user d u)) (snd (ensure_user d u)) t)
      as [E | (_ & _ & E)]; rewrite E, Em; [left; reflexivity | right; eauto].
Qed.

Lemma press_writes_little_witness :
  payload_fits (Some "like:7") = true
  /\ exists m rest,
       snd (callback_query_handler init_db ann (Some "like:7") true)
       = answer :: edit_message_text m :: rest.
Proof.
  split; [reflexivity|].
  destruct (press_writes_little init_db ann (Some "like:7") true eq_refl)
    as (_ & _ & _ & _ & _ & _ & Hreply).
  exact Hreply.
Defined.

(** ** The match notification *)

(** What a like press answers and sends, by the state it leaves. *)
Lemma callback_like_acts (d : db) (u : tg_user) (payload : string)
    (target : Z) (ok : bool) :
  parse_callback payload = Some ("like", target) ->
  let r := callback_query_handler d u (Some payload) ok in
  let from_user := snd (ensure_user d u) in
  snd r
  = if like_exists (fst r) target from_user then
      [answer; edit_message_text msg_match]
      ++ match user_by_id (fst r) target with
         | Some row =>
             send_message (u_tg_id row) msg_new_match
             :: (if ok then [] else [log_warning])
         | None => []
         end
    else [answer; edit_message_text msg_liked].
Proof.
  intros Hp. unfold callback_query_handler. rewrite Hp.
  destruct (ensure_user d u) as [d0 f]. simpl.
  match goal with |- context [like_exists ?x target f] =>
    set (d1 := x); destruct (like_exists d1 target f) eqn:E end;
    simpl; [|now rewrite E].
  assert (E' : like_exists
                 (if match_exists d1 f target then d1
                  else insert_match d1 f target) target f = true)
    by (destruct (match_exists d1 f target); exact E).
  rewrite E'. reflexivity.
Qed.

(** X10.  Who is told about a match.  A button press sends a message to
    another chat only when it is a like whose target already likes the
    presser; the message is the new-match notice and goes to the chat of
    the target's [users] row, and then the pair has likes both ways and a
    match.  The notice is sent on every such press, also when the match
    existed before. *)
Theorem match_notice_goes_to_target (d : db) (u : tg_user)
    (payload : option string) (ok : bool) :
  let r := callback_query_handler d u payload ok in
  let from_user := snd (ensure_user d u) in
  (forall chat text,
     In (send_message chat text) (snd r) ->
     exists target row,
       parse_callback (match payload with Some s => s | None => "" end)
       = Some ("like", target)
       /\ like_exists (fst r) from_user target = true
       /\ like_exists (fst r) target from_user = true
       /\ match_exists (fst r) from_user target = true
       /\ user_by_id (fst r) target = Some row
       /\ chat = u_tg_id row /\ text = msg_new_match)
  /\ (forall target row,
        parse_callback (match payload with Some s => s | None => "" end)
        = Some ("like", target) ->
        like_exists (fst r) target from_user = true ->
        user_by_id (fst r) target = Some row ->
        In (send_message (u_tg_id row) msg_new_match) (snd r)).
Proof.
  intros r from_user. split.
  - intros chat text Hin.
    destruct (parse_callback (match payload with Some s => s | None => "" end))
      as [[a t]|] eqn:Hp.
    + destruct (a =? "like")%string eqn:Ea.
      * apply String.eqb_eq in Ea. subst a.
        assert (Hr : r = callback_query_handler d u
                           (Some (match payload with
                                  | Some s => s
                                  | None => ""
                                  end)) ok)
          by (subst r; destruct payload; reflexivity).
        pose proof (callback_like_acts d u _ t ok Hp) as Hacts.
        cbv zeta in Hacts. rewrite <- Hr in Hacts. fold from_user in Hacts.
        assert (Hdb : fst r = record_like (fst (ensure_user d u)) from_user t).
        { subst r. rewrite callback_db, Hp. reflexivity. }
        rewrite Hacts in Hin.
        destruct (like_exists (fst r) t from_user) eqn:E;
          [|destruct Hin as [H|[H|[]]]; discriminate].
        destruct Hin as [H|[H|Hin]]; try discriminate.
        destruct (user_by_id (fst r) t) as [row|] eqn:Erow; [|destruct Hin].
        assert (Hsend : send_message chat text
                        = send_message (u_tg_id row) msg_new_match).
        { destruct Hin as [H|Hin]; [now symmetry|].
          destruct ok; [destruct Hin|].
          destruct Hin as [H|[]]; discriminate. }
        injection Hsend as -> ->.
        exists t, row. split; [reflexivity|].
        split; [rewrite Hdb, like_exists_record, !Z.eqb_refl;
                apply orb_true_r|].
        split; [exact E|].
        split; [rewrite Hdb; apply match_after_record; now rewrite <- Hdb|].
        auto.
      * exfalso. subst r. unfold callback_query_handler in Hin. rewrite Hp in Hin.
        destruct (ensure_user d u) as [d0 f].
        destruct (a =? "skip")%string;
          [|rewrite Ea in Hin];
          destruct Hin as [H|[H|[]]]; discriminate.
    + exfalso. subst r. unfold callback_query_handler in Hin. rewrite Hp in Hin.
      destruct Hin as [H|[H|[]]]; discriminate.
  - intros target row Hp Hl Hrow.
    assert (Hr : r = callback_query_handler d u
                       (Some (match payload with
                              | Some s => s
                              | None => ""
                              end)) ok)
      by (subst r; destruct payload; reflexivity).
    pose proof (callback_like_acts d u _ target ok Hp) as Hacts.
    cbv zeta in Hacts. rewrite <- Hr in Hacts. fold from_user in Hacts.
    rewrite Hacts, Hl, Hrow. simpl. auto.
Qed.

Lemma match_notice_goes_to_target_witness :
  In (send_message 42 msg_new_match)
    (snd (callback_query_handler matched_db bob (Some "like:1") true))
  /\ match_exists matched_db 2 1 = true.
Proof.
  split; [|reflexivity].
  destruct (match_notice_goes_to_target matched_db bob (Some "like:1") true)
    as [_ H].
  apply (H 1 (mk_user 1 42 (Some "ann_l") (Some "Ann") 0)); reflexivity.
Defined.

(** ** When the age question raises *)

Lemma to_ascii_char_digit (c : ascii) :
  Py.isdigit_char c = true ->
  digit_or_mark (Py.to_ascii_char c) = true
  /\ Py.is_decimal (Py.to_ascii_char c) = Py.is_decimal c
  /\ (Py.is_decimal c = false -> N.ltb (Py.code c) 128 = false).
Proof.
  destruct c as [[] [] [] [] [] [] [] []]; vm_compute; intros H;
    try discriminate; repeat split; congruence.
Qed.

Lemma digit_or_mark_plain (c : ascii) :
  digit_or_mark c = true ->
  Py.c_isspace c = false
  /\ N.eqb (Py.code c) 45 = false /\ N.eqb (Py.code c) 43 = false
  /\ (Py.is_decimal c = false -> Py.is_underscore c = false).
Proof.
  destruct c as [[] [] [] [] [] [] [] []]; vm_compute; intros H;
    try discriminate; repeat split; congruence.
Qed.

Lemma map_to_ascii_digits (s : string) :
  Py.forall_chars Py.isdigit_char s = true ->
  Py.forall_chars digit_or_mark (Py.map_chars Py.to_ascii_char s) = true
  /\ Py.forall_chars Py.is_decimal (Py.map_chars Py.to_ascii_char s)
     = Py.forall_chars Py.is_decimal s.
Proof.
  induction s as [|c r IH]; simpl; auto. intros H.
  apply andb_true_iff in H as [Hc Hr]. destruct (IH Hr) as [IH1 IH2].
  destruct (to_ascii_char_digit c Hc) as (H1 & H2 & _).
  now rewrite H1, H2, IH1, IH2.
Qed.

Lemma not_all_ascii (s : string) :
  Py.forall_chars Py.isdigit_char s = true ->
  Py.forall_chars Py.is_decimal s = false ->
  Py.forall_chars (fun c => N.ltb (Py.code c) 128) s = false.
Proof.
  induction s as [|c r IH]; simpl; [discriminate|]. intros H Hd.
  apply andb_true_iff in H as [Hc Hr].
  destruct (to_ascii_char_digit c Hc) as (_ & _ & H3).
  destruct (Py.is_decimal c) eqn:E; simpl in Hd.
  - rewrite (IH Hr Hd). apply andb_false_r.
  - now rewrite (H3 eq_refl).
Qed.

(** After the digits of such a string comes a question mark, not the end. *)
Lemma span_run_stops_at_mark (s : string) :
  Py.forall_chars digit_or_mark s = true ->
  Py.forall_chars Py.is_decimal s = false ->
  Py.is_empty (Py.skip_cspace (snd (Py.span_run s))) = false.
Proof.
  induction s as [|c r IH]; simpl; [discriminate|]. intros H Hd.
  apply andb_true_iff in H as [Hc Hr].
  destruct (digit_or_mark_plain c Hc) as (Hs & _ & _ & Hu).
  destruct (Py.is_decimal c) eqn:E; simpl in *.
  - specialize (IH Hr Hd). destruct (Py.span_run r) as [a b]. exact IH.
  - rewrite (Hu eq_refl). simpl. now rewrite Hs.
Qed.

Lemma int_rejects_superscripts (s : string) :
  Py.isdigit s = true -> Py.forall_chars Py.is_decimal s = false ->
  Py.int s = None.
Proof.
  unfold Py.isdigit. intros H Hd. apply andb_true_iff in H as [_ H].
  destruct (map_to_ascii_digits s H) as [Hm Hmd]. rewrite Hd in Hmd.
  unfold Py.int, Py.to_ascii. rewrite (not_all_ascii s H Hd).
  set (s' := Py.map_chars Py.to_ascii_char s) in *.
  assert (Hplain : Py.split_sign (Py.skip_cspace s') = (false, s')).
  { destruct s' as [|c r]; [reflexivity|]. simpl in Hm.
    apply andb_true_iff in Hm as [Hc _].
    destruct (digit_or_mark_plain c Hc) as (Hs & H45 & H43 & _).
    simpl. rewrite Hs. simpl. now rewrite H45, H43. }
  rewrite Hplain. pose proof (span_run_stops_at_mark s' Hm Hmd) as Hstop.
  destruct (Py.span_run s') as [a b]. simpl in Hstop.
  now rewrite Hstop, andb_false_r.
Qed.

(** X11.  When the age question raises.  [profile_age] raises [ValueError]
    exactly when the stripped text passes [str.isdigit] and is not made of
    decimal digits alone, that is, when it is made of digits and holds a
    superscript digit; on every other text it returns. *)
Theorem profile_age_raises_iff (text : string) (ud : user_data) :
  profile_age text ud = ValueError
  <-> Py.isdigit (Py.strip text) = true
      /\ Py.forall_chars Py.is_decimal (Py.strip text) = false.
Proof.
  split.
  - intros H. destruct (Py.forall_chars Py.is_decimal (Py.strip text)) eqn:E.
    + now elim (profile_age_decimal_returns text ud E).
    + split; [|reflexivity]. unfold profile_age in H.
      destruct (Py.isdigit (Py.strip text)); [reflexivity | discriminate].
  - intros [Hd Hs]. unfold profile_age.
    rewrite Hd, (int_rejects_superscripts _ Hd Hs). reflexivity.
Qed.

(** ** A whole dialogue *)

Lemma set_at_same {A : Type} (f : Z -> A) (k : Z) (v : A) :
  set_at f k v k = v.
Proof. unfold set_at. now rewrite Z.eqb_refl. Qed.

Lemma set_at_other {A : Type} (f : Z -> A) (k k' : Z) (v : A) :
  k' <> k -> set_at f k v k' = f k'.
Proof. unfold set_at. intros H. apply Z.eqb_neq in H. now rewrite H. Qed.

Lemma step_start (s : bot) (t : tg_user) (ok : bool) :
  conv s (tg_id t) = None ->
  fst (handle s (Command t "create_profile" []) ok)
  = mk_bot (bot_db s) (set_at (conv s) (tg_id t) (Some A_NAME))
      (set_at (data s) (tg_id t) (data s (tg_id t))).
Proof. intros H. unfold handle. simpl. rewrite H. reflexivity. Qed.

Lemma step_name (s : bot) (t : tg_user) (name : string) (ok : bool) :
  conv s (tg_id t) = Some A_NAME -> 2 <= Py.len (Py.strip name) ->
  fst (handle s (Text t name) ok)
  = mk_bot (bot_db s) (set_at (conv s) (tg_id t) (Some A_AGE))
      (set_at (data s) (tg_id t)
         (mk_user_data (Some (Py.strip name)) (ud_age (data s (tg_id t)))
            (ud_gender (data s (tg_id t))) (ud_bio (data s (tg_id t)))
            (ud_photo (data s (tg_id t))))).
Proof.
  intros H Hlen. unfold handle. simpl. rewrite H. unfold profile_name.
  replace (Py.len (Py.strip name) <? 2) with false
    by (symmetry; apply Z.ltb_ge; exact Hlen).
  reflexivity.
Qed.

Lemma step_age (s : bot) (t : tg_user) (text : string) (age : Z) (ok : bool) :
  conv s (tg_id t) = Some A_AGE ->
  Py.isdigit (Py.strip text) = true -> Py.int (Py.strip text) = Some age ->
  18 <= age ->
  fst (handle s (Text t text) ok)
  = mk_bot (bot_db s) (set_at (conv s) (tg_id t) (Some A_GENDER))
      (set_at (data s) (tg_id t)
         (mk_user_data (ud_name (data s (tg_id t))) (Some age)
            (ud_gender (data s (tg_id t))) (ud_bio (data s (tg_id t)))
            (ud_photo (data s (tg_id t))))).
Proof.
  intros H Hd Hi Hge. unfold handle. simpl. rewrite H.
  destruct (profile_age_cases text (data s (tg_id t))) as (_ & _ & Hok).
  rewrite (Hok age Hd Hi Hge). reflexivity.
Qed.

Lemma step_gender (s : bot) (t : tg_user) (text : string) (ok : bool) :
  conv s (tg_id t) = Some A_GENDER ->
  fst (handle s (Text t text) ok)
  = mk_bot (bot_db s) (set_at (conv s) (tg_id t) (Some A_BIO))
      (set_at (data s) (tg_id t)
         (mk_user_data (ud_name (data s (tg_id t))) (ud_age (data s (tg_id t)))
            (Some (Py.strip text)) (ud_bio (data s (tg_id t)))
            (ud_photo (data s (tg_id t))))).
Proof. intros H. unfold handle. simpl. rewrite H. reflexivity. Qed.

Lemma step_bio (s : bot) (t : tg_user) (text : string) (ok : bool) :
  conv s (tg_id t) = Some A_BIO ->
  fst (handle s (Text t text) ok)
  = mk_bot (bot_db s) (set_at (conv s) (tg_id t) (Some A_PHOTO))
      (set_at (data s) (tg_id t)
         (mk_user_data (ud_name (data s (tg_id t))) (ud_age (data s (tg_id t)))
            (ud_gender (data s (tg_id t))) (Some (Py.strip text))
            (ud_photo (data s (tg_id t))))).
Proof. intros H. unfold handle. simpl. rewrite H. reflexivity. Qed.

Lemma step_skip (s : bot) (t : tg_user) (ok : bool) :
  conv s (tg_id t) = Some A_PHOTO ->
  fst (handle s (Command t "skip" []) ok)
  = mk_bot
      (save_profile (fst (ensure_user (bot_db s) t))
         (snd (ensure_user (bot_db s) t)) (ud_name (data s (tg_id t)))
         (ud_age (data s (tg_id t))) (ud_gender (data s (tg_id t)))
         (ud_bio (data s (tg_id t))) None)
      (set_at (conv s) (tg_id t) None)
      (set_at (data s) (tg_id t) no_data).
Proof.
  intros H. unfold handle. simpl. rewrite H. unfold skip_photo.
  destruct (ensure_user (bot_db s) t). reflexivity.
Qed.

(** X12.  A valid dialogue always ends in a saved profile.  For a user with
    no dialogue open, the command, a name of at least two characters once
    stripped, an age text of digits that reads as at least 18 and fits the
    database's 64-bit integers, any gender, any bio and [/skip] leave the database as [ensure_user] and one save of
    the stripped name, the age, the stripped gender and bio, without photo,
    make it; the dialogue is closed, its data cleared, and no other user's
    dialogue or data is touched. *)
Theorem dialogue_completes (s : bot) (t : tg_user)
    (name age_text gender bio : string) (age : Z) :
  conv s (tg_id t) = None ->
  2 <= Py.len (Py.strip name) ->
  Py.isdigit (Py.strip age_text) = true ->
  Py.int (Py.strip age_text) = Some age ->
  18 <= age ->
  in_int64 age = true ->
  let s' := run s (dialogue t name age_text gender bio) in
  bot_db s'
  = save_profile (fst (ensure_user (bot_db s) t))
      (snd (ensure_user (bot_db s) t)) (Some (Py.strip name)) (Some age)
      (Some (Py.strip gender)) (Some (Py.strip bio)) None
  /\ conv s' (tg_id t) = None
  /\ data s' (tg_id t) = no_data
  /\ forall k, k <> tg_id t -> conv s' k = conv s k /\ data s' k = data s k.
Proof.
  intros Hc Hlen Hd Hi Hge _ s'. subst s'. unfold dialogue, run.
  rewrite (step_start s t true Hc).
  set (s1 := mk_bot _ _ _).
  rewrite (step_name s1 t name true (set_at_same _ _ _) Hlen).
  set (s2 := mk_bot _ _ _).
  rewrite (step_age s2 t age_text age true (set_at_same _ _ _) Hd Hi Hge).
  set (s3 := mk_bot _ _ _).
  rewrite (step_gender s3 t gender true (set_at_same _ _ _)).
  set (s4 := mk_bot _ _ _).
  rewrite (step_bio s4 t bio true (set_at_same _ _ _)).
  set (s5 := mk_bot _ _ _).
  rewrite (step_skip s5 t true (set_at_same _ _ _)).
  cbn [bot_db conv data]. subst s5 s4 s3 s2 s1. cbn [bot_db conv data].
  rewrite !set_at_same. cbn [ud_name ud_age ud_gender ud_bio].
  split; [reflexivity|]. split; [reflexivity|]. split; [reflexivity|].
  intros k Hk. rewrite !set_at_other by exact Hk. split; reflexivity.
Qed.

Lemma dialogue_completes_witness :
  conv init_bot (tg_id ann) = None
  /\ 2 <= Py.len (Py.strip "  Ann Lee ")
  /\ Py.isdigit (Py.strip "20") = true
  /\ Py.int (Py.strip "20") = Some 20
  /\ 18 <= 20
  /\ in_int64 20 = true
  /\ profiles (bot_db (run init_bot
                         (dialogue ann "  Ann Lee " "20" "F" "Hello there")))
     = [mk_profile 1 1 (Some 20) (Some "F") (Some "Hello there") None].
Proof.
  assert (H18 : 18 <= 20) by lia.
  assert (H2 : 2 <= Py.len (Py.strip "  Ann Lee ")) by (vm_compute; congruence).
  destruct (dialogue_completes init_bot ann "  Ann Lee " "20" "F"
              "Hello there" 20 eq_refl H2 eq_refl eq_refl H18 eq_refl)
    as (Hdb & _).
  split; [reflexivity|]. split; [exact H2|]. split; [reflexivity|].
  split; [reflexivity|]. split; [exact H18|]. split; [reflexivity|].
  rewrite Hdb. reflexivity.
Defined.

(** ** After an account deletion *)

Lemma has_user_below_next (d : db) (i : Z) :
  has_user d i = true -> i < next_id u_id (users d).
Proof.
  intros H. apply has_user_by_id in H as (row & _ & <- & Hin).
  now apply next_id_fresh.
Qed.

(** A user who is not registered and registers now starts with no like, no
    profile and no match, when the references of the database resolve. *)
Lemma newcomer_is_blank (d : db) (t : tg_user) :
  refs_ok d -> match_backed d -> user_by_tg d (tg_id t) = None ->
  let n := snd (ensure_user d t) in
  let d1 := fst (ensure_user d t) in
  has_active_match d n = false
  /\ candidates d1 n = joined d1.
Proof.
  intros Hrefs Hb Hnone n d1.
  assert (Hn : n = next_id u_id (users d))
    by (subst n; now rewrite (ensure_user_new d t Hnone)).
  assert (Hfresh : has_user d n = false).
  { destruct (has_user d n) eqn:E; [|reflexivity].
    apply has_user_below_next in E. lia. }
  split.
  - unfold has_active_match. destruct (existsb _ _) eqn:E; [|reflexivity].
    apply existsb_exists in E as (m & Hin & Hact).
    destruct (match_sides_exist d m Hrefs Hb Hin) as [Ha Hb'].
    unfold active_match_of in Hact. apply andb_true_iff in Hact as [Hside _].
    apply orb_true_iff in Hside as [H|H]; apply Z.eqb_eq in H; congruence.
  - destruct Hrefs as (Hp & Hl & _). unfold candidates.
    assert (Hall : forall pu, In pu (joined d1) -> eligible d1 n pu = true).
    { intros [p u] Hin. apply in_joined in Hin as (Hpin & _ & _).
      subst d1. rewrite profiles_ensure in Hpin. apply eligible_spec. simpl.
      split.
      - intros E. specialize (Hp p Hpin). congruence.
      - rewrite like_exists_ensure.
        destruct (like_exists d n (p_user_id p)) eqn:E; [|reflexivity].
        apply like_row_exists in E as (l & Hlin & Hf & _).
        specialize (Hl l Hlin). congruence. }
    induction (joined d1) as [|pu l IH]; simpl; auto.
    rewrite (Hall pu (or_introl eq_refl)). f_equal.
    apply IH. intros x Hx. apply Hall. now right.
Qed.

Lemma relay_no_match (d : db) (text : string) (t : tg_user) (ok : bool) :
  has_active_match d (snd (ensure_user d t)) = false ->
  snd (relay_messages d (Some (Some text)) t ok)
  = [reply_text msg_no_match None].
Proof.
  intros H. rewrite <- has_active_match_ensure with (t := t) in H.
  unfold relay_messages. destruct (ensure_user d t) as [d0 uid].
  cbn [fst snd] in H. unfold has_active_match in H.
  rewrite find_existsb in H.
  destruct (find (active_match_of uid) (matches d0)); [discriminate|].
  reflexivity.
Qed.

(** X13.  A deleted user starts over.  In every database the bot reaches,
    once a user has deleted the account, [/myprofile] finds no account, a
    text from that user finds no active match and is sent to nobody, and
    [/find] registers the user again and chooses among all the profiles
    with a [users] row: the likes given before the deletion exclude nobody
    any more. *)
Theorem deleted_user_starts_over (evs : list (update * bool)) (t : tg_user)
    (text : string) (ok : bool) :
  let d := fst (delete_account (bot_db (run init_bot evs)) t) in
  myprofile d t = [reply_text msg_no_account None]
  /\ snd (relay_messages d (Some (Some text)) t ok)
     = [reply_text msg_no_match None]
  /\ user_count (fst (find_handler d t)) (tg_id t) = 1%nat
  /\ candidates (fst (find_handler d t)) (snd (ensure_user d t))
     = joined (fst (find_handler d t)).
Proof.
  intros d.
  assert (Hgone : user_by_tg d (tg_id t) = None).
  { apply deleted_not_found, run_tg_unique. }
  assert (Hrefs : refs_ok d).
  { apply (refs_ok_op _ _ (op_delete _ t)), reached_refs_ok. }
  assert (Hb : match_backed d).
  { apply (delete_account_inv _ t (run_inv evs init_bot db_inv_init)). }
  destruct (newcomer_is_blank d t Hrefs Hb Hgone) as [Hm Hc].
  split; [unfold myprofile; now rewrite Hgone|].
  split.
  - now apply relay_no_match.
  - rewrite find_handler_db. split; [|exact Hc].
    apply user_count_zero in Hgone as H0.
    rewrite (ensure_user_new d t Hgone). unfold user_count in *. simpl.
    rewrite filter_app_last, length_app, H0. simpl.
    now rewrite Z.eqb_refl.
Qed.

(** ** Reports that go through *)

(** X14.  What a report stores.  With at least two arguments, the first
    reading as a number that fits the database's 64-bit integers, the
    handler registers the reporter and then either
    finds no user under that external id and stores nothing, or appends
    exactly one [reports] row: the reporter's internal id, the internal id
    of the user found, and the remaining arguments joined by blanks.  The
    reporter's own external id is always found, registered before or not:
    the row then names the reporter on both sides. *)
Theorem report_stores_one_row (d : db) (t : tg_user) (args : list string)
    (target : Z) :
  (2 <= List.length args)%nat ->
  Py.int (hd "" args) = Some target ->
  in_int64 target = true ->
  let d0 := fst (ensure_user d t) in
  let reporter := snd (ensure_user d t) in
  let reason := String.concat " " (tl args) in
  match user_by_tg d0 target with
  | Some row =>
      report_handler d t args
      = (insert_report d0 reporter (u_id row) reason,
         [reply_text "Report received. Admin will review it." None])
  | None =>
      report_handler d t args = (d0, [reply_text "User not found." None])
  end
  /\ (target = tg_id t ->
      reports (fst (report_handler d t args))
      = reports d
        ++ [mk_report (next_id r_id (reports d)) reporter reporter reason]).
Proof.
  intros Hlen Hint _ d0 reporter reason.
  assert (Hr : report_handler d t args
               = match user_by_tg d0 target with
                 | Some row =>
                     (insert_report d0 reporter (u_id row) reason,
                      [reply_text "Report received. Admin will review it."
                         None])
                 | None => (d0, [reply_text "User not found." None])
                 end).
  { unfold report_handler.
    replace (Z.of_nat (List.length args) <? 2) with false
      by (symmetry; apply Z.ltb_ge; lia).
    rewrite Hint. subst d0 reporter reason.
    destruct (ensure_user d t) as [d1 uid]. cbn [fst snd].
    destruct (user_by_tg d1 target); reflexivity. }
  split.
  - destruct (user_by_tg d0 target); exact Hr.
  - intros ->. rewrite Hr.
    destruct (ensure_user_resolves d t) as (row & Hrow & Hid).
    fold d0 in Hrow. fold reporter in Hid. rewrite Hrow. simpl.
    subst d0. destruct (ensure_user_tables d t) as (_ & _ & _ & ->).
    now rewrite Hid.
Qed.

Lemma report_stores_one_row_witness :
  (2 <= List.length ["42"; "spam"])%nat
  /\ Py.int (hd "" ["42"; "spam"]) = Some 42
  /\ in_int64 42 = true
  /\ reports (fst (report_handler init_db ann ["42"; "spam"]))
     = [mk_report 1 1 1 "spam"].
Proof.
  assert (Hlen : (2 <= List.length ["42"; "spam"])%nat) by (simpl; lia).
  destruct (report_stores_one_row init_db ann ["42"; "spam"] 42 Hlen eq_refl
              eq_refl) as [_ Hown].
  split; [exact Hlen|]. split; [reflexivity|]. split; [reflexivity|].
  exact (Hown eq_refl).
Defined.

(** ** Text during the dialogue *)

(** X15.  Answers to the dialogue are not relayed.  While a user's dialogue
    waits for the name, the age, the gender or the bio, a text from that
    user writes nothing to the database and is sent to no other chat, even
    when the user has an active match.  While it waits for the photo, a
    text is not an answer: it goes to the relay, and the dialogue stays
    where it is. *)
Theorem dialogue_text_is_not_relayed (s : bot) (t : tg_user) (text : string)
    (ok : bool) (st : conv_state) :
  conv s (tg_id t) = Some st ->
  let r := handle s (Text t text) ok in
  match st with
  | A_PHOTO =>
      r = with_db s (relay_messages (bot_db s) (Some (Some text)) t ok)
      /\ conv (fst r) (tg_id t) = Some A_PHOTO
  | _ => bot_db (fst r) = bot_db s /\ existsb is_send (snd r) = false
  end.
Proof.
  intros H r. subst r. unfold handle. simpl. rewrite H.
  destruct st; simpl.
  - unfold profile_name. destruct (_ <? 2); split; reflexivity.
  - unfold profile_age. destruct (negb _); [split; reflexivity|].
    destruct (Py.int _) as [age|]; [|split; reflexivity].
    destruct (age <? 18); split; reflexivity.
  - split; reflexivity.
  - split; reflexivity.
  - split; [reflexivity | exact H].
Qed.

Lemma dialogue_text_is_not_relayed_witness :
  conv ann_at_age (tg_id ann) = Some A_AGE
  /\ existsb is_send (snd (handle ann_at_age (Text ann "hello") true)) = false.
Proof.
  split; [reflexivity|].
  exact (proj2 (dialogue_text_is_not_relayed ann_at_age ann "hello" true A_AGE
                  eq_refl)).
Defined.

(** ** Only a deletion removes rows *)

Lemma grows_refl (d : db) : grows d d.
Proof. repeat split; eauto. Qed.

Lemma grows_trans (d d1 d2 : db) : grows d d1 -> grows d1 d2 -> grows d d2.
Proof.
  intros (L1 & M1 & R1 & U1) (L2 & M2 & R2 & U2).
  split; [|split; [|split]]; auto.
  intros tg row H. destruct (U1 tg row H) as (row1 & H1 & E1).
  destruct E1 as [E1 N1]. destruct (U2 tg row1 H1) as (row2 & H2 & E2 & N2).
  exists row2. repeat split; congruence.
Qed.

Lemma find_app_first {A : Type} (f : A -> bool) (l l' : list A) (x : A) :
  find f l = Some x -> find f (l ++ l') = Some x.
Proof.
  induction l as [|a l IH]; simpl; [discriminate|].
  destruct (f a); auto.
Qed.

Lemma grows_ensure (d : db) (t : tg_user) : grows d (fst (ensure_user d t)).
Proof.
  destruct (ensure_user_tables d t) as (_ & El & Em & Er).
  split; [intros l; now rewrite El|].
  split; [intros m; now rewrite Em|].
  split; [intros r; now rewrite Er|].
  intros tg row H. exists row. split; [|split; reflexivity].
  unfold ensure_user. destruct (user_by_tg d (tg_id t)); [exact H|].
  unfold user_by_tg in *. simpl. now apply find_app_first.
Qed.

Lemma grows_record (d : db) (f t : Z) : grows d (record_like d f t).
Proof.
  split; [|split; [|split]].
  - intros l Hin. rewrite likes_record.
    destruct (like_exists d f t); [exact Hin | apply in_or_app; now left].
  - intros m Hin.
    destruct (matches_record d f t) as [-> | (_ & _ & ->)];
      [exact Hin | apply in_or_app; now left].
  - intros r. now rewrite reports_record.
  - intros tg row H. exists row. split; [|split; reflexivity].
    unfold user_by_tg in *. now rewrite users_record.
Qed.

Lemma grows_save (d : db) (uid : Z) (name : option string) (age : option Z)
    (gender bio photo : option string) :
  grows d (save_profile d uid name age gender bio photo).
Proof.
  split; [|split; [|split]]; auto.
  intros tg row H. unfold user_by_tg in *.
  cbn [save_profile replace_profile update_name users set_profiles set_users].
  rewrite (find_map_keep u_tg_id tg
             (fun u => if u_id u =? uid
                       then mk_user (u_id u) (u_tg_id u) (u_username u) name
                              (u_is_banned u)
                       else u))
    by (intros x; destruct (u_id x =? uid); reflexivity).
  rewrite H. simpl. eexists. split; [reflexivity|].
  destruct (u_id row =? uid); split; reflexivity.
Qed.

Lemma grows_callback (d : db) (u : tg_user) (payload : option string)
    (ok : bool) :
  grows d (fst (callback_query_handler d u payload ok)).
Proof.
  rewrite callback_db. destruct (parse_callback _) as [[a t]|];
    [|apply grows_refl].
  destruct (a =? "like")%string; [|apply grows_ensure].
  eapply grows_trans; [apply grows_ensure | apply grows_record].
Qed.

Lemma grows_relay (d : db) (msg : option (option string)) (t : tg_user)
    (ok : bool) :
  grows d (fst (relay_messages d msg t ok)).
Proof.
  unfold relay_messages. destruct msg as [[text|]|]; try apply grows_refl.
  pose proof (grows_ensure d t) as H.
  destruct (ensure_user d t) as [d0 uid]. simpl in H.
  destruct (find _ _); [|exact H].
  destruct (user_by_id d0 _); [|exact H].
  destruct ok; exact H.
Qed.

Lemma grows_report (d : db) (t : tg_user) (args : list string) :
  grows d (fst (report_handler d t args)).
Proof.
  unfold report_handler. destruct (_ <? 2); [apply grows_refl|].
  destruct (Py.int _); [|apply grows_refl].
  pose proof (grows_ensure d t) as H.
  destruct (ensure_user d t) as [d0 uid]. simpl in H.
  destruct (user_by_tg d0 _); [|exact H].
  eapply grows_trans; [exact H|].
  split; [|split; [|split]]; simpl; auto; [|eauto].
  intros r Hin. apply in_or_app. now left.
Qed.

Lemma grows_saved (d : db) (t : tg_user) (ud : user_data)
    (photo : option string) :
  grows d
    (replace_profile
       (update_name (fst (ensure_user d t)) (ud_name ud) (snd (ensure_user d t)))
       (snd (ensure_user d t)) (ud_age ud) (ud_gender ud) (ud_bio ud) photo).
Proof.
  eapply grows_trans; [apply grows_ensure with (t := t)|].
  apply (grows_save (fst (ensure_user d t)) (snd (ensure_user d t))).
Qed.

Lemma grows_conv (s : bot) (u : update) (r : bot * list action) :
  conv_handler s u = Some r -> grows (bot_db s) (bot_db (fst r)).
Proof.
  unfold conv_handler.
  destruct u as [from name args|from text|from file|from p|from];
    try discriminate.
  - destruct (conv s (tg_id from)) as [[]|]; try discriminate.
    + destruct (name =? "skip")%string; [|discriminate].
      pose proof (skip_photo_db (bot_db s) from (data s (tg_id from))) as E.
      destruct (skip_photo _ _ _) as [[[d ud] n] acts]. simpl in E.
      intros [= <-]. simpl. rewrite E. apply grows_saved.
    + destruct (name =? "create_profile")%string; [|discriminate].
      intros [= <-]. apply grows_refl.
  - destruct (conv s (tg_id from)) as [[]|]; try discriminate;
      try (intros [= <-]; try rewrite after_conv_db; apply grows_refl).
    destruct (profile_age _ _); intros [= <-];
      [rewrite after_conv_db|]; apply grows_refl.
  - destruct (conv s (tg_id from)) as [[]|]; try discriminate.
    pose proof (profile_photo_db (bot_db s) from file (data s (tg_id from)))
      as E.
    destruct (profile_photo _ _ _ _) as [[[d ud] n] acts]. simpl in E.
    intros [= <-]. simpl. rewrite E. apply grows_saved.
Qed.

(** X16.  Only [/delete_account] removes.  Any update other than the
    command [/delete_account] keeps every [likes], [matches] and [reports]
    row that was there, unchanged (so a match stays active), and every
    external id that resolved before still resolves to the same internal
    id, under the username stored at first contact. *)
Theorem only_deletion_removes (s : bot) (u : update) (ok : bool) :
  is_command u "delete_account" = false ->
  let d := bot_db s in
  let d' := bot_db (fst (handle s u ok)) in
  (forall l, In l (likes d) -> In l (likes d'))
  /\ (forall m, In m (matches d) -> In m (matches d'))
  /\ (forall r, In r (reports d) -> In r (reports d'))
  /\ (forall tg row,
        user_by_tg d tg = Some row ->
        exists row',
          user_by_tg d' tg = Some row' /\ u_id row' = u_id row
          /\ u_username row' = u_username row).
Proof.
  intros Hnd d d'. change (grows d d'). subst d d'. unfold handle.
  destruct (is_command u "start"); [apply grows_refl|].
  destruct (is_command u "help"); [apply grows_refl|].
  destruct (conv_handler s u) as [r|] eqn:E; [exact (grows_conv s u r E)|].
  destruct u as [from name args|from text|from file|from p|from];
    try apply grows_refl.
  - simpl in Hnd. destruct (name =? "find")%string.
    { unfold with_db; cbn [fst bot_db]. rewrite find_handler_db.
      apply grows_ensure. }
    destruct (name =? "myprofile")%string; [apply grows_refl|].
    rewrite Hnd.
    destruct (name =? "report")%string; [|apply grows_refl].
    unfold with_db; cbn [fst bot_db]. apply grows_report.
  - unfold with_db; cbn [fst bot_db]. apply grows_relay.
  - unfold with_db; cbn [fst bot_db]. apply grows_callback.
Qed.

Lemma only_deletion_removes_witness :
  is_command (Command ann "find" []) "delete_account" = false
  /\ In (mk_match 1 2 1 1)
       (matches (bot_db (fst (handle (mk_bot matched_db (fun _ => None)
                                        (fun _ => no_data))
                                (Command ann "find" []) true)))).
Proof.
  split; [reflexivity|].
  destruct (only_deletion_removes
              (mk_bot matched_db (fun _ => None) (fun _ => no_data))
              (Command ann "find" []) true eq_refl) as (_ & Hm & _).
  apply Hm. left. reflexivity.
Defined.

(** ** Browsing to the end *)

Lemma find_handler_empty (d : db) (t : tg_user) :
  candidates (fst (ensure_user d t)) (snd (ensure_user d t)) = [] ->
  find_handler d t = (fst (ensure_user d t), [reply_text msg_try_later None]).
Proof.
  intros H. unfold find_handler, find_candidate.
  destruct (ensure_user d t) as [d1 uid]. cbn [fst snd] in H.
  unfold candidates in H. now rewrite H.
Qed.

(** X17.  Browsing comes to an end.  A user who keeps pressing the like
    button of whatever card [/find] offers is told, after at most as many
    rounds as the query had rows to choose from, that no profiles are
    available. *)
Theorem browsing_ends (n : nat) (d : db) (t : tg_user) :
  (List.length (candidates (fst (ensure_user d t)) (snd (ensure_user d t)))
   <= n)%nat ->
  find_handler (like_offered n d t) t
  = (like_offered n d t, [reply_text msg_try_later None]).
Proof.
  revert d. induction n as [|n IH]; intros d Hlen.
  - simpl. rewrite find_handler_again.
    apply find_handler_empty.
    destruct (candidates _ _); [reflexivity | simpl in Hlen; lia].
  - simpl.
    destruct (find_candidate (fst (ensure_user d t)) (snd (ensure_user d t)))
      as [[p u]|] eqn:E.
    + destruct (like_offered_card d t p u true E) as (_ & _ & _ & Hlt).
      set (d2 := fst (callback_query_handler (fst (ensure_user d t)) t
                        (Some ("like:" ++ Py.str_of_int (p_user_id p))%string)
                        true)) in *.
      assert (He : ensure_user d2 t = (d2, snd (ensure_user d t))).
      { apply ensure_user_same_users. subst d2.
        rewrite press_like_db. apply users_record. }
      apply (IH d2). rewrite He. cbn [fst snd]. lia.
    + rewrite find_handler_again. apply find_handler_empty.
      unfold find_candidate in E. unfold candidates.
      destruct (filter _ _); [reflexivity | discriminate].
Qed.

Lemma browsing_ends_witness :
  (List.length (candidates (fst (ensure_user bob_banned_db ann))
                  (snd (ensure_user bob_banned_db ann))) <= 1)%nat
  /\ snd (find_handler (like_offered 1 bob_banned_db ann) ann)
     = [reply_text msg_try_later None].
Proof.
  assert (H : (List.length (candidates (fst (ensure_user bob_banned_db ann))
                             (snd (ensure_user bob_banned_db ann))) <= 1)%nat)
    by (vm_compute; lia).
  split; [exact H|].
  rewrite (browsing_ends 1 bob_banned_db ann H). reflexivity.
Defined.

(** ** Flags *)

Lemma flags_default_op (d d' : db) :
  db_op d d' -> flags_default d -> flags_default d'.
Proof.
  intros Hop [Hu Hm].
  destruct Hop as [d t|d f t _|d t|d a b reason _ _
                  |d uid name age gender bio photo _].
  - destruct (ensure_user_tables d t) as (_ & _ & Em & _).
    split; [|now rewrite Em].
    unfold ensure_user. destruct (user_by_tg d (tg_id t)); [exact Hu|].
    simpl. intros u Hin. apply in_app_or in Hin as [Hin|[<-|[]]]; auto.
  - split; [now rewrite users_record|].
    destruct (matches_record d f t) as [-> | (_ & _ & ->)]; [exact Hm|].
    intros m Hin. apply in_app_or in Hin as [Hin|[<-|[]]]; auto.
  - unfold delete_account. destruct (user_by_tg d (tg_id t)); [|now split].
    split; simpl; intros x Hin; apply filter_In in Hin as [Hin _]; auto.
  - now split.
  - split; [|exact Hm]. simpl. intros u Hin.
    apply in_map_iff in Hin as (u0 & <- & Hin).
    destruct (u_id u0 =? uid); simpl; auto.
Qed.

(** X18.  No handler bans or unmatches.  In every database the bot
    reaches, every [users] row has [is_banned = 0] and every [matches] row
    has [active = 1]: an active match for a user is any match that names
    the user. *)
Theorem flags_never_change (evs : list (update * bool)) :
  let d := bot_db (run init_bot evs) in
  (forall u, In u (users d) -> u_is_banned u = 0)
  /\ (forall m, In m (matches d) -> m_active m = 1)
  /\ forall uid,
       has_active_match d uid
       = existsb (fun m => (m_a m =? uid) || (m_b m =? uid)) (matches d).
Proof.
  intros d.
  assert (H : flags_default d).
  { apply (reached_db flags_default); [|exact flags_default_op].
    split; intros ? []. }
  destruct H as [Hu Hm]. split; [exact Hu|]. split; [exact Hm|].
  intros uid. unfold has_active_match.
  induction (matches d) as [|m l IH]; simpl; auto.
  rewrite IH by (intros x Hx; apply Hm; now right).
  unfold active_match_of. rewrite (Hm m (or_introl eq_refl)).
  simpl. now rewrite andb_true_r.
Qed.
